(** * MqttDashboard: the analysis and scheduling core, embedded in Rocq

    The development follows the Python sources module by module:

    - [config]               src/config/config.py (the thresholds read by the core)
    - [time_utils]           src/utils/time_utils.py
    - [heartbeat_monitor]    src/services/heartbeat_monitor.py
    - [temperature_analyzer] src/services/temperature_analyzer.py
    - [data_manager]         src/services/data_manager.py
    - [message_handler]      src/mqtt/message_handler.py (the heartbeat parser)

    Conventions of the embedding.

    - A Python [float] is read as the rational it denotes ([Q]); a reading is
      a finite number.  Comparisons are decided by [Qle_bool]/[Qeq_bool], and
      every threshold of the code (0.5, 1.0, 1.5, 3.0, -5.0, 8.0) is a binary
      fraction, so the literals are the same numbers.  The arithmetic of the
      embedding is exact, where the code rounds every sum, quotient and
      difference to the nearest double.  The numbered properties (C1 to C10,
      X1 to X22) are stated so that this rounding does not bear on them: they
      compare the inputs as they are, or relate a result to the attribute it
      is made from, or use a test of a difference against a threshold only
      from the test to the exact difference (rounding to nearest is monotone
      and the thresholds are doubles, so a rounded difference beyond a
      threshold comes from an exact difference beyond it); none of them
      equates a stored mean or a reported difference with the exact one.  The
      runs that are evaluated use temperatures (such as 0, 0.2, 0.5, 1, 4
      and 9) on which the rounded and the exact results pass the same tests.
      The lemmas without a number are facts of the embedding.
    - A timezone-aware [datetime] is the number of microseconds elapsed on the
      America/La_Paz wall clock (a fixed UTC-4 offset, so differences of aware
      datetimes are differences of these counts); a [timedelta] is a number of
      microseconds, and [total_seconds()] its exact quotient by a million.
      The code's quotient is the nearest double, which falls on the same side
      of a whole number of seconds for every elapsed time below 2^34 seconds.
    - A method that mutates [self] takes the object and returns the new one
      next to its result; a Qt signal emitted by a method is returned in the
      list of signals of the call; a value read from the clock by
      [get_bolivia_now()] is an argument of the call that reads it. *)

From Stdlib Require Import String DecimalString ZArith QArith Qabs Qround Lqa Bool Lia List.
Import ListNotations.

Local Open Scope Z_scope.

(** ** Python numbers *)

Module py.

(** [x < y] on floats. *)
Definition ltb (x y : Q) : bool := negb (Qle_bool y x).

(** Truth value of a float: everything but zero. *)
Definition float_truthy (x : Q) : bool := negb (Qeq_bool x 0).

(** [sum(xs)]: a left fold that starts from 0. *)
Definition sum (xs : list Q) : Q := fold_left Qplus xs 0%Q.

(** [len(xs)] as the divisor of a true division. *)
Definition len {A : Type} (xs : list A) : Q := inject_Z (Z.of_nat (length xs)).

(** Nearest integer, ties to the even one (the rounding rule of [round]). *)
Definition round_half_even (x : Q) : Z :=
  let f := Qfloor x in
  match Qcompare (x - inject_Z f) (1 # 2) with
  | Lt => f
  | Gt => f + 1
  | Eq => if Z.even f then f else f + 1
  end.

(** [round(x, 2)]. *)
Definition round2 (x : Q) : Q :=
  Qred (inject_Z (round_half_even (x * 100)) / 100).

(** [xs[-n:]] for a positive [n]. *)
Definition last_n {A : Type} (n : nat) (xs : list A) : list A :=
  skipn (length xs - n) xs.

(** [xs[-n]] for a positive [n]; [None] stands for IndexError. *)
Definition from_end {A : Type} (n : nat) (xs : list A) : option A :=
  nth_error (rev xs) (n - 1).

(** [collections.deque(maxlen=...).append]: the new item goes to the right
    end and the left end is dropped once the deque is longer than [maxlen]. *)
Definition deque_append {A : Type} (maxlen : nat) (xs : list A) (x : A) : list A :=
  last_n maxlen (xs ++ [x]).

(** [min(xs)] and [max(xs)] of a list whose first item is [x]: the first of
    the smallest items, and the first of the largest ones. *)
Definition min_of (x : Q) (xs : list Q) : Q :=
  fold_left (fun best y => if ltb y best then y else best) xs x.

Definition max_of (x : Q) (xs : list Q) : Q :=
  fold_left (fun best y => if ltb best y then y else best) xs x.

(** [int(x)] of a float: the fraction is dropped, towards zero. *)
Definition int (x : Q) : Z := Z.quot (Qnum x) (Zpos (Qden x)).

(** An integer inside an f-string: its decimal digits. *)
Definition str (n : Z) : string := NilZero.string_of_int (Z.to_int n).

End py.

(** ** src/config/config.py *)

Module config.

(** The settings the core reads; each comes from the environment and has a
    default. *)
Record Config := {
  HEARTBEAT_TIMEOUT : Z;
  TEMP_ALERT_RAPID_CHANGE : Q;
  TEMP_ALERT_SLOW_INCREASE : Q;
  TEMP_NORMAL_RANGE_MIN : Q;
  TEMP_NORMAL_RANGE_MAX : Q
}.

(** The defaults of [Config]. *)
Definition defaults : Config := {|
  HEARTBEAT_TIMEOUT := 6;
  TEMP_ALERT_RAPID_CHANGE := 3;
  TEMP_ALERT_SLOW_INCREASE := 3 # 2;
  TEMP_NORMAL_RANGE_MIN := - (5);
  TEMP_NORMAL_RANGE_MAX := 8
|}.

End config.

(** ** src/utils/time_utils.py *)

Module time_utils.

Definition datetime : Type := Z.
Definition timedelta : Type := Z.

(** [timedelta(minutes=n)]. *)
Definition timedelta_minutes (n : Z) : timedelta := n * 60 * 1000000.

(** [timedelta.total_seconds()]. *)
Definition total_seconds (d : timedelta) : Q := inject_Z d / 1000000.

(** The [minute] and [second] fields of a datetime. *)
Definition minute (t : datetime) : Z := (t / 60000000) mod 60.
Definition second (t : datetime) : Z := (t / 1000000) mod 60.

(** The instant [h:m:s] of day 0. *)
Definition at_hms (h m s : Z) : datetime := ((h * 60 + m) * 60 + s) * 1000000.

(** [is_on_the_hour()]; [now] is the value of its clock read. *)
Definition is_on_the_hour (now : datetime) : bool :=
  (minute now =? 0) && (second now <? 5).

(** [should_save_reading(last_save_time)].  The function reads the clock
    twice: [now0] inside [is_on_the_hour()], [now] for the elapsed time. *)
Definition should_save_reading
  (last_save_time : option datetime) (now0 now : datetime) : bool :=
  if negb (is_on_the_hour now0) then false
  else
    match last_save_time with
    | None => true
    | Some last =>
        let time_diff := total_seconds (now - last) in
        Qle_bool 3540 time_diff
    end.

(** [timedelta(hours=n)]. *)
Definition timedelta_hours (n : Z) : timedelta := n * 3600 * 1000000.

(** [dt.replace(hour=0, minute=0, second=0, microsecond=0)]; the origin of
    the clock is a midnight. *)
Definition start_of_day (dt : datetime) : datetime := dt - dt mod 86400000000.

(** [get_bolivia_today_start()]; [now] is the value of its clock read. *)
Definition get_bolivia_today_start (now : datetime) : datetime := start_of_day now.

(** [get_bolivia_today_end()]: the day of [now] at 23:59:59.999999. *)
Definition get_bolivia_today_end (now : datetime) : datetime :=
  start_of_day now + at_hms 23 59 59 + 999999.

(** [format_time_ago(dt)]; [now] is the value of its clock read.  Naive and
    aware datetimes are the same counts here, so the localisation of a naive
    [dt] changes nothing.  The seconds are the whole part of the exact
    quotient, which is the whole part of the code's double for every elapsed
    time below 2^34 seconds. *)
Definition format_time_ago (dt : option datetime) (now : datetime) : string :=
  match dt with
  | None => "Nunca"
  | Some dt =>
      let diff := now - dt in
      let seconds := py.int (total_seconds diff) in
      if seconds <? 0 then "En el futuro"
      else if seconds <? 60 then
        ("hace " ++ py.str seconds ++ " segundo"
         ++ (if negb (seconds =? 1)%Z then "s" else ""))%string
      else if seconds <? 3600 then
        let minutes := seconds / 60 in
        ("hace " ++ py.str minutes ++ " minuto"
         ++ (if negb (minutes =? 1)%Z then "s" else ""))%string
      else if seconds <? 86400 then
        let hours := seconds / 3600 in
        ("hace " ++ py.str hours ++ " hora"
         ++ (if negb (hours =? 1)%Z then "s" else ""))%string
      else
        let days := seconds / 86400 in
        ("hace " ++ py.str days ++ " día"
         ++ (if negb (days =? 1)%Z then "s" else ""))%string
  end.

(** [get_hour_ranges_for_day(date)]. *)
Definition get_hour_ranges_for_day (date : datetime) : list (datetime * datetime) :=
  let day_start := start_of_day date in
  map (fun hour =>
         let start := day_start + timedelta_hours hour in
         let finish := start + timedelta_hours 1 - 1 in
         (start, finish))
      (map Z.of_nat (seq 0 24)).

End time_utils.

(** ** src/services/heartbeat_monitor.py *)

Module heartbeat_monitor.
Import time_utils.

Record HeartbeatMonitor := {
  last_heartbeat_time : option datetime;
  is_online : bool;
  timeout_seconds : Z
}.

(** The two signals of the monitor. *)
Inductive Signal := device_connected | device_disconnected.

(** [HeartbeatMonitor.__init__]. *)
Definition init (cfg : config.Config) : HeartbeatMonitor := {|
  last_heartbeat_time := None;
  is_online := false;
  timeout_seconds := config.HEARTBEAT_TIMEOUT cfg
|}.

(** [register_heartbeat()]. *)
Definition register_heartbeat (now : datetime) (self : HeartbeatMonitor)
  : HeartbeatMonitor * list Signal :=
  let was_offline := negb (is_online self) in
  let self' := {|
    last_heartbeat_time := Some now;
    is_online := true;
    timeout_seconds := timeout_seconds self
  |} in
  (self', if was_offline then [device_connected] else []).

(** [_check_timeout()], the slot of the one-second timer. *)
Definition _check_timeout (now : datetime) (self : HeartbeatMonitor)
  : HeartbeatMonitor * list Signal :=
  match last_heartbeat_time self with
  | None => (self, [])
  | Some last =>
      let elapsed_seconds := total_seconds (now - last) in
      if py.ltb (inject_Z (timeout_seconds self)) elapsed_seconds && is_online self
      then
        ({| last_heartbeat_time := last_heartbeat_time self;
            is_online := false;
            timeout_seconds := timeout_seconds self |},
         [device_disconnected])
      else (self, [])
  end.

(** The timer firing at each instant of [ticks] in turn; the signals of all
    the checks are collected in order. *)
Fixpoint run_checks (ticks : list datetime) (self : HeartbeatMonitor)
  : HeartbeatMonitor * list Signal :=
  match ticks with
  | [] => (self, [])
  | now :: later =>
      let '(self1, out1) := _check_timeout now self in
      let '(self2, out2) := run_checks later self1 in
      (self2, out1 ++ out2)
  end.

(** Number of [device_disconnected] signals in a list of signals. *)
Definition disconnects (out : list Signal) : nat :=
  List.length
    (filter (fun s => match s with device_disconnected => true | _ => false end) out).

(** Whether the silence since [last] is longer than the timeout at [now]. *)
Definition timed_out (timeout : Z) (last now : datetime) : bool :=
  py.ltb (inject_Z timeout) (total_seconds (now - last)).

(** The dictionary [get_status()] returns. *)
Record Status := {
  status_is_online : bool;
  status_last_heartbeat : option datetime;
  status_seconds_since_heartbeat : option Q
}.

(** [get_status()]; [now] is the value of its clock read. *)
Definition get_status (now : datetime) (self : HeartbeatMonitor) : Status :=
  match last_heartbeat_time self with
  | None =>
      {| status_is_online := false;
         status_last_heartbeat := None;
         status_seconds_since_heartbeat := None |}
  | Some last =>
      let elapsed := total_seconds (now - last) in
      {| status_is_online := is_online self;
         status_last_heartbeat := Some last;
         status_seconds_since_heartbeat := Some elapsed |}
  end.

(** [get_time_since_last_heartbeat()]. *)
Definition get_time_since_last_heartbeat (now : datetime) (self : HeartbeatMonitor)
  : option Q :=
  match last_heartbeat_time self with
  | None => None
  | Some last => Some (total_seconds (now - last))
  end.

(** What happens to a monitor: a heartbeat arrives, or the timer fires; each
    comes with the instant of its clock read. *)
Inductive Event :=
| Heartbeat (now : datetime)
| Check (now : datetime).

Definition step (event : Event) (self : HeartbeatMonitor)
  : HeartbeatMonitor * list Signal :=
  match event with
  | Heartbeat now => register_heartbeat now self
  | Check now => _check_timeout now self
  end.

(** A sequence of events, with the signals of all of them in order. *)
Fixpoint run (events : list Event) (self : HeartbeatMonitor)
  : HeartbeatMonitor * list Signal :=
  match events with
  | [] => (self, [])
  | event :: later =>
      let '(self1, out1) := step event self in
      let '(self2, out2) := run later self1 in
      (self2, out1 ++ out2)
  end.

(** Whether a list of signals alternates between the two signals, starting
    with a connection for an offline monitor and with a disconnection for an
    online one. *)
Fixpoint alternates (online : bool) (out : list Signal) : bool :=
  match out with
  | [] => true
  | device_connected :: rest => negb online && alternates true rest
  | device_disconnected :: rest => online && alternates false rest
  end.

(** The state of the connection after a list of signals. *)
Definition online_after (online : bool) (out : list Signal) : bool :=
  fold_left
    (fun _ signal =>
       match signal with device_connected => true | device_disconnected => false end)
    out online.

(** Whether every check of a sequence of events finds the last heartbeat
    (at [last] before the sequence) no older than the timeout. *)
Fixpoint checks_in_time (timeout : Z) (last : datetime) (events : list Event) : Prop :=
  match events with
  | [] => True
  | Heartbeat now :: later => checks_in_time timeout now later
  | Check now :: later =>
      now - last <= timeout * 1000000 /\ checks_in_time timeout last later
  end.

End heartbeat_monitor.

(** ** src/services/temperature_analyzer.py *)

Module temperature_analyzer.
Import time_utils.

Inductive TemperatureAlertType :=
| NONE
| DOOR_OPENING
| CRITICAL_INCREASE
| CRITICAL_DECREASE
| OUT_OF_RANGE.

Definition alert_eqb (a b : TemperatureAlertType) : bool :=
  match a, b with
  | NONE, NONE
  | DOOR_OPENING, DOOR_OPENING
  | CRITICAL_INCREASE, CRITICAL_INCREASE
  | CRITICAL_DECREASE, CRITICAL_DECREASE
  | OUT_OF_RANGE, OUT_OF_RANGE => true
  | _, _ => false
  end.

Record TemperatureReading := {
  temperature : Q;
  timestamp : datetime
}.

(** The messages of a result.  A message that formats a number carries the
    number; the formatting itself is not modelled. *)
Inductive Message :=
| Calibrating
| EstablishingBaseline
| TooLow (current_temp : Q)
| TooHigh (current_temp : Q)
| DoorOpening (temp_change_5min : Q)
| SustainedIncrease (temp_change_10min : Q)
| SustainedDecrease (temp_change_10min : Q)
| RecoveredAfterDoor
| Stabilised
| Normal.

(** The attributes of a [TemperatureAnalyzer]; the attributes that hold
    [None] at construction are options. *)
Record TemperatureAnalyzer := {
  readings : list TemperatureReading;
  baseline_temp : option Q;
  last_alert : option TemperatureAlertType;
  alert_start_time : option datetime;
  recovery_detected : bool;
  consecutive_increases : Z;
  consecutive_decreases : Z
}.

(** The dictionary returned by [add_reading], key by key; the keys
    ['baseline_temp'], ['consecutive_increases'] and ['consecutive_decreases']
    are the fields [reported_baseline], [reported_increases] and
    [reported_decreases]. *)
Record Analysis := {
  alert_type : TemperatureAlertType;
  alert_message : Message;
  current_temp : Q;
  reported_baseline : option Q;
  temp_change : Q;
  is_recovering : bool;
  reported_increases : Z;
  reported_decreases : Z
}.

(** [TemperatureAnalyzer.__init__]. *)
Definition init : TemperatureAnalyzer := {|
  readings := [];
  baseline_temp := None;
  last_alert := None;
  alert_start_time := None;
  recovery_detected := false;
  consecutive_increases := 0;
  consecutive_decreases := 0
|}.

(** Assignments to one attribute. *)
Definition set_readings (v : list TemperatureReading) (self : TemperatureAnalyzer) :=
  {| readings := v;
     baseline_temp := baseline_temp self;
     last_alert := last_alert self;
     alert_start_time := alert_start_time self;
     recovery_detected := recovery_detected self;
     consecutive_increases := consecutive_increases self;
     consecutive_decreases := consecutive_decreases self |}.

Definition set_baseline_temp (v : option Q) (self : TemperatureAnalyzer) :=
  {| readings := readings self;
     baseline_temp := v;
     last_alert := last_alert self;
     alert_start_time := alert_start_time self;
     recovery_detected := recovery_detected self;
     consecutive_increases := consecutive_increases self;
     consecutive_decreases := consecutive_decreases self |}.

Definition set_last_alert (v : option TemperatureAlertType) (self : TemperatureAnalyzer) :=
  {| readings := readings self;
     baseline_temp := baseline_temp self;
     last_alert := v;
     alert_start_time := alert_start_time self;
     recovery_detected := recovery_detected self;
     consecutive_increases := consecutive_increases self;
     consecutive_decreases := consecutive_decreases self |}.

Definition set_alert_start_time (v : option datetime) (self : TemperatureAnalyzer) :=
  {| readings := readings self;
     baseline_temp := baseline_temp self;
     last_alert := last_alert self;
     alert_start_time := v;
     recovery_detected := recovery_detected self;
     consecutive_increases := consecutive_increases self;
     consecutive_decreases := consecutive_decreases self |}.

Definition set_consecutive_increases (v : Z) (self : TemperatureAnalyzer) :=
  {| readings := readings self;
     baseline_temp := baseline_temp self;
     last_alert := last_alert self;
     alert_start_time := alert_start_time self;
     recovery_detected := recovery_detected self;
     consecutive_increases := v;
     consecutive_decreases := consecutive_decreases self |}.

Definition set_consecutive_decreases (v : Z) (self : TemperatureAnalyzer) :=
  {| readings := readings self;
     baseline_temp := baseline_temp self;
     last_alert := last_alert self;
     alert_start_time := alert_start_time self;
     recovery_detected := recovery_detected self;
     consecutive_increases := consecutive_increases self;
     consecutive_decreases := v |}.

(** [self.last_alert and self.last_alert != TemperatureAlertType.NONE]: the
    attribute holds a member of the enumeration (every member is truthy) and
    the member is not [NONE]. *)
Definition alert_active (a : option TemperatureAlertType) : bool :=
  match a with
  | None => false
  | Some k => negb (alert_eqb k NONE)
  end.

(** [self.last_alert == kind]. *)
Definition last_alert_is (kind : TemperatureAlertType) (a : option TemperatureAlertType) : bool :=
  match a with
  | None => false
  | Some k => alert_eqb k kind
  end.

(** [[r for r in self.readings if r.timestamp >= since]]. *)
Definition readings_since (since : datetime) (rs : list TemperatureReading)
  : list TemperatureReading :=
  filter (fun r => since <=? timestamp r) rs.

(** [_update_baseline()].  The mean is the exact one; the code stores the
    double its rounded sum and quotient give. *)
Definition _update_baseline (self : TemperatureAnalyzer) : TemperatureAnalyzer :=
  if (length (readings self) <? 20)%nat then
    if (0 <? length (readings self))%nat then
      set_baseline_temp
        (Some (py.sum (map temperature (readings self)) / py.len (readings self))%Q)
        self
    else self
  else if alert_active (last_alert self) then self
  else
    let recent_temps := map temperature (py.last_n 20 (readings self)) in
    set_baseline_temp (Some (py.sum recent_temps / py.len recent_temps)%Q) self.

(** [_create_result(alert_type, message, is_recovering=False)].  The change
    is the exact difference, rounded to two decimals; the code rounds the
    double nearest to the difference. *)
Definition _create_result
  (alert : TemperatureAlertType) (message : Message) (recovering : bool)
  (self : TemperatureAnalyzer) : TemperatureAnalyzer * Analysis :=
  let self := set_last_alert (Some alert) self in
  let current :=
    match py.from_end 1 (readings self) with
    | Some r => temperature r
    | None => 0%Q
    end in
  let baseline_truthy :=
    match baseline_temp self with
    | Some b => if py.float_truthy b then Some b else None
    | None => None
    end in
  let change :=
    match baseline_truthy with
    | Some b => (current - b)%Q
    | None => 0%Q
    end in
  (self,
   {| alert_type := alert;
      alert_message := message;
      current_temp := py.round2 current;
      reported_baseline := option_map py.round2 baseline_truthy;
      temp_change := py.round2 change;
      is_recovering := recovering;
      reported_increases := consecutive_increases self;
      reported_decreases := consecutive_decreases self |}).

Section WithConfig.

Variable cfg : config.Config.

(** [_check_rapid_change(current_temp, now)].  The threshold is compared with
    the exact difference; the code compares it with the double nearest to
    the difference. *)
Definition _check_rapid_change
  (current : Q) (now : datetime) (self : TemperatureAnalyzer)
  : TemperatureAnalyzer * option Analysis :=
  let five_min_ago := now - timedelta_minutes 5 in
  let old_readings := readings_since five_min_ago (readings self) in
  if (length old_readings <? 5)%nat then (self, None)
  else
    match old_readings with
    | [] => (self, None) (* not reached: there are five readings *)
    | oldest :: _ =>
        let temp_change_5min := (current - temperature oldest)%Q in
        if py.ltb (config.TEMP_ALERT_RAPID_CHANGE cfg) temp_change_5min then
          let self :=
            if negb (last_alert_is DOOR_OPENING (last_alert self))
            then set_alert_start_time (Some now) self
            else self in
          let '(self, result) :=
            _create_result DOOR_OPENING (DoorOpening temp_change_5min) false self in
          (self, Some result)
        else (self, None)
    end.

(** [_check_gradual_change(current_temp, temp_change, now)], with the exact
    difference as in [_check_rapid_change]. *)
Definition _check_gradual_change
  (current temp_change : Q) (now : datetime) (self : TemperatureAnalyzer)
  : TemperatureAnalyzer * option Analysis :=
  let self :=
    if (2 <=? length (readings self))%nat then
      match py.from_end 2 (readings self) with
      | None => self (* not reached: there are two readings *)
      | Some prev =>
          let prev_temp := temperature prev in
          if py.ltb prev_temp current then
            set_consecutive_decreases 0
              (set_consecutive_increases (consecutive_increases self + 1) self)
          else if py.ltb current prev_temp then
            set_consecutive_increases 0
              (set_consecutive_decreases (consecutive_decreases self + 1) self)
          else self
      end
    else self in
  let ten_min_ago := now - timedelta_minutes 10 in
  let old_readings := readings_since ten_min_ago (readings self) in
  if (length old_readings <? 10)%nat then (self, None)
  else
    match old_readings with
    | [] => (self, None) (* not reached: there are ten readings *)
    | oldest :: _ =>
        let temp_change_10min := (current - temperature oldest)%Q in
        if py.ltb (config.TEMP_ALERT_SLOW_INCREASE cfg) temp_change_10min
           && (5 <=? consecutive_increases self)
        then
          let self :=
            if negb (last_alert_is CRITICAL_INCREASE (last_alert self))
            then set_alert_start_time (Some now) self
            else self in
          let '(self, result) :=
            _create_result CRITICAL_INCREASE (SustainedIncrease temp_change_10min)
              false self in
          (self, Some result)
        else if py.ltb temp_change_10min (- config.TEMP_ALERT_SLOW_INCREASE cfg)%Q
                && (5 <=? consecutive_decreases self)
        then
          let self :=
            if negb (last_alert_is CRITICAL_DECREASE (last_alert self))
            then set_alert_start_time (Some now) self
            else self in
          let '(self, result) :=
            _create_result CRITICAL_DECREASE (SustainedDecrease temp_change_10min)
              false self in
          (self, Some result)
        else (self, None)
    end.

(** [_check_recovery(current_temp, temp_change)]. *)
Definition _check_recovery
  (current temp_change : Q) (self : TemperatureAnalyzer)
  : TemperatureAnalyzer * option Analysis :=
  if last_alert_is DOOR_OPENING (last_alert self)
     && py.ltb (Qabs temp_change) (1 # 2)
  then
    let self := set_consecutive_increases 0 self in
    let self := set_alert_start_time None self in
    let '(self, result) := _create_result NONE RecoveredAfterDoor true self in
    (self, Some result)
  else if (last_alert_is CRITICAL_INCREASE (last_alert self)
           || last_alert_is CRITICAL_DECREASE (last_alert self))
          && py.ltb (Qabs temp_change) 1
  then
    let self := set_consecutive_increases 0 self in
    let self := set_consecutive_decreases 0 self in
    let self := set_alert_start_time None self in
    let '(self, result) := _create_result NONE Stabilised true self in
    (self, Some result)
  else (self, None).

(** [_analyze_pattern(current_temp, now)]. *)
Definition _analyze_pattern
  (current : Q) (now : datetime) (self : TemperatureAnalyzer)
  : TemperatureAnalyzer * Analysis :=
  match baseline_temp self with
  | None => _create_result NONE EstablishingBaseline false self
  | Some baseline =>
      let temp_change := (current - baseline)%Q in
      if py.ltb current (config.TEMP_NORMAL_RANGE_MIN cfg) then
        _create_result OUT_OF_RANGE (TooLow current) false self
      else if py.ltb (config.TEMP_NORMAL_RANGE_MAX cfg) current then
        _create_result OUT_OF_RANGE (TooHigh current) false self
      else
        match _check_rapid_change current now self with
        | (self, Some rapid_change) => (self, rapid_change)
        | (self, None) =>
            match _check_gradual_change current temp_change now self with
            | (self, Some gradual_change) => (self, gradual_change)
            | (self, None) =>
                let '(self, recovery) :=
                  if alert_active (last_alert self)
                  then _check_recovery current temp_change self
                  else (self, None) in
                match recovery with
                | Some result => (self, result)
                | None =>
                    let self := set_consecutive_increases 0 self in
                    let self := set_consecutive_decreases 0 self in
                    _create_result NONE Normal false self
                end
            end
        end
  end.

(** [add_reading(temperature)]; [now] is the value of its clock read. *)
Definition add_reading
  (now : datetime) (temp : Q) (self : TemperatureAnalyzer)
  : TemperatureAnalyzer * Analysis :=
  let reading := {| temperature := temp; timestamp := now |} in
  let self := set_readings (py.deque_append 120 (readings self) reading) self in
  if (length (readings self) <? 5)%nat then
    _create_result NONE Calibrating false (_update_baseline self)
  else
    _analyze_pattern temp now (_update_baseline self).

(** A sequence of calls [add_reading(temperature)], each with the instant
    its clock read returns; the results are collected in order. *)
Fixpoint feed (calls : list (datetime * Q)) (self : TemperatureAnalyzer)
  : TemperatureAnalyzer * list Analysis :=
  match calls with
  | [] => (self, [])
  | (now, temp) :: later =>
      let '(self1, result) := add_reading now temp self in
      let '(self2, results) := feed later self1 in
      (self2, result :: results)
  end.

End WithConfig.

(** Whether every result of a list reports an alert other than [NONE]. *)
Definition alert_stays (results : list Analysis) : bool :=
  forallb (fun result => negb (alert_eqb (alert_type result) NONE)) results.

(** The dictionary [get_statistics()] returns. *)
Record Statistics := {
  stat_count : nat;
  stat_current : Q;
  stat_min : Q;
  stat_max : Q;
  stat_avg : Q;
  stat_baseline : option Q;
  stat_range_minutes : Q
}.

(** [get_statistics()]; [None] for an analyzer without readings.  The
    average is the exact mean, where the code has the double its rounded sum
    and quotient give; minimum and maximum are those of finite numbers. *)
Definition get_statistics (self : TemperatureAnalyzer) : option Statistics :=
  match readings self with
  | [] => None
  | first :: rest =>
      let temps := map temperature (readings self) in
      let newest := last rest first in
      Some {| stat_count := length temps;
              stat_current := temperature newest;
              stat_min := py.min_of (temperature first) (map temperature rest);
              stat_max := py.max_of (temperature first) (map temperature rest);
              stat_avg := (py.sum temps / py.len temps)%Q;
              stat_baseline := baseline_temp self;
              stat_range_minutes :=
                (total_seconds (timestamp newest - timestamp first)%Z / 60)%Q |}
  end.

(** Whether the timestamps of a buffer never go back. *)
Fixpoint clock_ordered (rs : list TemperatureReading) : Prop :=
  match rs with
  | [] => True
  | r :: later =>
      (forall r', In r' later -> timestamp r <= timestamp r') /\ clock_ordered later
  end.

(** A result and the object it was made for: making the result again on that
    object gives the same result and the same object. *)
Definition reported_by (self : TemperatureAnalyzer) (result : Analysis) : Prop :=
  _create_result (alert_type result) (alert_message result) (is_recovering result) self
  = (self, result).

(** Whether the instants of a sequence of calls never go back, the first
    being no earlier than [start]. *)
Fixpoint instants_from (start : datetime) (calls : list (datetime * Q)) : Prop :=
  match calls with
  | [] => True
  | (now, _) :: later => start <= now /\ instants_from now later
  end.

End temperature_analyzer.

(** ** src/services/data_manager.py *)

Module data_manager.
Import time_utils.

(** The dictionary the MQTT handler passes to [process_sensor_data]; the
    handler fills every key. *)
Record SensorData := {
  data_device_id : string;
  data_temperature : Q;
  data_pressure : Q;
  data_altitude : Q;
  data_rssi : Z;
  data_timestamp : datetime
}.

(** [self.current_data]; the keys that hold [None] at construction, and the
    key ['analysis'] that is absent until the first reading, are options. *)
Record CurrentData := {
  cur_device_id : string;
  cur_temperature : option Q;
  cur_pressure : option Q;
  cur_altitude : option Q;
  cur_rssi : option Z;
  cur_timestamp : option datetime;
  cur_status : string;
  cur_analysis : option temperature_analyzer.Analysis
}.

Record DataManager := {
  temp_analyzer : temperature_analyzer.TemperatureAnalyzer;
  current_data : CurrentData;
  last_save_time : option datetime;
  total_readings_received : Z;
  total_readings_saved : Z
}.

(** The row [db_manager.save_temperature_reading] returns, as far as
    [_save_to_database] reads it.  Reading an attribute of a row gives its
    value or raises; [None] stands for the exception. *)
Record StoredReading := {
  stored_temperature : option Q;
  stored_recorded_at : option datetime
}.

(** The row as [db_manager.save_temperature_reading] hands it over: the
    commit has expired its attributes and the session that could load them
    again is closed, so every read of an attribute raises. *)
Definition detached_row : StoredReading := {|
  stored_temperature := None;
  stored_recorded_at := None
|}.

(** What a call of [db_manager.save_temperature_reading] can do: return the
    stored row, return [None] (the storage error it catches itself), or raise
    (any other exception, such as the one of a manager that was never
    initialised). *)
Inductive SaveOutcome :=
| Saved (reading : StoredReading)
| ReturnedNone
| Raised.

(** The three signals of the manager with their payloads. *)
Inductive Signal :=
| new_data_available (data : CurrentData)
| temperature_alert (analysis : temperature_analyzer.Analysis)
| data_saved_to_db (temp : Q) (recorded_at : datetime) (total_saved : Z).

(** [DataManager.__init__]. *)
Definition init (device_id : string) : DataManager := {|
  temp_analyzer := temperature_analyzer.init;
  current_data := {|
    cur_device_id := device_id;
    cur_temperature := None;
    cur_pressure := None;
    cur_altitude := None;
    cur_rssi := None;
    cur_timestamp := None;
    cur_status := "waiting";
    cur_analysis := None
  |};
  last_save_time := None;
  total_readings_received := 0;
  total_readings_saved := 0
|}.

(** [process_sensor_data(data)]; [now] is the clock read of [add_reading].
    With every key of [data] present nothing in the body raises: the one call
    that can, [db_manager.update_device_data], has a handler of its own and
    touches no attribute of the manager. *)
Definition process_sensor_data
  (cfg : config.Config) (now : datetime) (data : SensorData) (self : DataManager)
  : DataManager * list Signal :=
  let received := total_readings_received self + 1 in
  let '(analyzer, analysis) :=
    temperature_analyzer.add_reading cfg now (data_temperature data)
      (temp_analyzer self) in
  let current := {|
    cur_device_id := cur_device_id (current_data self);
    cur_temperature := Some (data_temperature data);
    cur_pressure := Some (data_pressure data);
    cur_altitude := Some (data_altitude data);
    cur_rssi := Some (data_rssi data);
    cur_timestamp := Some (data_timestamp data);
    cur_status := "normal";
    cur_analysis := Some analysis
  |} in
  let alert :=
    if negb (temperature_analyzer.alert_eqb
               (temperature_analyzer.alert_type analysis)
               temperature_analyzer.NONE)
    then [temperature_alert analysis]
    else [] in
  ({| temp_analyzer := analyzer;
      current_data := current;
      last_save_time := last_save_time self;
      total_readings_received := received;
      total_readings_saved := total_readings_saved self |},
   alert ++ [new_data_available current]).

(** [_save_to_database()]; [now] is its clock read and [save] what the
    storage call does.  With a row returned the two attributes are assigned
    first; the log message and the payload of the signal then read the row,
    and a read that raises ends the method in its handler, after the
    assignments and before the signal. *)
Definition _save_to_database
  (now : datetime) (save : SaveOutcome) (self : DataManager)
  : DataManager * list Signal :=
  match save with
  | Saved reading =>
      let saved := total_readings_saved self + 1 in
      ({| temp_analyzer := temp_analyzer self;
          current_data := current_data self;
          last_save_time := Some now;
          total_readings_received := total_readings_received self;
          total_readings_saved := saved |},
       match stored_temperature reading, stored_recorded_at reading with
       | Some temp, Some recorded_at => [data_saved_to_db temp recorded_at saved]
       | _, _ => []
       end)
  | ReturnedNone => (self, [])
  | Raised => (self, [])
  end.

(** [_check_save_to_db()], the slot of the one-minute timer; [now0] and
    [now1] are the clock reads of [should_save_reading], [now2] the one of
    [_save_to_database]. *)
Definition _check_save_to_db
  (now0 now1 now2 : datetime) (save : SaveOutcome) (self : DataManager)
  : DataManager * list Signal :=
  match cur_temperature (current_data self) with
  | None => (self, [])
  | Some _ =>
      if should_save_reading (last_save_time self) now0 now1
      then _save_to_database now2 save self
      else (self, [])
  end.

(** A sequence of calls [process_sensor_data(data)], each with the instant of
    its clock read; the signals of all the calls are collected in order. *)
Fixpoint process_all
  (cfg : config.Config) (calls : list (datetime * SensorData)) (self : DataManager)
  : DataManager * list Signal :=
  match calls with
  | [] => (self, [])
  | (now, data) :: later =>
      let '(self1, out1) := process_sensor_data cfg now data self in
      let '(self2, out2) := process_all cfg later self1 in
      (self2, out1 ++ out2)
  end.

(** The calls of [add_reading] that a sequence of messages makes. *)
Definition readings_of (calls : list (datetime * SensorData)) : list (datetime * Q) :=
  map (fun call => (fst call, data_temperature (snd call))) calls.

(** The alert kinds of the [temperature_alert] signals of a list of signals,
    in order of emission. *)
Fixpoint emitted_alerts (out : list Signal) : list temperature_analyzer.TemperatureAlertType :=
  match out with
  | [] => []
  | temperature_alert analysis :: rest =>
      temperature_analyzer.alert_type analysis :: emitted_alerts rest
  | _ :: rest => emitted_alerts rest
  end.

(** [force_save()]. *)
Definition force_save (now : datetime) (save : SaveOutcome) (self : DataManager)
  : DataManager * list Signal :=
  _save_to_database now save self.

(** What happens to a manager: a message arrives, the one-minute timer
    fires, or a save is forced; each comes with the instants of its clock
    reads and, where the storage is called, with what the call does. *)
Inductive Event :=
| Message (now : datetime) (data : SensorData)
| Timer (now0 now1 now2 : datetime) (save : SaveOutcome)
| Forced (now : datetime) (save : SaveOutcome).

Definition step (cfg : config.Config) (event : Event) (self : DataManager)
  : DataManager * list Signal :=
  match event with
  | Message now data => process_sensor_data cfg now data self
  | Timer now0 now1 now2 save => _check_save_to_db now0 now1 now2 save self
  | Forced now save => force_save now save self
  end.

(** A sequence of events, with the signals of all of them in order. *)
Fixpoint run (cfg : config.Config) (events : list Event) (self : DataManager)
  : DataManager * list Signal :=
  match events with
  | [] => (self, [])
  | event :: later =>
      let '(self1, out1) := step cfg event self in
      let '(self2, out2) := run cfg later self1 in
      (self2, out1 ++ out2)
  end.

(** Numbers of [new_data_available] and of [data_saved_to_db] signals in a
    list of signals. *)
Definition count_new_data (out : list Signal) : Z :=
  Z.of_nat (length (filter (fun s => match s with new_data_available _ => true | _ => false end) out)).

Definition count_saved (out : list Signal) : Z :=
  Z.of_nat (length (filter (fun s => match s with data_saved_to_db _ _ _ => true | _ => false end) out)).

(** What holds of a manager between events: the counters are not negative;
    a temperature is shown exactly when a message was received, and it is
    the newest reading of the analyzer; the analysis shown names the alert
    the analyzer holds; and a last save is recorded exactly when something
    was saved. *)
Definition consistent (self : DataManager) : Prop :=
  0 <= total_readings_received self
  /\ 0 <= total_readings_saved self
  /\ (cur_temperature (current_data self) = None <-> total_readings_received self = 0)
  /\ (cur_analysis (current_data self) = None <-> total_readings_received self = 0)
  /\ (last_save_time self = None <-> total_readings_saved self = 0)
  /\ (forall temp,
        cur_temperature (current_data self) = Some temp ->
        option_map temperature_analyzer.temperature
          (py.from_end 1 (temperature_analyzer.readings (temp_analyzer self))) = Some temp)
  /\ (forall analysis,
        cur_analysis (current_data self) = Some analysis ->
        temperature_analyzer.last_alert (temp_analyzer self)
        = Some (temperature_analyzer.alert_type analysis)).

End data_manager.

(** ** src/mqtt/message_handler.py *)

Module message_handler.
Import time_utils.

(** What [json.loads] returns: [None], a bool, an int, a float, a str, a
    list, or a dict; the members of a dict are listed in the order of the
    document, and a key written twice keeps its last value. *)
#[local] Set Warnings "-register-all".

Inductive JSON :=
| JNull
| JBool (b : bool)
| JInt (n : Z)
| JFloat (x : Q)
| JString (s : string)
| JList (items : list JSON)
| JDict (members : list (string * JSON)).

(** The value of a key in the members of a dict. *)
Fixpoint lookup (key : string) (members : list (string * JSON)) : option JSON :=
  match members with
  | [] => None
  | (k, v) :: rest =>
      match lookup key rest with
      | Some later => Some later
      | None => if String.eqb k key then Some v else None
      end
  end.

(** [key in data]: a key of a dict, an item of a list, a substring of a
    str; [None] stands for the TypeError of the other values. *)
Definition contains (key : string) (data : JSON) : option bool :=
  match data with
  | JDict members =>
      Some (match lookup key members with Some _ => true | None => false end)
  | JList items =>
      Some (existsb (fun item =>
                       match item with JString s => String.eqb s key | _ => false end)
                    items)
  | JString s =>
      Some (match index 0 key s with Some _ => true | None => false end)
  | _ => None
  end.

(** [data[key]] for a str key; [None] stands for the KeyError of a dict
    without the key and for the TypeError of every value but a dict. *)
Definition getitem (key : string) (data : JSON) : option JSON :=
  match data with
  | JDict members => lookup key members
  | _ => None
  end.

(** The dictionary [parse_heartbeat] returns. *)
Record HeartbeatData := {
  heartbeat_device_id : JSON;
  heartbeat_status : JSON;
  heartbeat_timestamp : datetime
}.

(** [parse_heartbeat(payload)].  [loaded] is what decoding the payload and
    [json.loads] give, [None] when either raises; [now] is the clock read.
    Every exception ends in the same [return None]. *)
Definition parse_heartbeat (loaded : option JSON) (now : datetime) : option HeartbeatData :=
  match loaded with
  | None => None
  | Some data =>
      match contains "device_id" data with
      | None => None
      | Some false => None
      | Some true =>
          match getitem "device_id" data with
          | None => None
          | Some device_id =>
              match data with
              | JDict members =>
                  Some {| heartbeat_device_id := device_id;
                          heartbeat_status :=
                            match lookup "status" members with
                            | Some status => status
                            | None => JString "alive"
                            end;
                          heartbeat_timestamp := now |}
              | _ => None
              end
          end
      end
  end.

End message_handler.

(** ** Scenarios

    Concrete runs of the analyzer under the default configuration, used below
    to evaluate the code. *)

Module scenarios.
Import time_utils temperature_analyzer.

(** The instant [n] seconds after the origin of the clock. *)
Definition seconds (n : Z) : datetime := n * 1000000.

(** One call per temperature, the first at [start] seconds and the next ones
    [step] seconds apart. *)
Fixpoint spaced (start step : Z) (temps : list Q) : list (datetime * Q) :=
  match temps with
  | [] => []
  | temp :: rest => (seconds start, temp) :: spaced (start + step) step rest
  end.

(** The analyzer after a sequence of calls on a fresh object. *)
Definition after (calls : list (datetime * Q)) : TemperatureAnalyzer :=
  fst (feed config.defaults calls init).

(** Twenty readings of 0 degrees, 15 seconds apart. *)
Definition stable_calls : list (datetime * Q) := spaced 0 15 (repeat 0%Q 20).

(** Four readings of 0 degrees and a fifth of 4 degrees: the door alert
    fires on the fifth call, while the buffer holds five readings. *)
Definition warmup_door : TemperatureAnalyzer :=
  after (spaced 0 15 [0; 0; 0; 0; 4]%Q).

(** A stable history, then a reading of 4 degrees: the door alert fires. *)
Definition door_open : TemperatureAnalyzer :=
  after (stable_calls ++ [(seconds 300, 4%Q)]).

(** A stable history, then the door opens (4 degrees) and closes again (half
    a degree) four times, one reading per minute, and opens a fifth time. *)
Definition door_cycles_calls : list (datetime * Q) :=
  stable_calls
  ++ spaced 345 60 [4; 1 # 2; 4; 1 # 2; 4; 1 # 2; 4; 1 # 2; 4]%Q.

Definition door_cycles : TemperatureAnalyzer := after door_cycles_calls.

(** The same run before its last call: the fourth recovery has just been
    reported. *)
Definition door_cycles_closed : TemperatureAnalyzer :=
  after (removelast door_cycles_calls).

(** One reading of -1 degree. *)
Definition below_zero : TemperatureAnalyzer := after [(seconds 0, (-1)%Q)].

(** A sensor message that carries [temp] and nothing else of interest. *)
Definition message (temp : Q) : data_manager.SensorData := {|
  data_manager.data_device_id := "esp32-fridge-001";
  data_manager.data_temperature := temp;
  data_manager.data_pressure := 0;
  data_manager.data_altitude := 0;
  data_manager.data_rssi := 0;
  data_manager.data_timestamp := 0
|}.

(** Six messages of 9 degrees, 15 seconds apart, to a fresh manager. *)
Definition too_warm_calls : list (datetime * data_manager.SensorData) :=
  map (fun c => (fst c, message (snd c))) (spaced 0 15 (repeat 9%Q 6)).

End scenarios.

(** * Properties *)

Import time_utils.

(** ** Comparisons *)

Lemma ltb_lt (x y : Q) : py.ltb x y = true <-> (x < y)%Q.
Proof.
  unfold py.ltb. rewrite negb_true_iff.
  split; intro H.
  - apply Qnot_le_lt. intro Hle. apply Qle_bool_iff in Hle. congruence.
  - destruct (Qle_bool y x) eqn:E; [|reflexivity].
    apply Qle_bool_iff in E. exfalso. exact (Qlt_not_le _ _ H E).
Qed.

Lemma ltb_ge (x y : Q) : py.ltb x y = false <-> (y <= x)%Q.
Proof.
  unfold py.ltb. rewrite negb_false_iff. apply Qle_bool_iff.
Qed.

(** A number of whole seconds against an elapsed time, in microseconds. *)
Lemma total_seconds_ge (n : Z) (d : timedelta) :
  (inject_Z n <= total_seconds d)%Q <-> n * 1000000 <= d.
Proof.
  unfold total_seconds, Qle, Qdiv, Qmult, Qinv, inject_Z. simpl. lia.
Qed.

Lemma total_seconds_gt (n : Z) (d : timedelta) :
  (inject_Z n < total_seconds d)%Q <-> n * 1000000 < d.
Proof.
  unfold total_seconds, Qlt, Qdiv, Qmult, Qinv, inject_Z. simpl. lia.
Qed.

(** ** time_utils *)

(** C4.  [should_save_reading] reads the clock twice: [now0] inside
    [is_on_the_hour], then [now] for the elapsed time.  It answers true
    exactly when the minute of the first read is 0, its second is below 5,
    and either nothing was saved before or at least 3540 seconds (3540000000
    microseconds) separate the second read from the last save.  With both
    reads at one instant it is true at 10:00:02 with no earlier save, false
    at 10:00:06, false at 10:30:00 after a save at 10:00:02, and true at
    11:00:01 after that save. *)
Theorem should_save_reading_on_the_hour :
  (forall (last_save_time : option datetime) (now0 now : datetime),
      should_save_reading last_save_time now0 now = true <->
      (minute now0 = 0 /\ second now0 < 5) /\
      (last_save_time = None \/
       exists last, last_save_time = Some last /\ 3540 * 1000000 <= now - last))
  /\ should_save_reading None (at_hms 10 0 2) (at_hms 10 0 2) = true
  /\ should_save_reading None (at_hms 10 0 6) (at_hms 10 0 6) = false
  /\ should_save_reading (Some (at_hms 10 0 2)) (at_hms 10 30 0) (at_hms 10 30 0) = false
  /\ should_save_reading (Some (at_hms 10 0 2)) (at_hms 11 0 1) (at_hms 11 0 1) = true.
Proof.
  split; [|repeat split; reflexivity].
  intros last_save_time now0 now. unfold should_save_reading, is_on_the_hour.
  destruct (minute now0 =? 0) eqn:Hm; simpl.
  - apply Z.eqb_eq in Hm.
    destruct (second now0 <? 5) eqn:Hs; simpl.
    + apply Z.ltb_lt in Hs.
      destruct last_save_time as [last|].
      * rewrite Qle_bool_iff.
        change 3540%Q with (inject_Z 3540). rewrite total_seconds_ge.
        split.
        -- intro H. split; [tauto|]. right. exists last. tauto.
        -- intros [_ [H|[l [H1 H2]]]]; [discriminate|].
           injection H1 as H1. subst l. exact H2.
      * split; [|reflexivity]. intros _. split; [tauto|]. now left.
    + apply Z.ltb_ge in Hs. split; [discriminate|]. intros [[_ H] _]. lia.
  - apply Z.eqb_neq in Hm. split; [discriminate|]. intros [[H _] _]. contradiction.
Qed.

(** C4, as stated for one current time, fails between the two reads.  After
    a save at 09:01:05.000001, a call whose first read is 10:00:04.999999
    and whose second read is 10:00:05.000001 answers true.  At the first
    read only 3539.999998 seconds have elapsed since the save; at the second
    read the second of the minute is 5. *)
Lemma due_between_two_clock_reads :
  should_save_reading (Some (at_hms 9 1 5 + 1))
    (at_hms 10 0 4 + 999999) (at_hms 10 0 5 + 1) = true
  /\ minute (at_hms 10 0 4 + 999999) = 0
  /\ second (at_hms 10 0 4 + 999999) = 4
  /\ (at_hms 10 0 4 + 999999) - (at_hms 9 1 5 + 1) = 3539999998
  /\ should_save_reading (Some (at_hms 9 1 5 + 1))
       (at_hms 10 0 4 + 999999) (at_hms 10 0 4 + 999999) = false
  /\ second (at_hms 10 0 5 + 1) = 5
  /\ (at_hms 10 0 5 + 1) - (at_hms 9 1 5 + 1) = 3540000000
  /\ should_save_reading (Some (at_hms 9 1 5 + 1))
       (at_hms 10 0 5 + 1) (at_hms 10 0 5 + 1) = false.
Proof.
  repeat split; reflexivity.
Qed.

(** ** heartbeat_monitor *)

Import heartbeat_monitor.

Lemma timed_out_spec (timeout : Z) (last now : datetime) :
  timed_out timeout last now = true <-> timeout * 1000000 < now - last.
Proof.
  unfold timed_out. rewrite ltb_lt. apply total_seconds_gt.
Qed.

(** A monitor that is offline ignores the timer. *)
Lemma check_timeout_offline (now : datetime) (self : HeartbeatMonitor) :
  is_online self = false -> _check_timeout now self = (self, []).
Proof.
  intro Hoff. unfold _check_timeout.
  destruct (last_heartbeat_time self); [|reflexivity].
  rewrite Hoff, andb_false_r. reflexivity.
Qed.

Lemma run_checks_offline (ticks : list datetime) (self : HeartbeatMonitor) :
  is_online self = false -> run_checks ticks self = (self, []).
Proof.
  intro Hoff. induction ticks as [|now later IH]; simpl; [reflexivity|].
  rewrite (check_timeout_offline now self Hoff), IH. reflexivity.
Qed.

(** An online monitor disconnects at the first tick that finds the silence
    longer than the timeout, and only there. *)
Lemma run_checks_online (ticks : list datetime) (last : datetime) (timeout : Z) :
  disconnects
    (snd (run_checks ticks
            {| last_heartbeat_time := Some last;
               is_online := true;
               timeout_seconds := timeout |}))
  = if existsb (timed_out timeout last) ticks then 1%nat else 0%nat.
Proof.
  induction ticks as [|now later IH]; [reflexivity|].
  cbn [run_checks existsb]. unfold _check_timeout at 1.
  cbn [last_heartbeat_time is_online timeout_seconds].
  fold (timed_out timeout last now). rewrite andb_true_r.
  destruct (timed_out timeout last now).
  - rewrite run_checks_offline by reflexivity. reflexivity.
  - destruct (run_checks later _) as [self2 out2]. exact IH.
Qed.

(** C5.  [_check_timeout] changes nothing and emits nothing while no
    heartbeat was ever registered.  With a last heartbeat at [last], it goes
    offline and emits [device_disconnected] exactly when more than
    [timeout_seconds] separate [now] from [last] and the monitor is online;
    an elapsed time equal to the timeout changes nothing.  After one
    heartbeat at [t0], whatever the ticks of the timer, the checks emit one
    disconnect in all if some tick finds the silence longer than the
    timeout, and none otherwise. *)
Theorem check_timeout_disconnects_once :
  forall (self : HeartbeatMonitor) (now : datetime),
    (last_heartbeat_time self = None -> _check_timeout now self = (self, []))
    /\ (forall last, last_heartbeat_time self = Some last ->
          (timeout_seconds self * 1000000 < now - last /\ is_online self = true ->
             _check_timeout now self =
               ({| last_heartbeat_time := Some last;
                   is_online := false;
                   timeout_seconds := timeout_seconds self |},
                [device_disconnected]))
          /\ (~ (timeout_seconds self * 1000000 < now - last /\ is_online self = true) ->
                _check_timeout now self = (self, []))
          /\ (now - last = timeout_seconds self * 1000000 ->
                _check_timeout now self = (self, [])))
    /\ (forall (t0 : datetime) (ticks : list datetime),
          let heard := fst (register_heartbeat t0 self) in
          ((exists tick, In tick ticks /\ timeout_seconds self * 1000000 < tick - t0) ->
             disconnects (snd (run_checks ticks heard)) = 1%nat)
          /\ ((forall tick, In tick ticks -> tick - t0 <= timeout_seconds self * 1000000) ->
                disconnects (snd (run_checks ticks heard)) = 0%nat)).
Proof.
  intros self now. split; [|split].
  - intro Hnone. unfold _check_timeout. rewrite Hnone. reflexivity.
  - intros last Hlast.
    assert (Hstep : _check_timeout now self =
                    if timed_out (timeout_seconds self) last now && is_online self
                    then ({| last_heartbeat_time := Some last;
                             is_online := false;
                             timeout_seconds := timeout_seconds self |},
                          [device_disconnected])
                    else (self, [])).
    { unfold _check_timeout, timed_out. rewrite Hlast. reflexivity. }
    assert (Hiff : timed_out (timeout_seconds self) last now && is_online self = true <->
                   timeout_seconds self * 1000000 < now - last /\ is_online self = true).
    { rewrite andb_true_iff, timed_out_spec. reflexivity. }
    split; [|split].
    + intro H. apply Hiff in H. rewrite Hstep, H. reflexivity.
    + intro H. rewrite Hstep.
      destruct (timed_out (timeout_seconds self) last now && is_online self);
        [|reflexivity].
      exfalso. apply H, Hiff. reflexivity.
    + intro H. rewrite Hstep.
      destruct (timed_out (timeout_seconds self) last now && is_online self);
        [|reflexivity].
      assert (Hlt : timeout_seconds self * 1000000 < now - last)
        by (apply Hiff; reflexivity).
      lia.
  - intros t0 ticks. simpl.
    pose proof (run_checks_online ticks t0 (timeout_seconds self)) as Hrun.
    split.
    + intros [tick [Hin Hlt]]. rewrite Hrun.
      assert (Hex : existsb (timed_out (timeout_seconds self) t0) ticks = true).
      { apply existsb_exists. exists tick. split; [exact Hin|].
        apply timed_out_spec. exact Hlt. }
      rewrite Hex. reflexivity.
    + intro Hall. rewrite Hrun.
      destruct (existsb (timed_out (timeout_seconds self) t0) ticks) eqn:Hex;
        [|reflexivity].
      apply existsb_exists in Hex. destruct Hex as [tick [Hin Hto]].
      apply timed_out_spec in Hto. specialize (Hall tick Hin). lia.
Qed.

(** One heartbeat at the origin of the clock, a timeout of 6 seconds and a
    check every second for ten seconds: one disconnect in all. *)
Lemma one_disconnect_after_one_heartbeat :
  disconnects
    (snd (run_checks
            (map scenarios.seconds [1; 2; 3; 4; 5; 6; 7; 8; 9; 10])
            (fst (register_heartbeat 0 (heartbeat_monitor.init config.defaults)))))
  = 1%nat.
Proof.
  destruct (check_timeout_disconnects_once (heartbeat_monitor.init config.defaults) 0)
    as (_ & _ & Hsilence).
  destruct (Hsilence 0 (map scenarios.seconds [1; 2; 3; 4; 5; 6; 7; 8; 9; 10]))
    as (Hone & _).
  apply Hone. exists (scenarios.seconds 7). split.
  - cbn. tauto.
  - reflexivity.
Defined.

(** ** temperature_analyzer: what each method leaves alone *)

Import temperature_analyzer.

(** Case analysis on the tests a method makes, in a hypothesis that names
    its outcome. *)
Ltac branches_in H :=
  repeat match type of H with
         | context [if ?b then _ else _] => destruct b eqn:?
         | context [match ?l with [] => _ | _ :: _ => _ end] => destruct l eqn:?
         | context [match ?o with Some _ => _ | None => _ end] => destruct o eqn:?
         end.

Lemma last_n_length {A : Type} (n : nat) (xs : list A) :
  length (py.last_n n xs) = Nat.min (length xs) n.
Proof.
  unfold py.last_n. rewrite length_skipn. lia.
Qed.

Lemma deque_append_length {A : Type} (maxlen : nat) (xs : list A) (x : A) :
  length (py.deque_append maxlen xs x) = Nat.min (length xs + 1) maxlen.
Proof.
  unfold py.deque_append. rewrite last_n_length, length_app. reflexivity.
Qed.

Lemma from_end_length {A : Type} (n : nat) (xs : list A) (x : A) :
  py.from_end n xs = Some x -> (n - 1 < length xs)%nat.
Proof.
  unfold py.from_end. intro H.
  rewrite <- length_rev. apply nth_error_Some. congruence.
Qed.

(** [_create_result] assigns [last_alert] and nothing else, and reports the
    kind it was given and the counters as they stand. *)
Lemma create_result_state alert message recovering self :
  fst (_create_result alert message recovering self) = set_last_alert (Some alert) self.
Proof. reflexivity. Qed.

Lemma create_result_alert alert message recovering self :
  alert_type (snd (_create_result alert message recovering self)) = alert.
Proof. reflexivity. Qed.

(** [_update_baseline] assigns nothing but [baseline_temp]. *)
Lemma update_baseline_frame self :
  readings (_update_baseline self) = readings self
  /\ last_alert (_update_baseline self) = last_alert self
  /\ consecutive_increases (_update_baseline self) = consecutive_increases self
  /\ consecutive_decreases (_update_baseline self) = consecutive_decreases self.
Proof.
  unfold _update_baseline.
  destruct (length (readings self) <? 20)%nat;
    [destruct (0 <? length (readings self))%nat|destruct (alert_active (last_alert self))];
    repeat split; reflexivity.
Qed.

(** With twenty readings and an active alert [_update_baseline] does
    nothing. *)
Lemma update_baseline_frozen self :
  (20 <= length (readings self))%nat ->
  alert_active (last_alert self) = true ->
  _update_baseline self = self.
Proof.
  intros Hlen Hactive. unfold _update_baseline.
  destruct (length (readings self) <? 20)%nat eqn:E.
  - apply Nat.ltb_lt in E. lia.
  - rewrite Hactive. reflexivity.
Qed.

(** [_check_rapid_change] either returns [None] and leaves the object as it
    is, or reports [DOOR_OPENING]; the counters, the readings and the
    baseline stay as they are in both cases. *)
Lemma check_rapid_change_inv cfg current now self self' outcome :
  _check_rapid_change cfg current now self = (self', outcome) ->
  readings self' = readings self
  /\ baseline_temp self' = baseline_temp self
  /\ consecutive_increases self' = consecutive_increases self
  /\ consecutive_decreases self' = consecutive_decreases self
  /\ match outcome with
     | None => self' = self
     | Some result =>
         alert_type result = DOOR_OPENING
         /\ last_alert self' = Some DOOR_OPENING
         /\ reported_increases result = consecutive_increases self
         /\ reported_decreases result = consecutive_decreases self
     end.
Proof.
  unfold _check_rapid_change. cbv zeta. intro H.
  branches_in H; injection H as <- <-; cbn; repeat split; reflexivity.
Qed.

(** [_check_gradual_change] first moves the counters: a reading above the
    one before it clears the decreases, one below it clears the increases.
    It then fires only with ten readings in the last ten minutes, a change
    beyond the slow threshold since the oldest of them, and a streak of
    five.  The readings and the baseline stay as they are. *)
Lemma check_gradual_change_inv cfg current change now self self' outcome :
  _check_gradual_change cfg current change now self = (self', outcome) ->
  let window := readings_since (now - timedelta_minutes 10) (readings self) in
  readings self' = readings self
  /\ baseline_temp self' = baseline_temp self
  /\ (forall prev, py.from_end 2 (readings self) = Some prev ->
        (current < temperature prev)%Q -> consecutive_increases self' = 0)
  /\ (forall prev, py.from_end 2 (readings self) = Some prev ->
        (temperature prev < current)%Q -> consecutive_decreases self' = 0)
  /\ match outcome with
     | None => last_alert self' = last_alert self
     | Some result =>
         last_alert self' = Some (alert_type result)
         /\ reported_increases result = consecutive_increases self'
         /\ reported_decreases result = consecutive_decreases self'
         /\ (10 <= length window)%nat
         /\ exists oldest rest,
              window = oldest :: rest
              /\ ((alert_type result = CRITICAL_INCREASE
                   /\ (config.TEMP_ALERT_SLOW_INCREASE cfg < current - temperature oldest)%Q
                   /\ 5 <= consecutive_increases self')
                  \/ (alert_type result = CRITICAL_DECREASE
                      /\ (current - temperature oldest < - config.TEMP_ALERT_SLOW_INCREASE cfg)%Q
                      /\ 5 <= consecutive_decreases self'))
     end.
Proof.
  unfold _check_gradual_change. cbv zeta.
  set (tracked :=
         if (2 <=? length (readings self))%nat
         then match py.from_end 2 (readings self) with
              | Some prev =>
                  if py.ltb (temperature prev) current
                  then set_consecutive_decreases 0
                         (set_consecutive_increases (consecutive_increases self + 1) self)
                  else if py.ltb current (temperature prev)
                       then set_consecutive_increases 0
                              (set_consecutive_decreases (consecutive_decreases self + 1) self)
                       else self
              | None => self
              end
         else self).
  assert (Htracked :
            readings tracked = readings self
            /\ baseline_temp tracked = baseline_temp self
            /\ last_alert tracked = last_alert self
            /\ (forall prev, py.from_end 2 (readings self) = Some prev ->
                  (current < temperature prev)%Q -> consecutive_increases tracked = 0)
            /\ (forall prev, py.from_end 2 (readings self) = Some prev ->
                  (temperature prev < current)%Q -> consecutive_decreases tracked = 0)).
  { subst tracked.
    destruct (2 <=? length (readings self))%nat eqn:Hlen.
    - destruct (py.from_end 2 (readings self)) as [prev0|] eqn:Hprev.
      + destruct (py.ltb (temperature prev0) current) eqn:Hup;
          [|destruct (py.ltb current (temperature prev0)) eqn:Hdown];
          cbn; repeat split; try reflexivity;
          intros prev Heq Hlt; injection Heq as <-.
        * apply ltb_lt in Hup. exfalso.
          exact (Qlt_irrefl _ (Qlt_trans _ _ _ Hup Hlt)).
        * apply ltb_lt in Hdown. exfalso.
          exact (Qlt_irrefl _ (Qlt_trans _ _ _ Hdown Hlt)).
        * apply ltb_lt in Hlt. congruence.
        * apply ltb_lt in Hlt. congruence.
      + repeat split; try reflexivity; intros prev Heq; discriminate.
    - apply Nat.leb_gt in Hlen.
      repeat split; try reflexivity;
        intros prev Heq; apply from_end_length in Heq; lia. }
  clearbody tracked.
  destruct Htracked as (Hreadings & Hbaseline & Halert & Hdown & Hup).
  rewrite Hreadings.
  destruct (Nat.ltb (length (readings_since (now - timedelta_minutes 10) (readings self))) 10)
    eqn:Hten.
  { intro H. injection H as <- <-. repeat split; assumption. }
  apply Nat.ltb_ge in Hten.
  destruct (readings_since (now - timedelta_minutes 10) (readings self))
    as [|oldest rest] eqn:Hwindow.
  { intro H. injection H as <- <-. repeat split; assumption. }
  destruct (py.ltb (config.TEMP_ALERT_SLOW_INCREASE cfg) (current - temperature oldest)
            && (5 <=? consecutive_increases tracked)) eqn:Hinc.
  { apply andb_true_iff in Hinc. destruct Hinc as [Hdelta Hstreak].
    apply ltb_lt in Hdelta. apply Z.leb_le in Hstreak.
    intro H.
    destruct (negb (last_alert_is CRITICAL_INCREASE (last_alert tracked)));
      injection H as <- <-; cbn;
      (repeat split; try assumption; try reflexivity);
      exists oldest, rest; (split; [reflexivity|left; repeat split; assumption]). }
  destruct (py.ltb (current - temperature oldest) (- config.TEMP_ALERT_SLOW_INCREASE cfg)
            && (5 <=? consecutive_decreases tracked)) eqn:Hdec.
  { apply andb_true_iff in Hdec. destruct Hdec as [Hdelta Hstreak].
    apply ltb_lt in Hdelta. apply Z.leb_le in Hstreak.
    intro H.
    destruct (negb (last_alert_is CRITICAL_DECREASE (last_alert tracked)));
      injection H as <- <-; cbn;
      (repeat split; try assumption; try reflexivity);
      exists oldest, rest; (split; [reflexivity|right; repeat split; assumption]). }
  intro H. injection H as <- <-. repeat split; assumption.
Qed.

(** [_check_recovery] either returns [None] and leaves the object as it is,
    or reports [NONE] as a recovery with the increases cleared. *)
Lemma check_recovery_inv current change self self' outcome :
  _check_recovery current change self = (self', outcome) ->
  readings self' = readings self
  /\ baseline_temp self' = baseline_temp self
  /\ match outcome with
     | None => self' = self
     | Some result =>
         alert_type result = NONE
         /\ is_recovering result = true
         /\ last_alert self' = Some NONE
         /\ consecutive_increases self' = 0
     end.
Proof.
  unfold _check_recovery. cbv zeta. intro H.
  branches_in H; injection H as <- <-; cbn; repeat split; reflexivity.
Qed.

(** Closes the side goals of a case analysis: the clauses about a kind the
    case does not report, and the fields the case leaves alone. *)
Ltac settle :=
  repeat split; intros;
  repeat match goal with H : _ \/ _ |- _ => destruct H end;
  try discriminate; try reflexivity; try assumption; try congruence.

(** The kinds a call can report, by the place that reports them. *)
Lemma analyze_pattern_inv cfg current now self :
  let out := _analyze_pattern cfg current now self in
  let window := readings_since (now - timedelta_minutes 10) (readings self) in
  readings (fst out) = readings self
  /\ baseline_temp (fst out) = baseline_temp self
  /\ last_alert (fst out) = Some (alert_type (snd out))
  /\ (alert_type (snd out) = OUT_OF_RANGE \/ alert_type (snd out) = DOOR_OPENING ->
        consecutive_increases (fst out) = consecutive_increases self
        /\ consecutive_decreases (fst out) = consecutive_decreases self
        /\ reported_increases (snd out) = consecutive_increases self
        /\ reported_decreases (snd out) = consecutive_decreases self)
  /\ (alert_type (snd out) = CRITICAL_INCREASE ->
        (10 <= length window)%nat
        /\ (exists oldest rest,
              window = oldest :: rest
              /\ (config.TEMP_ALERT_SLOW_INCREASE cfg < current - temperature oldest)%Q)
        /\ 5 <= consecutive_increases (fst out)
        /\ forall prev, py.from_end 2 (readings self) = Some prev ->
                        ~ (current < temperature prev)%Q)
  /\ (alert_type (snd out) = CRITICAL_DECREASE ->
        (10 <= length window)%nat
        /\ (exists oldest rest,
              window = oldest :: rest
              /\ (current - temperature oldest < - config.TEMP_ALERT_SLOW_INCREASE cfg)%Q)
        /\ 5 <= consecutive_decreases (fst out)
        /\ forall prev, py.from_end 2 (readings self) = Some prev ->
                        ~ (temperature prev < current)%Q).
Proof.
  unfold _analyze_pattern. cbv zeta.
  destruct (baseline_temp self) as [baseline|] eqn:Hbaseline.
  2: { cbn. rewrite Hbaseline. settle. }
  destruct (py.ltb current (config.TEMP_NORMAL_RANGE_MIN cfg)).
  { cbn. rewrite Hbaseline. settle. }
  destruct (py.ltb (config.TEMP_NORMAL_RANGE_MAX cfg) current).
  { cbn. rewrite Hbaseline. settle. }
  destruct (_check_rapid_change cfg current now self) as [self1 rapid] eqn:Hrapid.
  apply check_rapid_change_inv in Hrapid.
  destruct Hrapid as (Hr1 & Hb1 & Hi1 & Hd1 & Hrapid).
  destruct rapid as [result|].
  { destruct Hrapid as (Hkind & Hlast & Hri & Hrd). cbn. rewrite Hkind. settle. }
  subst self1.
  destruct (_check_gradual_change cfg current (current - baseline) now self)
    as [self2 gradual] eqn:Hgradual.
  apply check_gradual_change_inv in Hgradual. cbv zeta in Hgradual.
  destruct Hgradual as (Hr2 & Hb2 & Hdown & Hup & Hgradual).
  destruct gradual as [result|].
  { destruct Hgradual as (Hlast & _ & _ & Hten & oldest & rest & Hwindow & Hfired).
    cbn.
    destruct Hfired as [(Hkind & Hdelta & Hstreak)|(Hkind & Hdelta & Hstreak)];
      rewrite Hkind; rewrite Hkind in Hlast;
      (split; [assumption|]); (split; [congruence|]); (split; [assumption|]);
      (split; [intros [H|H]; discriminate|]).
    - split; [|intro H; discriminate].
      intros _. repeat split; try assumption.
      + exists oldest, rest. split; assumption.
      + intros prev Hprev Hlt. specialize (Hdown prev Hprev Hlt). lia.
    - split; [intro H; discriminate|].
      intros _. repeat split; try assumption.
      + exists oldest, rest. split; assumption.
      + intros prev Hprev Hlt. specialize (Hup prev Hprev Hlt). lia. }
  destruct (if alert_active (last_alert self2)
            then _check_recovery current (current - baseline) self2
            else (self2, None)) as [self3 recovery] eqn:Hrecovery.
  assert (Hrec : readings self3 = readings self2
                 /\ baseline_temp self3 = baseline_temp self2
                 /\ match recovery with
                    | None => self3 = self2
                    | Some result =>
                        alert_type result = NONE
                        /\ is_recovering result = true
                        /\ last_alert self3 = Some NONE
                        /\ consecutive_increases self3 = 0
                    end).
  { destruct (alert_active (last_alert self2)).
    - apply check_recovery_inv in Hrecovery. exact Hrecovery.
    - injection Hrecovery as <- <-. repeat split; reflexivity. }
  destruct Hrec as (Hr3 & Hb3 & Hrec).
  destruct recovery as [result|].
  { destruct Hrec as (Hkind & _ & Hlast & _). cbn. rewrite Hkind. settle. }
  subst self3. cbn. settle.
Qed.

(** ** temperature_analyzer: [add_reading] *)

Import scenarios.

(** The buffer of a call: the readings after the append. *)
Lemma add_reading_unfold cfg now temp self :
  let buffered :=
    set_readings
      (py.deque_append 120 (readings self) {| temperature := temp; timestamp := now |})
      self in
  add_reading cfg now temp self =
    if (length (readings buffered) <? 5)%nat
    then _create_result NONE Calibrating false (_update_baseline buffered)
    else _analyze_pattern cfg temp now (_update_baseline buffered).
Proof. reflexivity. Qed.

(** C9.  After a call of [add_reading] the attribute [last_alert] holds the
    kind the call has just reported. *)
Theorem add_reading_records_the_reported_alert :
  forall (cfg : config.Config) (now : datetime) (temp : Q) (self : TemperatureAnalyzer),
    last_alert (fst (add_reading cfg now temp self))
    = Some (alert_type (snd (add_reading cfg now temp self))).
Proof.
  intros cfg now temp self. rewrite add_reading_unfold. cbv zeta.
  match goal with |- context [if ?b then _ else _] => destruct b end.
  - reflexivity.
  - apply analyze_pattern_inv.
Qed.



(** One call with an active alert and twenty readings in the buffer. *)
Lemma add_reading_keeps_baseline cfg now temp self :
  alert_active (last_alert self) = true ->
  (19 <= length (readings self))%nat ->
  baseline_temp (fst (add_reading cfg now temp self)) = baseline_temp self
  /\ (19 <= length (readings (fst (add_reading cfg now temp self))))%nat
  /\ alert_active (last_alert (fst (add_reading cfg now temp self)))
     = negb (alert_eqb (alert_type (snd (add_reading cfg now temp self))) NONE).
Proof.
  intros Hactive Hlen.
  rewrite add_reading_unfold. cbv zeta.
  set (buffered := set_readings _ self).
  assert (Hbuffered : (20 <= length (readings buffered))%nat).
  { subst buffered. cbn. rewrite deque_append_length. lia. }
  assert (Hfrozen : _update_baseline buffered = buffered).
  { apply update_baseline_frozen; [exact Hbuffered|exact Hactive]. }
  rewrite Hfrozen.
  destruct (length (readings buffered) <? 5)%nat eqn:Hfive.
  - apply Nat.ltb_lt in Hfive. lia.
  - pose proof (analyze_pattern_inv cfg temp now buffered) as Hinv.
    cbv zeta in Hinv. destruct Hinv as (Hreadings & Hbaseline & Hlast & _).
    rewrite Hbaseline, Hreadings, Hlast.
    split; [reflexivity|]. split; [lia|reflexivity].
Qed.

Lemma feed_length cfg calls self :
  length (snd (feed cfg calls self)) = length calls.
Proof.
  revert self. induction calls as [|[now temp] later IH]; intro self; [reflexivity|].
  cbn [feed]. destruct (add_reading cfg now temp self) as [self1 result].
  specialize (IH self1). destruct (feed cfg later self1) as [self2 results].
  cbn in IH |- *. rewrite IH. reflexivity.
Qed.

(** X21.  The baseline is frozen under an alert once twenty readings are
    buffered.  Start with an alert other than [NONE] active and at least 19
    readings buffered (20 with the next one), and process any number of
    further readings: as long as every call but the last one reports an
    alert other than [NONE], [baseline_temp] is after the last call what it
    was at the start. *)
Theorem baseline_frozen_while_alert_active :
  forall (cfg : config.Config) (calls : list (datetime * Q)) (self : TemperatureAnalyzer),
    alert_active (last_alert self) = true ->
    (19 <= length (readings self))%nat ->
    alert_stays (removelast (snd (feed cfg calls self))) = true ->
    baseline_temp (fst (feed cfg calls self)) = baseline_temp self.
Proof.
  intros cfg calls. induction calls as [|[now temp] later IH];
    intros self Hactive Hlen Hstays; [reflexivity|].
  destruct (add_reading_keeps_baseline cfg now temp self Hactive Hlen)
    as (Hbaseline & Hlen1 & Hactive1).
  cbn [feed] in Hstays |- *.
  destruct (add_reading cfg now temp self) as [self1 result].
  cbn [fst snd] in Hbaseline, Hlen1, Hactive1.
  specialize (IH self1).
  pose proof (feed_length cfg later self1) as Hresults.
  destruct (feed cfg later self1) as [self2 results] eqn:Hfeed.
  cbn [fst snd] in IH, Hstays, Hresults |- *.
  destruct results as [|result' results'].
  - destruct later; [|discriminate].
    cbn in Hfeed. injection Hfeed as <-. exact Hbaseline.
  - cbn [removelast alert_stays forallb] in Hstays.
    apply andb_true_iff in Hstays. destruct Hstays as [Hresult Hrest].
    rewrite Hresult in Hactive1.
    rewrite (IH Hactive1 Hlen1 Hrest). exact Hbaseline.
Qed.

(** With the door open after a stable history of twenty readings, twenty
    further readings of 4 degrees, 15 seconds apart, leave the baseline
    where it was: the first nineteen are reported as [DOOR_OPENING] and the
    twentieth as [NONE]. *)
Lemma baseline_frozen_with_the_door_open :
  baseline_temp
    (fst (feed config.defaults (spaced 315 15 (repeat 4%Q 20)) door_open))
  = baseline_temp door_open.
Proof.
  apply (baseline_frozen_while_alert_active
           config.defaults (spaced 315 15 (repeat 4%Q 20)) door_open).
  - reflexivity.
  - apply Nat.leb_le. reflexivity.
  - vm_compute. reflexivity.
Defined.

(** C1, evaluated.  In [warmup_door] the alert [DOOR_OPENING] is active with
    five readings buffered and a baseline of 0.8; a sixth reading of 4
    degrees is reported as [DOOR_OPENING] again, and the baseline has moved
    to 4/3: the branch of [_update_baseline] for fewer than twenty readings
    returns before the test of the active alert. *)
Lemma baseline_moves_while_alert_active_in_warmup :
  last_alert warmup_door = Some DOOR_OPENING
  /\ length (readings warmup_door) = 5%nat
  /\ option_map Qred (baseline_temp warmup_door) = Some (4 # 5)
  /\ alert_type (snd (add_reading config.defaults (seconds 75) 4 warmup_door))
     = DOOR_OPENING
  /\ option_map Qred
       (baseline_temp (fst (add_reading config.defaults (seconds 75) 4 warmup_door)))
     = Some (4 # 3)
  /\ baseline_temp (fst (add_reading config.defaults (seconds 75) 4 warmup_door))
     <> baseline_temp warmup_door.
Proof.
  repeat split; try reflexivity.
  intro H. apply (f_equal (option_map Qred)) in H. vm_compute in H. discriminate.
Qed.

(** X22.  What a critical alert needs.  A call of [add_reading] reports
    [CRITICAL_INCREASE] only if the buffer holds at least ten readings of
    the last ten minutes, the temperature exceeds the oldest of them by more
    than the slow threshold, the increases counted after the call are at
    least five, and the reading is not below the one before it; the same
    holds for [CRITICAL_DECREASE] with the signs exchanged.  Inside
    [_check_gradual_change], a reading below the one before it sets
    [consecutive_increases] to 0 and a reading above it sets
    [consecutive_decreases] to 0. *)
Theorem critical_alert_needs_delta_and_streak :
  forall (cfg : config.Config) (now : datetime) (temp : Q) (self : TemperatureAnalyzer),
    let out := add_reading cfg now temp self in
    let window := readings_since (now - timedelta_minutes 10) (readings (fst out)) in
    (alert_type (snd out) = CRITICAL_INCREASE ->
       (10 <= length window)%nat
       /\ (exists oldest rest,
             window = oldest :: rest
             /\ (config.TEMP_ALERT_SLOW_INCREASE cfg < temp - temperature oldest)%Q)
       /\ 5 <= consecutive_increases (fst out)
       /\ forall prev, py.from_end 2 (readings (fst out)) = Some prev ->
                       ~ (temp < temperature prev)%Q)
    /\ (alert_type (snd out) = CRITICAL_DECREASE ->
          (10 <= length window)%nat
          /\ (exists oldest rest,
                window = oldest :: rest
                /\ (temp - temperature oldest < - config.TEMP_ALERT_SLOW_INCREASE cfg)%Q)
          /\ 5 <= consecutive_decreases (fst out)
          /\ forall prev, py.from_end 2 (readings (fst out)) = Some prev ->
                          ~ (temperature prev < temp)%Q)
    /\ (forall change prev,
          py.from_end 2 (readings self) = Some prev ->
          ((temp < temperature prev)%Q ->
             consecutive_increases (fst (_check_gradual_change cfg temp change now self)) = 0)
          /\ ((temperature prev < temp)%Q ->
                consecutive_decreases (fst (_check_gradual_change cfg temp change now self)) = 0)).
Proof.
  intros cfg now temp self. cbv zeta.
  assert (Hcall :
            let out := add_reading cfg now temp self in
            alert_type (snd out) = CRITICAL_INCREASE
            \/ alert_type (snd out) = CRITICAL_DECREASE ->
            exists buffered,
              out = _analyze_pattern cfg temp now buffered
              /\ readings (fst out) = readings buffered).
  { cbv zeta. rewrite add_reading_unfold. cbv zeta.
    set (buffered := set_readings _ self).
    destruct (length (readings buffered) <? 5)%nat.
    - cbn. intros [H|H]; discriminate.
    - intros _. exists (_update_baseline buffered). split; [reflexivity|].
      apply analyze_pattern_inv. }
  cbv zeta in Hcall.
  split; [|split].
  - intro Hkind. destruct (Hcall (or_introl Hkind)) as (buffered & Hout & Hreadings).
    rewrite Hreadings. rewrite Hout in Hkind |- *.
    apply analyze_pattern_inv. exact Hkind.
  - intro Hkind. destruct (Hcall (or_intror Hkind)) as (buffered & Hout & Hreadings).
    rewrite Hreadings. rewrite Hout in Hkind |- *.
    apply analyze_pattern_inv. exact Hkind.
  - intros change prev Hprev.
    destruct (_check_gradual_change cfg temp change now self) as [self' outcome] eqn:Hg.
    apply check_gradual_change_inv in Hg. cbv zeta in Hg.
    destruct Hg as (_ & _ & Hdown & Hup & _).
    split; intro Hlt; cbn; [exact (Hdown prev Hprev Hlt)|exact (Hup prev Hprev Hlt)].
Qed.

(** After the five openings of [door_cycles_calls], a reading of 1 degree
    is reported as [CRITICAL_DECREASE]: the ten-minute window holds ten
    readings, the temperature is 3 degrees below the oldest of them, and
    five decreases are counted. *)
Lemma critical_decrease_after_the_fifth_opening :
  alert_type (snd (add_reading config.defaults (seconds 900) 1 door_cycles))
  = CRITICAL_DECREASE
  /\ (10 <= length
             (readings_since (seconds 900 - timedelta_minutes 10)%Z
                (readings (fst (add_reading config.defaults (seconds 900) 1 door_cycles)))))%nat
  /\ 5 <= consecutive_decreases (fst (add_reading config.defaults (seconds 900) 1 door_cycles)).
Proof.
  pose proof (critical_alert_needs_delta_and_streak
                config.defaults (seconds 900) 1 door_cycles) as H.
  cbv zeta in H. destruct H as (_ & H & _).
  assert (Hkind : alert_type (snd (add_reading config.defaults (seconds 900) 1 door_cycles))
                  = CRITICAL_DECREASE) by reflexivity.
  destruct (H Hkind) as (Hten & _ & Hstreak & _).
  split; [exact Hkind|]. split; [exact Hten|exact Hstreak].
Defined.

(** C3, evaluated on the run [door_cycles_calls].  Each of the four
    recoveries from the door alert has kept the decrease it counted, so four
    decreases are counted when the door opens a fifth time; that reading (4
    degrees) is above the one before it (half a degree) and returns as
    [DOOR_OPENING] before the counters are looked at.  The next reading (1
    degree) is then reported as [CRITICAL_DECREASE], although the
    temperatures of the ten-minute window go up and down at every step. *)
Lemma critical_decrease_on_an_oscillating_path :
  map (fun result => (alert_type result, is_recovering result, reported_decreases result))
    (skipn 20 (snd (feed config.defaults door_cycles_calls temperature_analyzer.init)))
  = [(DOOR_OPENING, false, 0); (NONE, true, 1); (DOOR_OPENING, false, 1); (NONE, true, 2);
     (DOOR_OPENING, false, 2); (NONE, true, 3); (DOOR_OPENING, false, 3); (NONE, true, 4);
     (DOOR_OPENING, false, 4)]
  /\ option_map temperature (py.from_end 1 (readings door_cycles_closed)) = Some (1 # 2)
  /\ consecutive_decreases door_cycles_closed = 4
  /\ fst (add_reading config.defaults (seconds 825) 4 door_cycles_closed) = door_cycles
  /\ consecutive_decreases door_cycles = 4
  /\ map temperature
       (readings_since (seconds 900 - timedelta_minutes 10)
          (readings (fst (add_reading config.defaults (seconds 900) 1 door_cycles))))
     = [4; 1 # 2; 4; 1 # 2; 4; 1 # 2; 4; 1 # 2; 4; 1]%Q
  /\ alert_type (snd (add_reading config.defaults (seconds 900) 1 door_cycles))
     = CRITICAL_DECREASE.
Proof.
  split; [vm_compute; reflexivity|].
  split; [vm_compute; reflexivity|].
  split; [vm_compute; reflexivity|].
  split; [vm_compute; reflexivity|].
  split; [vm_compute; reflexivity|].
  split; vm_compute; reflexivity.
Qed.

(** ** temperature_analyzer: the streak of increases

    Every path that leaves [_check_gradual_change] without an alert ends in
    an assignment of 0 to [consecutive_increases] (the recovery branches and
    the normal path), so the counter never gets past 1 on an object that
    started at 0. *)

Lemma check_gradual_change_increases cfg current change now self :
  consecutive_increases self = 0 ->
  consecutive_increases (fst (_check_gradual_change cfg current change now self)) = 0
  \/ (consecutive_increases (fst (_check_gradual_change cfg current change now self)) = 1
      /\ consecutive_decreases (fst (_check_gradual_change cfg current change now self)) = 0).
Proof.
  intro Hzero. unfold _check_gradual_change, _create_result. cbv zeta.
  repeat match goal with
         | |- context [if ?b then _ else _] => destruct b
         | |- context [match ?l with [] => _ | _ :: _ => _ end] => destruct l
         | |- context [match ?o with Some _ => _ | None => _ end] => destruct o
         end;
    cbn; rewrite ?Hzero; auto.
Qed.

Lemma analyze_pattern_increases cfg current now self :
  consecutive_increases self = 0 ->
  consecutive_increases (fst (_analyze_pattern cfg current now self)) = 0
  /\ alert_type (snd (_analyze_pattern cfg current now self)) <> CRITICAL_INCREASE.
Proof.
  intro Hzero. unfold _analyze_pattern. cbv zeta.
  destruct (baseline_temp self) as [baseline|].
  2: { cbn. split; [exact Hzero|discriminate]. }
  destruct (py.ltb current (config.TEMP_NORMAL_RANGE_MIN cfg)).
  { cbn. split; [exact Hzero|discriminate]. }
  destruct (py.ltb (config.TEMP_NORMAL_RANGE_MAX cfg) current).
  { cbn. split; [exact Hzero|discriminate]. }
  destruct (_check_rapid_change cfg current now self) as [self1 rapid] eqn:Hrapid.
  apply check_rapid_change_inv in Hrapid.
  destruct Hrapid as (_ & _ & Hi1 & _ & Hrapid).
  destruct rapid as [result|].
  { destruct Hrapid as (Hkind & _). cbn. rewrite Hkind.
    split; [congruence|discriminate]. }
  subst self1.
  pose proof (check_gradual_change_increases cfg current (current - baseline) now self Hzero)
    as Hstreak.
  destruct (_check_gradual_change cfg current (current - baseline) now self)
    as [self2 gradual] eqn:Hgradual.
  apply check_gradual_change_inv in Hgradual. cbv zeta in Hgradual.
  destruct Hgradual as (_ & _ & _ & _ & Hgradual).
  cbn [fst] in Hstreak.
  destruct gradual as [result|].
  { destruct Hgradual as (_ & _ & _ & _ & oldest & rest & _ & Hfired). cbn.
    destruct Hfired as [(Hkind & _ & Hfive)|(Hkind & _ & Hfive)]; rewrite Hkind.
    - exfalso. lia.
    - split; [lia|discriminate]. }
  destruct (if alert_active (last_alert self2)
            then _check_recovery current (current - baseline) self2
            else (self2, None)) as [self3 recovery] eqn:Hrecovery.
  destruct recovery as [result|].
  - destruct (alert_active (last_alert self2)); [|discriminate].
    apply check_recovery_inv in Hrecovery.
    destruct Hrecovery as (_ & _ & Hkind & _ & _ & Hcleared).
    cbn. rewrite Hkind. split; [exact Hcleared|discriminate].
  - cbn. split; [reflexivity|discriminate].
Qed.

Lemma add_reading_increases cfg now temp self :
  consecutive_increases self = 0 ->
  consecutive_increases (fst (add_reading cfg now temp self)) = 0
  /\ alert_type (snd (add_reading cfg now temp self)) <> CRITICAL_INCREASE.
Proof.
  intro Hzero. rewrite add_reading_unfold. cbv zeta.
  set (buffered := set_readings _ self).
  assert (Hbuffered : consecutive_increases (_update_baseline buffered) = 0).
  { destruct (update_baseline_frame buffered) as (_ & _ & Hi & _).
    rewrite Hi. exact Hzero. }
  destruct (length (readings buffered) <? 5)%nat.
  - cbn. split; [exact Hbuffered|discriminate].
  - apply analyze_pattern_increases. exact Hbuffered.
Qed.

(** X6.  On an analyzer that starts from [__init__], whatever the readings and
    their instants, [consecutive_increases] is 0 after every call and no
    call reports [CRITICAL_INCREASE]. *)
Lemma critical_increase_never_reported cfg calls :
  consecutive_increases (fst (feed cfg calls temperature_analyzer.init)) = 0
  /\ Forall (fun result => alert_type result <> CRITICAL_INCREASE)
       (snd (feed cfg calls temperature_analyzer.init)).
Proof.
  assert (Hany : forall self, consecutive_increases self = 0 ->
                   consecutive_increases (fst (feed cfg calls self)) = 0
                   /\ Forall (fun result => alert_type result <> CRITICAL_INCREASE)
                        (snd (feed cfg calls self))).
  { induction calls as [|[now temp] later IH]; intros self Hzero.
    - split; [exact Hzero|constructor].
    - cbn [feed].
      destruct (add_reading_increases cfg now temp self Hzero) as (Hzero1 & Hkind).
      destruct (add_reading cfg now temp self) as [self1 result].
      cbn [fst snd] in Hzero1, Hkind.
      destruct (IH self1 Hzero1) as (Hzero2 & Hkinds).
      destruct (feed cfg later self1) as [self2 results].
      cbn [fst snd] in *. split; [exact Hzero2|]. constructor; assumption. }
  apply Hany. reflexivity.
Qed.

(** ** temperature_analyzer: recovery and the reported change *)

Lemma alert_eqb_eq (a b : TemperatureAlertType) : alert_eqb a b = true <-> a = b.
Proof. destruct a, b; cbn; split; (reflexivity || discriminate). Qed.

Lemma last_alert_is_spec (kind : TemperatureAlertType) (a : option TemperatureAlertType) :
  last_alert_is kind a = true <-> a = Some kind.
Proof.
  destruct a as [k|]; cbn.
  - rewrite alert_eqb_eq. split; [intros ->; reflexivity|intro H; injection H as ->; reflexivity].
  - split; discriminate.
Qed.

(** The recovery rule.  [_check_recovery] reports a recovery exactly when
    the active alert is [DOOR_OPENING] and the change is within half a degree
    of the baseline, or the active alert is critical and the change is within
    one degree.  A recovery is reported as [NONE] with the increases cleared;
    the decreases are cleared after a critical alert and kept after a door
    alert. *)
Lemma check_recovery_rule (current change : Q) (self : TemperatureAnalyzer) :
  let out := _check_recovery current change self in
  ((exists result, snd out = Some result) <->
   (last_alert self = Some DOOR_OPENING /\ (Qabs change < 1 # 2)%Q)
   \/ ((last_alert self = Some CRITICAL_INCREASE \/ last_alert self = Some CRITICAL_DECREASE)
       /\ (Qabs change < 1)%Q))
  /\ (forall result, snd out = Some result ->
        alert_type result = NONE
        /\ is_recovering result = true
        /\ consecutive_increases (fst out) = 0
        /\ (last_alert self = Some DOOR_OPENING ->
              consecutive_decreases (fst out) = consecutive_decreases self)
        /\ (last_alert self <> Some DOOR_OPENING -> consecutive_decreases (fst out) = 0)).
Proof.
  cbv zeta. unfold _check_recovery. cbv zeta.
  destruct (last_alert_is DOOR_OPENING (last_alert self)) eqn:Hdoor.
  - apply last_alert_is_spec in Hdoor. rewrite Hdoor. cbn.
    destruct (py.ltb (Qabs change) (1 # 2)) eqn:Hnear; cbn.
    + apply ltb_lt in Hnear. split.
      * split; [intros _; left; split; [reflexivity|exact Hnear]|intros _; eauto].
      * intros result H. injection H as <-. cbn.
        repeat split; try reflexivity. intro Hneq. contradiction.
    + apply ltb_ge in Hnear. split.
      * split; [intros [result H]; discriminate|].
        intros [[_ Hlt]|[[H|H] _]]; try discriminate.
        exfalso. exact (Qlt_not_le _ _ Hlt Hnear).
      * intros result H. discriminate.
  - assert (Hnot : last_alert self <> Some DOOR_OPENING).
    { intro H. apply last_alert_is_spec in H. congruence. }
    cbn.
    destruct (last_alert_is CRITICAL_INCREASE (last_alert self)
              || last_alert_is CRITICAL_DECREASE (last_alert self)) eqn:Hcritical.
    + assert (Hkinds : last_alert self = Some CRITICAL_INCREASE
                       \/ last_alert self = Some CRITICAL_DECREASE).
      { apply orb_true_iff in Hcritical.
        destruct Hcritical as [H|H]; apply last_alert_is_spec in H; auto. }
      cbn. destruct (py.ltb (Qabs change) 1) eqn:Hnear; cbn.
      * apply ltb_lt in Hnear. split.
        -- split; [intros _; right; split; assumption|intros _; eauto].
        -- intros result H. injection H as <-. cbn.
           repeat split; try reflexivity. intro H. contradiction.
      * apply ltb_ge in Hnear. split.
        -- split; [intros [result H]; discriminate|].
           intros [[H _]|[_ Hlt]]; [contradiction|].
           exfalso. exact (Qlt_not_le _ _ Hlt Hnear).
        -- intros result H. discriminate.
    + cbn. apply orb_false_iff in Hcritical. destruct Hcritical as [Hi Hd].
      split.
      * split; [intros [result H]; discriminate|].
        intros [[H _]|[[H|H] _]]; [contradiction| |];
          apply last_alert_is_spec in H; congruence.
      * intros result H. discriminate.
Qed.

(** C6, evaluated.  With the door alert active after a stable history
    (baseline 0.2), a reading of 0.2 degrees fires no alert and is within
    half a degree of the baseline: the call reports [NONE] as a recovery and
    clears the increases, but the decrease it has just counted stays: the
    counter of decreases is 1 after the call and in the result. *)
Theorem door_recovery_keeps_the_decreases :
  last_alert door_open = Some DOOR_OPENING
  /\ option_map Qred (baseline_temp door_open) = Some (1 # 5)
  /\ alert_type (snd (add_reading config.defaults (seconds 315) (1 # 5) door_open)) = NONE
  /\ is_recovering (snd (add_reading config.defaults (seconds 315) (1 # 5) door_open)) = true
  /\ consecutive_increases (fst (add_reading config.defaults (seconds 315) (1 # 5) door_open)) = 0
  /\ consecutive_decreases (fst (add_reading config.defaults (seconds 315) (1 # 5) door_open)) = 1
  /\ reported_decreases (snd (add_reading config.defaults (seconds 315) (1 # 5) door_open)) = 1.
Proof.
  split; [vm_compute; reflexivity|].
  split; [vm_compute; reflexivity|].
  split; [vm_compute; reflexivity|].
  split; [vm_compute; reflexivity|].
  split; [vm_compute; reflexivity|].
  split; vm_compute; reflexivity.
Qed.

(** What [_create_result] reports as the change: the rounded difference
    between the last reading and the baseline when the baseline is a number
    other than zero, and zero when the baseline is unset or is zero. *)
Lemma create_result_temp_change alert message recovering self :
  let result := snd (_create_result alert message recovering self) in
  let current :=
    match py.from_end 1 (readings self) with
    | Some r => temperature r
    | None => 0%Q
    end in
  match baseline_temp self with
  | None => temp_change result = 0%Q
  | Some baseline =>
      (~ (baseline == 0)%Q -> temp_change result = py.round2 (current - baseline))
      /\ ((baseline == 0)%Q -> temp_change result = 0%Q)
  end.
Proof.
  cbv zeta. unfold _create_result. cbn.
  destruct (baseline_temp self) as [baseline|]; [|reflexivity].
  unfold py.float_truthy.
  destruct (Qeq_bool baseline 0) eqn:Hzero; cbn.
  - apply Qeq_bool_iff in Hzero. split; [intro H; contradiction|reflexivity].
  - split; [reflexivity|].
    intro H. apply Qeq_bool_iff in H. congruence.
Qed.

(** C7, evaluated.  After a reading of -1 degree, a reading of 1 degree sets
    the baseline to their mean, which is 0.  The call reports a current
    temperature of 1 and a change of 0, although the difference between the
    temperature and the baseline is 1; it also reports no baseline. *)
Theorem temp_change_is_zero_at_a_zero_baseline :
  option_map Qred
    (baseline_temp (fst (add_reading config.defaults (seconds 15) 1 below_zero)))
  = Some 0%Q
  /\ current_temp (snd (add_reading config.defaults (seconds 15) 1 below_zero)) = 1%Q
  /\ temp_change (snd (add_reading config.defaults (seconds 15) 1 below_zero)) = 0%Q
  /\ py.round2 (1 - 0) = 1%Q
  /\ reported_baseline (snd (add_reading config.defaults (seconds 15) 1 below_zero)) = None.
Proof.
  split; [vm_compute; reflexivity|].
  split; [vm_compute; reflexivity|].
  split; [vm_compute; reflexivity|].
  split; vm_compute; reflexivity.
Qed.

(** ** data_manager *)

Import data_manager.

(** The analyzer of the manager after a message is the analyzer after the
    reading of the message. *)
Lemma process_sensor_data_analyzer cfg now data self :
  temp_analyzer (fst (process_sensor_data cfg now data self))
  = fst (add_reading cfg now (data_temperature data) (temp_analyzer self)).
Proof.
  unfold process_sensor_data.
  destruct (add_reading cfg now (data_temperature data) (temp_analyzer self)).
  reflexivity.
Qed.

(** One message emits one alert, of the kind of its analysis, unless that
    kind is [NONE]. *)
Lemma process_sensor_data_alerts cfg now data self :
  emitted_alerts (snd (process_sensor_data cfg now data self))
  = filter (fun kind => negb (alert_eqb kind NONE))
      [alert_type (snd (add_reading cfg now (data_temperature data) (temp_analyzer self)))].
Proof.
  unfold process_sensor_data.
  destruct (add_reading cfg now (data_temperature data) (temp_analyzer self))
    as [analyzer analysis].
  cbn. destruct (alert_eqb (alert_type analysis) NONE); reflexivity.
Qed.

Lemma emitted_alerts_app (out1 out2 : list data_manager.Signal) :
  emitted_alerts (out1 ++ out2) = emitted_alerts out1 ++ emitted_alerts out2.
Proof.
  induction out1 as [|signal out1 IH]; [reflexivity|].
  destruct signal; cbn; rewrite IH; reflexivity.
Qed.

(** C2, as the code has it.  A message emits [temperature_alert] exactly
    when the kind of its analysis is not [NONE], whatever was emitted before:
    over any sequence of messages, the kinds emitted are the kinds reported
    by the analyzer, in order, without the [NONE] ones. *)
Theorem alert_emitted_for_every_reported_alert :
  forall (cfg : config.Config) (calls : list (datetime * SensorData)) (self : DataManager),
    emitted_alerts (snd (process_all cfg calls self))
    = filter (fun kind => negb (alert_eqb kind NONE))
        (map alert_type (snd (feed cfg (readings_of calls) (temp_analyzer self)))).
Proof.
  intros cfg calls. induction calls as [|[now data] later IH]; intro self.
  - reflexivity.
  - cbn [process_all readings_of map feed fst snd].
    pose proof (process_sensor_data_analyzer cfg now data self) as Hanalyzer.
    pose proof (process_sensor_data_alerts cfg now data self) as Halerts.
    destruct (process_sensor_data cfg now data self) as [self1 out1].
    destruct (add_reading cfg now (data_temperature data) (temp_analyzer self))
      as [analyzer analysis].
    cbn [fst snd] in Hanalyzer, Halerts.
    specialize (IH self1). rewrite Hanalyzer in IH.
    fold (readings_of later).
    destruct (process_all cfg later self1) as [self2 out2].
    destruct (feed cfg (readings_of later) analyzer) as [analyzer2 results].
    cbn [fst snd] in IH |- *.
    rewrite emitted_alerts_app, Halerts, IH. cbn [map filter].
    destruct (negb (alert_eqb (alert_type analysis) NONE)); reflexivity.
Qed.

(** C2, as stated, fails.  Six messages of 9 degrees to a fresh manager:
    the fifth and the sixth are both reported as [OUT_OF_RANGE], and the
    manager emits [temperature_alert] for both. *)
Lemma unchanged_alert_is_emitted_again :
  map alert_type
    (snd (feed config.defaults (readings_of too_warm_calls) temperature_analyzer.init))
  = [NONE; NONE; NONE; NONE; OUT_OF_RANGE; OUT_OF_RANGE]
  /\ emitted_alerts
       (snd (process_all config.defaults too_warm_calls
               (data_manager.init "esp32-fridge-001")))
     = [OUT_OF_RANGE; OUT_OF_RANGE].
Proof.
  split; vm_compute; reflexivity.
Qed.

(** C8.  [_save_to_database] leaves the manager as it was, and emits
    nothing, when the storage call returns [None] or raises; so
    [last_save_time] or [total_readings_saved] differ after the call only if
    the storage call returned a row, and then they hold the instant of the
    call and one more than before.  After a failure the timer finds the same
    save due as before it. *)
Theorem last_save_time_advances_only_on_success :
  forall (now : datetime) (save : SaveOutcome) (self : DataManager),
    ((forall reading, save <> Saved reading) ->
       _save_to_database now save self = (self, [])
       /\ forall now0 now1 now2 save',
            _check_save_to_db now0 now1 now2 save' (fst (_save_to_database now save self))
            = _check_save_to_db now0 now1 now2 save' self)
    /\ (last_save_time (fst (_save_to_database now save self)) <> last_save_time self
        \/ total_readings_saved (fst (_save_to_database now save self))
           <> total_readings_saved self ->
        exists reading, save = Saved reading)
    /\ (forall reading, save = Saved reading ->
          last_save_time (fst (_save_to_database now save self)) = Some now
          /\ total_readings_saved (fst (_save_to_database now save self))
             = total_readings_saved self + 1).
Proof.
  intros now save self. split; [|split].
  - intro Hfailed.
    assert (Hsame : _save_to_database now save self = (self, [])).
    { destruct save as [reading| |]; [|reflexivity|reflexivity].
      exfalso. exact (Hfailed reading eq_refl). }
    split; [exact Hsame|]. intros. rewrite Hsame. reflexivity.
  - destruct save as [reading| |].
    + intros _. exists reading. reflexivity.
    + cbn. intros [H|H]; exfalso; apply H; reflexivity.
    + cbn. intros [H|H]; exfalso; apply H; reflexivity.
  - intros reading ->. split; reflexivity.
Qed.

(** A save that raises at 10:00:02, with nothing saved before: the manager
    is as it was, and a save is due again at 11:00:01. *)
Lemma failed_save_is_due_again :
  _save_to_database (at_hms 10 0 2) Raised (data_manager.init "esp32-fridge-001")
  = (data_manager.init "esp32-fridge-001", [])
  /\ should_save_reading
       (last_save_time
          (fst (_save_to_database (at_hms 10 0 2) Raised
                  (data_manager.init "esp32-fridge-001"))))
       (at_hms 11 0 1) (at_hms 11 0 1)
     = true.
Proof.
  destruct (last_save_time_advances_only_on_success
              (at_hms 10 0 2) Raised (data_manager.init "esp32-fridge-001"))
    as (Hfailed & _).
  destruct Hfailed as (Hsame & _); [intros reading H; discriminate|].
  split; [exact Hsame|]. rewrite Hsame. reflexivity.
Defined.

(** * Further properties *)

(** Case analysis on every test of the goal, the innermost condition
    first. *)
Ltac branches :=
  repeat (match goal with
          | |- context [if negb ?b then _ else _] => destruct b
          | |- context [if ?a && _ then _ else _] => destruct a
          | |- context [if ?a || _ then _ else _] => destruct a
          | |- context [if ?b then _ else _] => destruct b
          | |- context [match ?l with [] => _ | _ :: _ => _ end] => destruct l
          | |- context [match ?o with Some _ => _ | None => _ end] => destruct o
          end; cbn).

(** ** temperature_analyzer: the buffer *)

Lemma skipn_app_one {A : Type} (k : nat) (xs : list A) (x : A) :
  (k <= length xs)%nat -> skipn k (xs ++ [x]) = skipn k xs ++ [x].
Proof.
  revert k. induction xs as [|y xs IH]; intros k Hk.
  - destruct k; [reflexivity|cbn in Hk; lia].
  - destruct k; [reflexivity|]. cbn in Hk |- *. apply IH. lia.
Qed.

Lemma deque_append_last {A : Type} (maxlen : nat) (xs : list A) (x : A) :
  (0 < maxlen)%nat -> py.from_end 1 (py.deque_append maxlen xs x) = Some x.
Proof.
  intro Hmax. unfold py.from_end, py.deque_append, py.last_n.
  rewrite skipn_app_one by (rewrite length_app; cbn; lia).
  rewrite rev_app_distr. reflexivity.
Qed.

(** The buffer after a call, whatever the call reports. *)
Lemma add_reading_readings cfg now temp self :
  readings (fst (add_reading cfg now temp self))
  = py.deque_append 120 (readings self) {| temperature := temp; timestamp := now |}.
Proof.
  rewrite add_reading_unfold. cbv zeta.
  set (buffered := set_readings _ self).
  destruct (update_baseline_frame buffered) as (Hreadings & _).
  destruct (length (readings buffered) <? 5)%nat.
  - cbn. rewrite Hreadings. reflexivity.
  - pose proof (analyze_pattern_inv cfg temp now (_update_baseline buffered)) as Hinv.
    cbv zeta in Hinv. destruct Hinv as (Hkept & _).
    rewrite Hkept, Hreadings. reflexivity.
Qed.

(** Cutting to the newest [n] items, appending, and cutting again keeps
    what one cut after appending keeps. *)
Lemma last_n_app (n : nat) {A : Type} (xs ys : list A) :
  py.last_n n (py.last_n n xs ++ ys) = py.last_n n (xs ++ ys).
Proof.
  unfold py.last_n.
  destruct (Nat.le_gt_cases (length xs) n) as [Hshort|Hlong].
  - replace (length xs - n)%nat with 0%nat by lia. reflexivity.
  - assert (Hcut : skipn (length xs - n) xs ++ ys = skipn (length xs - n) (xs ++ ys)).
    { rewrite skipn_app.
      replace (length xs - n - length xs)%nat with 0%nat by lia. reflexivity. }
    rewrite Hcut, skipn_skipn. f_equal.
    rewrite length_skipn, !length_app. lia.
Qed.

(** X1.  The buffer holds the 120 newest readings.  On an analyzer whose buffer
    is within its capacity, after any sequence of calls the buffer is the
    readings it held followed by one reading per call, in the order of the
    calls, cut to the 120 newest of them: the oldest readings are the ones
    dropped.  It holds min(readings before + calls, 120) readings, and
    after a call the last of them is the reading of that call. *)
Theorem buffer_holds_the_newest_readings :
  forall (cfg : config.Config) (calls : list (datetime * Q)) (self : TemperatureAnalyzer),
    (length (readings self) <= 120)%nat ->
    readings (fst (feed cfg calls self))
    = py.last_n 120
        (readings self
         ++ map (fun call => {| temperature := snd call; timestamp := fst call |}) calls)
    /\ length (readings (fst (feed cfg calls self)))
       = Nat.min (length (readings self) + length calls) 120
    /\ forall now temp,
         py.from_end 1 (readings (fst (feed cfg (calls ++ [(now, temp)]) self)))
         = Some {| temperature := temp; timestamp := now |}.
Proof.
  intros cfg calls self Hcap.
  assert (Hcontent :
            readings (fst (feed cfg calls self))
            = py.last_n 120
                (readings self
                 ++ map (fun call => {| temperature := snd call; timestamp := fst call |})
                      calls)).
  { revert self Hcap. induction calls as [|[now temp] later IH]; intros self Hcap.
    - cbn [feed fst map]. rewrite app_nil_r. unfold py.last_n.
      replace (length (readings self) - 120)%nat with 0%nat by lia. reflexivity.
    - cbn [feed].
      pose proof (add_reading_readings cfg now temp self) as Hbuffer.
      destruct (add_reading cfg now temp self) as [self1 result]. cbn [fst] in Hbuffer.
      assert (Hlen : (length (readings self1) <= 120)%nat).
      { rewrite Hbuffer, deque_append_length. lia. }
      specialize (IH self1 Hlen).
      destruct (feed cfg later self1) as [self2 results]. cbn [fst] in IH |- *.
      rewrite IH, Hbuffer. unfold py.deque_append. rewrite last_n_app.
      cbn [map fst snd]. rewrite <- app_assoc. reflexivity. }
  split; [exact Hcontent|]. split.
  - rewrite Hcontent, last_n_length, length_app, length_map. reflexivity.
  - intros now temp. clear Hcap Hcontent. revert self.
    induction calls as [|[now' temp'] later IH]; intro self.
    + cbn [app feed].
      pose proof (add_reading_readings cfg now temp self) as Hbuffer.
      destruct (add_reading cfg now temp self) as [self1 result].
      cbn [fst] in Hbuffer |- *. rewrite Hbuffer. apply deque_append_last. lia.
    + cbn [app feed].
      destruct (add_reading cfg now' temp' self) as [self1 result].
      specialize (IH self1).
      destruct (feed cfg (later ++ [(now, temp)]) self1) as [self2 results].
      exact IH.
Qed.

(** After 130 readings on a fresh analyzer, numbered 0 to 129, the buffer
    holds the 120 readings numbered 10 to 129. *)
Lemma buffer_full_after_130_readings :
  length (readings (fst (feed config.defaults
                           (spaced 0 15 (map (fun n => inject_Z (Z.of_nat n)) (seq 0 130)))
                           temperature_analyzer.init)))
  = 120%nat
  /\ map temperature
       (readings (fst (feed config.defaults
                         (spaced 0 15 (map (fun n => inject_Z (Z.of_nat n)) (seq 0 130)))
                         temperature_analyzer.init)))
     = map (fun n => inject_Z (Z.of_nat n)) (seq 10 120).
Proof.
  destruct (buffer_holds_the_newest_readings
              config.defaults
              (spaced 0 15 (map (fun n => inject_Z (Z.of_nat n)) (seq 0 130)))
              temperature_analyzer.init)
    as (Hcontent & Hlen & _).
  - cbn. lia.
  - split; [rewrite Hlen; reflexivity|].
    rewrite Hcontent. vm_compute. reflexivity.
Defined.

(** ** temperature_analyzer: calibration and the baseline *)

(** X2.  The first four readings only calibrate.  With fewer than four readings
    buffered a call reports [NONE] with the calibration message, whatever
    the temperature and whatever alert was active; it appends the reading to
    the buffer, leaves a baseline set and [NONE] as the last alert, and
    leaves the counters and the start of the alert alone. *)
Theorem first_four_readings_only_calibrate :
  forall (cfg : config.Config) (now : datetime) (temp : Q) (self : TemperatureAnalyzer),
    (length (readings self) < 4)%nat ->
    let out := add_reading cfg now temp self in
    alert_type (snd out) = NONE
    /\ alert_message (snd out) = Calibrating
    /\ is_recovering (snd out) = false
    /\ readings (fst out) = readings self ++ [{| temperature := temp; timestamp := now |}]
    /\ baseline_temp (fst out) <> None
    /\ last_alert (fst out) = Some NONE
    /\ consecutive_increases (fst out) = consecutive_increases self
    /\ consecutive_decreases (fst out) = consecutive_decreases self
    /\ alert_start_time (fst out) = alert_start_time self.
Proof.
  intros cfg now temp self Hlen. cbv zeta.
  rewrite add_reading_unfold. cbv zeta.
  set (reading := {| temperature := temp; timestamp := now |}).
  assert (Hbuffer : py.deque_append 120 (readings self) reading = readings self ++ [reading]).
  { unfold py.deque_append, py.last_n.
    replace (length (readings self ++ [reading]) - 120)%nat with 0%nat
      by (rewrite length_app; cbn; lia).
    reflexivity. }
  cbn [readings set_readings]. rewrite Hbuffer.
  assert (Hfive : (length (readings self ++ [reading]) <? 5)%nat = true).
  { apply Nat.ltb_lt. rewrite length_app. cbn. lia. }
  rewrite Hfive. unfold _update_baseline. cbn [readings set_readings].
  assert (Htwenty : (length (readings self ++ [reading]) <? 20)%nat = true).
  { apply Nat.ltb_lt. rewrite length_app. cbn. lia. }
  assert (Hsome : (0 <? length (readings self ++ [reading]))%nat = true).
  { apply Nat.ltb_lt. rewrite length_app. cbn. lia. }
  rewrite Htwenty, Hsome. cbn.
  repeat split; try reflexivity. discriminate.
Qed.

(** A first reading of 50 degrees, far out of the normal range, is reported
    as [NONE]. *)
Lemma first_reading_out_of_range_is_not_reported :
  alert_type (snd (add_reading config.defaults 0 50 temperature_analyzer.init)) = NONE
  /\ alert_message (snd (add_reading config.defaults 0 50 temperature_analyzer.init))
     = Calibrating.
Proof.
  destruct (first_four_readings_only_calibrate
              config.defaults 0 50 temperature_analyzer.init)
    as (Hkind & Hmessage & _).
  - cbn. lia.
  - split; [exact Hkind|exact Hmessage].
Defined.

(** [_update_baseline] leaves a baseline behind, on a buffer that is not
    empty, unless it finds twenty readings, an active alert and no
    baseline. *)
Lemma update_baseline_is_set self :
  readings self <> [] ->
  baseline_temp self <> None \/ (length (readings self) < 20)%nat ->
  baseline_temp (_update_baseline self) <> None.
Proof.
  intros Hreadings Hset. unfold _update_baseline.
  destruct (length (readings self) <? 20)%nat eqn:Htwenty.
  - destruct (0 <? length (readings self))%nat eqn:Hsome; [cbn; discriminate|].
    apply Nat.ltb_ge in Hsome. destruct (readings self); [congruence|cbn in Hsome; lia].
  - apply Nat.ltb_ge in Htwenty.
    destruct (alert_active (last_alert self)); [|cbn; discriminate].
    destruct Hset as [Hset|Hset]; [exact Hset|lia].
Qed.

Lemma analyze_pattern_message cfg current now self :
  baseline_temp self <> None ->
  alert_message (snd (_analyze_pattern cfg current now self)) <> EstablishingBaseline.
Proof.
  intro Hset.
  destruct (baseline_temp self) as [baseline|] eqn:Hbaseline; [|congruence].
  unfold _analyze_pattern, _check_rapid_change, _check_gradual_change, _check_recovery,
    _create_result.
  rewrite Hbaseline. cbv zeta. branches; discriminate.
Qed.

Lemma add_reading_sets_baseline cfg now temp self :
  readings self = [] \/ baseline_temp self <> None ->
  baseline_temp (fst (add_reading cfg now temp self)) <> None
  /\ readings (fst (add_reading cfg now temp self)) <> []
  /\ alert_message (snd (add_reading cfg now temp self)) <> EstablishingBaseline.
Proof.
  intro Hinv.
  assert (Hfilled : readings (fst (add_reading cfg now temp self)) <> []).
  { intro Hempty. apply (f_equal (@length _)) in Hempty.
    rewrite add_reading_readings, deque_append_length in Hempty. cbn in Hempty. lia. }
  split; [|split; [exact Hfilled|]]; revert Hfilled;
    rewrite add_reading_unfold; cbv zeta;
    set (buffered := set_readings _ self); intros _;
    assert (Hset : baseline_temp (_update_baseline buffered) <> None)
      by (apply update_baseline_is_set;
          [ subst buffered; cbn; intro Hempty; apply (f_equal (@length _)) in Hempty;
            rewrite deque_append_length in Hempty; cbn in Hempty; lia
          | destruct Hinv as [Hempty|Hset];
            [ right; subst buffered; cbn; rewrite deque_append_length, Hempty; cbn; lia
            | left; exact Hset ] ]);
    destruct (length (readings buffered) <? 5)%nat.
  - exact Hset.
  - pose proof (analyze_pattern_inv cfg temp now (_update_baseline buffered)) as Hkept.
    cbv zeta in Hkept. destruct Hkept as (_ & Hkept & _). rewrite Hkept. exact Hset.
  - cbn. discriminate.
  - apply analyze_pattern_message. exact Hset.
Qed.

(** X3.  The baseline is set by the first reading and stays set.  On an
    analyzer that starts from [__init__], after any sequence of calls but the
    empty one [baseline_temp] holds a number, and no call reports the message
    "Estableciendo baseline...": the branch of [_analyze_pattern] for a
    missing baseline is never taken. *)
Theorem baseline_is_set_by_the_first_reading :
  forall (cfg : config.Config) (calls : list (datetime * Q)),
    (calls = [] \/ baseline_temp (fst (feed cfg calls temperature_analyzer.init)) <> None)
    /\ Forall (fun result => alert_message result <> EstablishingBaseline)
         (snd (feed cfg calls temperature_analyzer.init)).
Proof.
  intros cfg calls.
  assert (Hany : forall self,
             readings self = [] \/ baseline_temp self <> None ->
             (calls <> [] \/ baseline_temp self <> None ->
              baseline_temp (fst (feed cfg calls self)) <> None)
             /\ Forall (fun result => alert_message result <> EstablishingBaseline)
                  (snd (feed cfg calls self))).
  { induction calls as [|[now temp] later IH]; intros self Hinv.
    - cbn. split; [|constructor]. intros [Hcalls|Hset]; [congruence|exact Hset].
    - cbn [feed].
      destruct (add_reading_sets_baseline cfg now temp self Hinv) as (Hset & _ & Hmsg).
      destruct (add_reading cfg now temp self) as [self1 result].
      cbn [fst snd] in Hset, Hmsg.
      destruct (IH self1 (or_intror Hset)) as (Hset2 & Hmsgs).
      destruct (feed cfg later self1) as [self2 results].
      cbn [fst snd] in *.
      split; [intros _; apply Hset2; right; exact Hset|].
      constructor; assumption. }
  destruct (Hany temperature_analyzer.init (or_introl eq_refl)) as (Hset & Hmsgs).
  split; [|exact Hmsgs].
  destruct calls as [|call later]; [left; reflexivity|].
  right. apply Hset. left. discriminate.
Qed.

(** ** temperature_analyzer: the order of the checks *)

(** [_check_rapid_change] fires exactly when the last five minutes hold at
    least five readings and the temperature is above the oldest of them by
    more than the rapid threshold. *)
Lemma check_rapid_change_iff cfg current now self :
  (exists result, snd (_check_rapid_change cfg current now self) = Some result)
  <-> exists oldest rest,
        readings_since (now - timedelta_minutes 5) (readings self) = oldest :: rest
        /\ (5 <= length (oldest :: rest))%nat
        /\ (config.TEMP_ALERT_RAPID_CHANGE cfg < current - temperature oldest)%Q.
Proof.
  unfold _check_rapid_change. cbv zeta.
  destruct (Nat.ltb (length (readings_since (now - timedelta_minutes 5) (readings self))) 5)
    eqn:Hfive.
  - apply Nat.ltb_lt in Hfive. cbn [snd]. split.
    + intros [result H]. discriminate.
    + intros (oldest & rest & Hwindow & Hlen & _). rewrite Hwindow in Hfive. lia.
  - apply Nat.ltb_ge in Hfive.
    destruct (readings_since (now - timedelta_minutes 5) (readings self))
      as [|oldest rest] eqn:Hwindow.
    + cbn in Hfive. lia.
    + destruct (py.ltb (config.TEMP_ALERT_RAPID_CHANGE cfg) (current - temperature oldest))
        eqn:Hrapid.
      * apply ltb_lt in Hrapid. split.
        -- intros _. exists oldest, rest. repeat split; assumption.
        -- intros _. cbn [snd _create_result]. eauto.
      * apply ltb_ge in Hrapid. cbn [snd]. split.
        -- intros [result H]. discriminate.
        -- intros (oldest' & rest' & Heq & _ & Hlt). injection Heq as <- <-.
           exfalso. exact (Qlt_not_le _ _ Hlt Hrapid).
Qed.

(** The kind [_analyze_pattern] reports, by the first check that fires. *)
Lemma analyze_pattern_kinds cfg current now self :
  baseline_temp self <> None ->
  let out := _analyze_pattern cfg current now self in
  ((current < config.TEMP_NORMAL_RANGE_MIN cfg
    \/ config.TEMP_NORMAL_RANGE_MAX cfg < current)%Q ->
   alert_type (snd out) = OUT_OF_RANGE)
  /\ ((config.TEMP_NORMAL_RANGE_MIN cfg <= current
       /\ current <= config.TEMP_NORMAL_RANGE_MAX cfg)%Q ->
      ((exists result, snd (_check_rapid_change cfg current now self) = Some result) ->
       alert_type (snd out) = DOOR_OPENING)
      /\ (snd (_check_rapid_change cfg current now self) = None ->
          alert_type (snd out) = NONE
          \/ alert_type (snd out) = CRITICAL_INCREASE
          \/ alert_type (snd out) = CRITICAL_DECREASE)).
Proof.
  intro Hset. cbv zeta. unfold _analyze_pattern. cbv zeta.
  destruct (baseline_temp self) as [baseline|]; [clear Hset|congruence].
  destruct (py.ltb current (config.TEMP_NORMAL_RANGE_MIN cfg)) eqn:Hlow.
  { apply ltb_lt in Hlow. split; [reflexivity|].
    intros [Hmin _]. exfalso. exact (Qlt_not_le _ _ Hlow Hmin). }
  apply ltb_ge in Hlow.
  destruct (py.ltb (config.TEMP_NORMAL_RANGE_MAX cfg) current) eqn:Hhigh.
  { apply ltb_lt in Hhigh. split; [reflexivity|].
    intros [_ Hmax]. exfalso. exact (Qlt_not_le _ _ Hhigh Hmax). }
  apply ltb_ge in Hhigh.
  split.
  { intros [H|H]; exfalso; [exact (Qlt_not_le _ _ H Hlow)|exact (Qlt_not_le _ _ H Hhigh)]. }
  intros _.
  destruct (_check_rapid_change cfg current now self) as [self1 rapid] eqn:Hrapid.
  apply check_rapid_change_inv in Hrapid.
  destruct Hrapid as (_ & _ & _ & _ & Hrapid).
  destruct rapid as [result|]; cbn [snd].
  { destruct Hrapid as (Hkind & _). split; [intros _; exact Hkind|discriminate]. }
  subst self1. split; [intros [result H]; discriminate|]. intros _.
  destruct (_check_gradual_change cfg current (current - baseline) now self)
    as [self2 gradual] eqn:Hgradual.
  apply check_gradual_change_inv in Hgradual. cbv zeta in Hgradual.
  destruct Hgradual as (_ & _ & _ & _ & Hgradual).
  destruct gradual as [result|].
  { destruct Hgradual as (_ & _ & _ & _ & oldest & rest & _ & Hfired). cbn.
    destruct Hfired as [(Hkind & _)|(Hkind & _)]; auto. }
  destruct (if alert_active (last_alert self2)
            then _check_recovery current (current - baseline) self2
            else (self2, None)) as [self3 recovery] eqn:Hrecovery.
  destruct recovery as [result|].
  - destruct (alert_active (last_alert self2)); [|discriminate].
    apply check_recovery_inv in Hrecovery.
    destruct Hrecovery as (_ & _ & Hkind & _). cbn. auto.
  - cbn. auto.
Qed.

(** What [add_reading] runs once the buffer has five readings and a
    baseline. *)
Lemma add_reading_analyzes cfg now temp self :
  (4 <= length (readings self))%nat ->
  baseline_temp self <> None ->
  exists buffered,
    add_reading cfg now temp self = _analyze_pattern cfg temp now buffered
    /\ baseline_temp buffered <> None
    /\ readings buffered = readings (fst (add_reading cfg now temp self))
    /\ last_alert buffered = last_alert self.
Proof.
  intros Hlen Hset.
  pose proof (add_reading_readings cfg now temp self) as Hreadings. revert Hreadings.
  rewrite add_reading_unfold. cbv zeta.
  set (buffered := set_readings _ self).
  assert (Hfive : (length (readings buffered) <? 5)%nat = false).
  { apply Nat.ltb_ge. subst buffered. cbn. rewrite deque_append_length. lia. }
  rewrite Hfive. intro Hreadings.
  exists (_update_baseline buffered). split; [reflexivity|].
  destruct (update_baseline_frame buffered) as (Hkept & Halert & _).
  split; [|split; [|exact Halert]].
  - apply update_baseline_is_set; [|left; exact Hset].
    intro Hempty. rewrite Hempty in Hfive. discriminate.
  - pose proof (analyze_pattern_inv cfg temp now (_update_baseline buffered)) as Hinv.
    cbv zeta in Hinv. destruct Hinv as (Hsame & _). symmetry. exact Hsame.
Qed.

(** X4.  The range check comes first.  With at least four readings buffered and
    a baseline, a call reports [OUT_OF_RANGE] exactly when the temperature is
    below the minimum or above the maximum of the normal range, whatever the
    history; a temperature equal to a bound is in range. *)
Theorem out_of_range_exactly_outside_the_band :
  forall (cfg : config.Config) (now : datetime) (temp : Q) (self : TemperatureAnalyzer),
    (4 <= length (readings self))%nat ->
    baseline_temp self <> None ->
    (alert_type (snd (add_reading cfg now temp self)) = OUT_OF_RANGE
     <-> (temp < config.TEMP_NORMAL_RANGE_MIN cfg
          \/ config.TEMP_NORMAL_RANGE_MAX cfg < temp)%Q).
Proof.
  intros cfg now temp self Hlen Hset.
  destruct (add_reading_analyzes cfg now temp self Hlen Hset)
    as (buffered & Hcall & Hbaseline & _).
  rewrite Hcall.
  pose proof (analyze_pattern_kinds cfg temp now buffered Hbaseline) as Hkinds.
  cbv zeta in Hkinds. destruct Hkinds as (Hout & Hin).
  split; [|exact Hout].
  intro Hkind.
  destruct (Qlt_le_dec temp (config.TEMP_NORMAL_RANGE_MIN cfg)) as [Hlow|Hlow];
    [left; exact Hlow|].
  destruct (Qlt_le_dec (config.TEMP_NORMAL_RANGE_MAX cfg) temp) as [Hhigh|Hhigh];
    [right; exact Hhigh|].
  exfalso. destruct (Hin (conj Hlow Hhigh)) as (Hdoor & Hrest).
  destruct (snd (_check_rapid_change cfg temp now buffered)) as [result|].
  - rewrite Hdoor in Hkind by eauto. discriminate.
  - destruct (Hrest eq_refl) as [H|[H|H]]; rewrite H in Hkind; discriminate.
Qed.

(** With the door open after a stable history, a reading of exactly 8
    degrees, the maximum of the range, is not out of range, and a reading of
    8.01 degrees is. *)
Lemma the_maximum_is_in_range :
  alert_type (snd (add_reading config.defaults (seconds 315) 8 door_open)) <> OUT_OF_RANGE
  /\ alert_type (snd (add_reading config.defaults (seconds 315) (801 # 100) door_open))
     = OUT_OF_RANGE.
Proof.
  assert (Hlen : (4 <= length (readings door_open))%nat) by (apply Nat.leb_le; reflexivity).
  assert (Hset : baseline_temp door_open <> None) by (vm_compute; discriminate).
  split.
  - intro Hkind.
    apply (out_of_range_exactly_outside_the_band
             config.defaults (seconds 315) 8 door_open Hlen Hset) in Hkind.
    destruct Hkind as [H|H]; vm_compute in H; discriminate.
  - apply (out_of_range_exactly_outside_the_band
             config.defaults (seconds 315) (801 # 100) door_open Hlen Hset).
    right. reflexivity.
Defined.

(** The door alert in the arithmetic of this development, where the
    difference of two temperatures is exact. *)
Lemma add_reading_door_opening cfg now temp self :
  (4 <= length (readings self))%nat ->
  baseline_temp self <> None ->
  (alert_type (snd (add_reading cfg now temp self)) = DOOR_OPENING
   <-> (config.TEMP_NORMAL_RANGE_MIN cfg <= temp
        /\ temp <= config.TEMP_NORMAL_RANGE_MAX cfg)%Q
       /\ exists oldest rest,
            readings_since (now - timedelta_minutes 5)
              (readings (fst (add_reading cfg now temp self)))
            = oldest :: rest
            /\ (5 <= length (oldest :: rest))%nat
            /\ (config.TEMP_ALERT_RAPID_CHANGE cfg < temp - temperature oldest)%Q).
Proof.
  intros Hlen Hset.
  destruct (add_reading_analyzes cfg now temp self Hlen Hset)
    as (buffered & Hcall & Hbaseline & Hreadings & _).
  rewrite <- Hreadings, Hcall.
  pose proof (analyze_pattern_kinds cfg temp now buffered Hbaseline) as Hkinds.
  cbv zeta in Hkinds. destruct Hkinds as (Hout & Hin).
  rewrite <- check_rapid_change_iff.
  split.
  - intro Hkind.
    destruct (Qlt_le_dec temp (config.TEMP_NORMAL_RANGE_MIN cfg)) as [Hlow|Hlow].
    { rewrite Hout in Hkind by (left; exact Hlow). discriminate. }
    destruct (Qlt_le_dec (config.TEMP_NORMAL_RANGE_MAX cfg) temp) as [Hhigh|Hhigh].
    { rewrite Hout in Hkind by (right; exact Hhigh). discriminate. }
    split; [split; assumption|].
    destruct (Hin (conj Hlow Hhigh)) as (_ & Hrest).
    destruct (snd (_check_rapid_change cfg temp now buffered)) as [result|]; [eauto|].
    destruct (Hrest eq_refl) as [H|[H|H]]; rewrite H in Hkind; discriminate.
  - intros (Hband & Hrapid). apply (Hin Hband). exact Hrapid.
Qed.

(** X5.  The door alert.  With at least four readings buffered and a baseline, a
    call reports [DOOR_OPENING] only if the temperature is in the normal
    range, the buffer holds at least five readings of the last five minutes,
    and the temperature is above the oldest of them by more than the rapid
    threshold.  The baseline, the counters, the start of the alert and an
    alert already active play no part: two analyzers with the same buffer,
    each with a baseline, report [DOOR_OPENING] for the same calls. *)
Theorem door_opening_only_on_a_rapid_rise :
  forall (cfg : config.Config) (now : datetime) (temp : Q) (self : TemperatureAnalyzer),
    (4 <= length (readings self))%nat ->
    baseline_temp self <> None ->
    (alert_type (snd (add_reading cfg now temp self)) = DOOR_OPENING ->
     (config.TEMP_NORMAL_RANGE_MIN cfg <= temp
      /\ temp <= config.TEMP_NORMAL_RANGE_MAX cfg)%Q
     /\ exists oldest rest,
          readings_since (now - timedelta_minutes 5)
            (readings (fst (add_reading cfg now temp self)))
          = oldest :: rest
          /\ (5 <= length (oldest :: rest))%nat
          /\ (config.TEMP_ALERT_RAPID_CHANGE cfg < temp - temperature oldest)%Q)
    /\ (forall other : TemperatureAnalyzer,
          readings other = readings self ->
          baseline_temp other <> None ->
          (alert_type (snd (add_reading cfg now temp other)) = DOOR_OPENING
           <-> alert_type (snd (add_reading cfg now temp self)) = DOOR_OPENING)).
Proof.
  intros cfg now temp self Hlen Hset. split.
  - apply add_reading_door_opening; assumption.
  - intros other Hsame Hother.
    assert (Hlen' : (4 <= length (readings other))%nat) by (rewrite Hsame; exact Hlen).
    rewrite (add_reading_door_opening cfg now temp self Hlen Hset).
    rewrite (add_reading_door_opening cfg now temp other Hlen' Hother).
    rewrite !add_reading_readings, Hsame. reflexivity.
Qed.

(** After a stable history of twenty readings of 0 degrees, a reading of 4
    degrees is a door alert: the window of five minutes holds at least five
    readings, and the temperature is more than 3 degrees above the oldest of
    them. *)
Lemma door_alert_after_a_stable_history :
  alert_type (snd (add_reading config.defaults (seconds 300) 4 (after stable_calls)))
  = DOOR_OPENING
  /\ exists oldest rest,
       readings_since (seconds 300 - timedelta_minutes 5)%Z
         (readings (fst (add_reading config.defaults (seconds 300) 4 (after stable_calls))))
       = oldest :: rest
       /\ (5 <= length (oldest :: rest))%nat
       /\ (3 < 4 - temperature oldest)%Q.
Proof.
  assert (Hkind : alert_type
                    (snd (add_reading config.defaults (seconds 300) 4 (after stable_calls)))
                  = DOOR_OPENING) by (vm_compute; reflexivity).
  split; [exact Hkind|].
  destruct (door_opening_only_on_a_rapid_rise
              config.defaults (seconds 300) 4 (after stable_calls)) as (Honly & _).
  - apply Nat.leb_le. reflexivity.
  - vm_compute. discriminate.
  - destruct (Honly Hkind) as (_ & Hrise). exact Hrise.
Defined.

(** ** temperature_analyzer: the buffer under a clock that never goes back *)

Lemma clock_ordered_app_one (rs : list TemperatureReading) (r : TemperatureReading) :
  clock_ordered rs ->
  (forall r', In r' rs -> timestamp r' <= timestamp r) ->
  clock_ordered (rs ++ [r]).
Proof.
  induction rs as [|r0 rs IH]; intros Hordered Hlast.
  - cbn. split; [intros r' []|exact I].
  - cbn in Hordered |- *. destruct Hordered as [Hfirst Hrest]. split.
    + intros r' Hin. apply in_app_or in Hin. destruct Hin as [Hin|[<-|[]]].
      * apply Hfirst. exact Hin.
      * apply Hlast. left. reflexivity.
    + apply IH; [exact Hrest|]. intros r' Hin. apply Hlast. right. exact Hin.
Qed.

Lemma clock_ordered_skipn (k : nat) (rs : list TemperatureReading) :
  clock_ordered rs -> clock_ordered (skipn k rs).
Proof.
  revert rs. induction k as [|k IH]; intros rs Hordered; [exact Hordered|].
  destruct rs as [|r rs]; [exact I|]. cbn. apply IH. apply Hordered.
Qed.

(** In an ordered buffer the readings since an instant are the newest ones:
    the buffer without its first [k] readings, each of them older than the
    instant. *)
Lemma readings_since_newest (since : datetime) (rs : list TemperatureReading) :
  clock_ordered rs ->
  exists k,
    readings_since since rs = skipn k rs
    /\ forall r, In r (firstn k rs) -> timestamp r < since.
Proof.
  induction rs as [|r rs IH]; intro Hordered.
  - exists 0%nat. split; [reflexivity|intros r []].
  - cbn in Hordered. destruct Hordered as [Hfirst Hrest].
    unfold readings_since. cbn [filter].
    destruct (since <=? timestamp r) eqn:Hsince.
    + apply Z.leb_le in Hsince. exists 0%nat. split; [|intros r' []].
      cbn [skipn]. f_equal.
      apply forallb_filter_id. apply forallb_forall. intros r' Hin.
      apply Z.leb_le. specialize (Hfirst r' Hin). lia.
    + apply Z.leb_gt in Hsince.
      destruct (IH Hrest) as (k & Hwindow & Holder).
      exists (S k). split; [exact Hwindow|].
      intros r' [<-|Hin]; [exact Hsince|apply Holder; exact Hin].
Qed.

(** X7.  The windows are the newest readings.  If the timestamps of the buffer
    never go back and the clock does not either, over the buffer and over
    the calls that follow, then after the calls the timestamps of the buffer
    still never go back, and the readings since any instant (the windows of
    five and of ten minutes) are the buffer without its first readings, which
    are all older than the instant. *)
Theorem windows_are_the_newest_readings :
  forall (cfg : config.Config) (calls : list (datetime * Q)) (start : datetime)
         (self : TemperatureAnalyzer),
    clock_ordered (readings self) ->
    (forall r, In r (readings self) -> timestamp r <= start) ->
    instants_from start calls ->
    clock_ordered (readings (fst (feed cfg calls self)))
    /\ forall since, exists k,
         readings_since since (readings (fst (feed cfg calls self)))
         = skipn k (readings (fst (feed cfg calls self)))
         /\ forall r, In r (firstn k (readings (fst (feed cfg calls self)))) ->
                      timestamp r < since.
Proof.
  intros cfg calls start self Hordered Hbefore Hclock.
  assert (Hafter : clock_ordered (readings (fst (feed cfg calls self)))).
  { revert start self Hordered Hbefore Hclock.
    induction calls as [|[now temp] later IH]; intros start self Hordered Hbefore Hclock.
    - exact Hordered.
    - cbn [feed]. cbn in Hclock. destruct Hclock as [Hnow Hlater].
      pose proof (add_reading_readings cfg now temp self) as Hbuffer.
      destruct (add_reading cfg now temp self) as [self1 result]. cbn [fst] in Hbuffer.
      specialize (IH now self1).
      destruct (feed cfg later self1) as [self2 results]. cbn [fst] in IH |- *.
      assert (Hall : forall r,
                 In r (readings self ++ [{| temperature := temp; timestamp := now |}]) ->
                 timestamp r <= now).
      { intros r Hin. apply in_app_or in Hin. destruct Hin as [Hin|[<-|[]]].
        - specialize (Hbefore r Hin). lia.
        - cbn. lia. }
      apply IH; [| |exact Hlater]; rewrite Hbuffer; unfold py.deque_append, py.last_n.
      + apply clock_ordered_skipn. apply clock_ordered_app_one; [exact Hordered|].
        intros r Hin. cbn. specialize (Hbefore r Hin). lia.
      + intros r Hin. apply Hall.
        rewrite <- (firstn_skipn
                      (length (readings self ++ [{| temperature := temp; timestamp := now |}])
                       - 120)
                      (readings self ++ [{| temperature := temp; timestamp := now |}])).
        apply in_or_app. right. exact Hin. }
  split; [exact Hafter|]. intro since. apply readings_since_newest. exact Hafter.
Qed.

(** Three readings, 15 seconds apart, on a fresh analyzer: the readings of
    the last 20 seconds are the buffer without its first reading. *)
Lemma window_of_a_short_run :
  exists k,
    readings_since (seconds 10) (readings (after (spaced 0 15 [0; 1; 2]%Q)))
    = skipn k (readings (after (spaced 0 15 [0; 1; 2]%Q))).
Proof.
  destruct (windows_are_the_newest_readings
              config.defaults (spaced 0 15 [0; 1; 2]%Q) 0 temperature_analyzer.init)
    as (_ & Hwindow).
  - exact I.
  - intros r [].
  - cbn. unfold seconds. lia.
  - destruct (Hwindow (seconds 10)) as (k & Heq & _). exists k. exact Heq.
Defined.

(** ** temperature_analyzer: [get_statistics] *)

Lemma min_of_le (xs : list Q) (x : Q) :
  (py.min_of x xs <= x)%Q /\ forall y, In y xs -> (py.min_of x xs <= y)%Q.
Proof.
  revert x. induction xs as [|z xs IH]; intro x.
  - split; [apply Qle_refl|intros y []].
  - unfold py.min_of. cbn [fold_left].
    fold (py.min_of (if py.ltb z x then z else x) xs).
    destruct (IH (if py.ltb z x then z else x)) as [Hhead Hrest].
    destruct (py.ltb z x) eqn:Hlt.
    + apply ltb_lt in Hlt. split.
      * apply Qle_trans with z; [exact Hhead|apply Qlt_le_weak; exact Hlt].
      * intros y [<-|Hin]; [exact Hhead|apply Hrest; exact Hin].
    + apply ltb_ge in Hlt. split; [exact Hhead|].
      intros y [<-|Hin]; [apply Qle_trans with x; assumption|apply Hrest; exact Hin].
Qed.

Lemma max_of_ge (xs : list Q) (x : Q) :
  (x <= py.max_of x xs)%Q /\ forall y, In y xs -> (y <= py.max_of x xs)%Q.
Proof.
  revert x. induction xs as [|z xs IH]; intro x.
  - split; [apply Qle_refl|intros y []].
  - unfold py.max_of. cbn [fold_left].
    fold (py.max_of (if py.ltb x z then z else x) xs).
    destruct (IH (if py.ltb x z then z else x)) as [Hhead Hrest].
    destruct (py.ltb x z) eqn:Hlt.
    + apply ltb_lt in Hlt. split.
      * apply Qle_trans with z; [apply Qlt_le_weak; exact Hlt|exact Hhead].
      * intros y [<-|Hin]; [exact Hhead|apply Hrest; exact Hin].
    + apply ltb_ge in Hlt. split; [exact Hhead|].
      intros y [<-|Hin]; [apply Qle_trans with x; assumption|apply Hrest; exact Hin].
Qed.

Lemma min_of_in (xs : list Q) (x : Q) : In (py.min_of x xs) (x :: xs).
Proof.
  revert x. induction xs as [|z xs IH]; intro x; [left; reflexivity|].
  unfold py.min_of. cbn [fold_left].
  fold (py.min_of (if py.ltb z x then z else x) xs).
  destruct (IH (if py.ltb z x then z else x)) as [Hhead|Hrest].
  - rewrite <- Hhead. destruct (py.ltb z x); [right; left|left]; reflexivity.
  - right. right. exact Hrest.
Qed.

Lemma max_of_in (xs : list Q) (x : Q) : In (py.max_of x xs) (x :: xs).
Proof.
  revert x. induction xs as [|z xs IH]; intro x; [left; reflexivity|].
  unfold py.max_of. cbn [fold_left].
  fold (py.max_of (if py.ltb x z then z else x) xs).
  destruct (IH (if py.ltb x z then z else x)) as [Hhead|Hrest].
  - rewrite <- Hhead. destruct (py.ltb x z); [right; left|left]; reflexivity.
  - right. right. exact Hrest.
Qed.

Lemma last_any_default {A : Type} (xs : list A) (d d' : A) :
  xs <> [] -> last xs d = last xs d'.
Proof.
  induction xs as [|x xs IH]; intro Hfilled; [congruence|].
  destruct xs as [|y xs]; [reflexivity|].
  change (last (y :: xs) d = last (y :: xs) d'). apply IH. discriminate.
Qed.

(** [xs[-1]] is the last item of a list that is not empty. *)
Lemma from_end_last {A : Type} (rest : list A) (first : A) :
  py.from_end 1 (first :: rest) = Some (last rest first).
Proof.
  unfold py.from_end. cbn [Nat.sub]. revert first.
  induction rest as [|second rest IH]; intro first; [reflexivity|].
  change (rev (first :: second :: rest)) with (rev (second :: rest) ++ [first]).
  specialize (IH second).
  destruct (rev (second :: rest)) as [|newest others]; [discriminate|].
  cbn in IH |- *. rewrite IH. f_equal.
  destruct rest as [|third rest]; [reflexivity|].
  change (last (third :: rest) second = last (third :: rest) first).
  apply last_any_default. discriminate.
Qed.

(** X8.  The statistics follow the buffer.  [get_statistics] returns nothing
    exactly for an empty buffer.  Otherwise the count is the size of the
    buffer (at least 1), the baseline is the one of the analyzer, the current
    temperature is the one of the newest reading, the minimum and the
    maximum reported are temperatures of the buffer, no buffered temperature
    is below the minimum or above the maximum, and when the timestamps of
    the buffer never go back the range in minutes is not negative.  After a
    call of [add_reading] there are statistics: their current temperature is
    the one of the call, and their count is one more than the readings
    buffered before, up to 120. *)
Theorem statistics_follow_the_buffer :
  forall (self : TemperatureAnalyzer),
    (get_statistics self = None <-> readings self = [])
    /\ (forall stats,
          get_statistics self = Some stats ->
          stat_count stats = length (readings self)
          /\ (1 <= stat_count stats)%nat
          /\ stat_baseline stats = baseline_temp self
          /\ option_map temperature (py.from_end 1 (readings self))
             = Some (stat_current stats)
          /\ In (stat_min stats) (map temperature (readings self))
          /\ In (stat_max stats) (map temperature (readings self))
          /\ (forall r, In r (readings self) ->
                ~ (temperature r < stat_min stats)%Q
                /\ ~ (stat_max stats < temperature r)%Q)
          /\ (clock_ordered (readings self) -> (0 <= stat_range_minutes stats)%Q))
    /\ (forall (cfg : config.Config) (now : datetime) (temp : Q),
          exists stats,
            get_statistics (fst (add_reading cfg now temp self)) = Some stats
            /\ stat_current stats = temp
            /\ stat_count stats = Nat.min (length (readings self) + 1) 120).
Proof.
  assert (Hstats : forall self : TemperatureAnalyzer,
             (get_statistics self = None <-> readings self = [])
             /\ (forall stats,
                   get_statistics self = Some stats ->
                   stat_count stats = length (readings self)
                   /\ (1 <= stat_count stats)%nat
                   /\ stat_baseline stats = baseline_temp self
                   /\ option_map temperature (py.from_end 1 (readings self))
                      = Some (stat_current stats)
                   /\ In (stat_min stats) (map temperature (readings self))
                   /\ In (stat_max stats) (map temperature (readings self))
                   /\ (forall r, In r (readings self) ->
                         ~ (temperature r < stat_min stats)%Q
                         /\ ~ (stat_max stats < temperature r)%Q)
                   /\ (clock_ordered (readings self) ->
                       (0 <= stat_range_minutes stats)%Q))).
  { intro self. unfold get_statistics.
    destruct (readings self) as [|first rest] eqn:Hreadings.
    { split; [split; reflexivity|]. intros stats H. discriminate. }
    split; [split; discriminate|].
    intros stats H. injection H as <-.
    cbn [stat_count stat_current stat_min stat_max stat_avg stat_baseline
           stat_range_minutes].
    destruct (min_of_le (map temperature rest) (temperature first))
      as [Hmin_first Hmin_rest].
    destruct (max_of_ge (map temperature rest) (temperature first))
      as [Hmax_first Hmax_rest].
    assert (Hnewest : In (last rest first) (first :: rest)).
    { destruct rest as [|second rest']; [left; reflexivity|]. right.
      rewrite (app_removelast_last first (l := second :: rest')) at 2 by discriminate.
      apply in_or_app. right. left. reflexivity. }
    split; [cbn [map length]; rewrite length_map; reflexivity|]. split; [cbn; lia|].
    split; [reflexivity|].
    split; [rewrite from_end_last; reflexivity|].
    split; [apply (min_of_in (map temperature rest) (temperature first))|].
    split; [apply (max_of_in (map temperature rest) (temperature first))|].
    split.
    - intros r [<-|Hin]; split; apply Qle_not_lt;
        [exact Hmin_first|exact Hmax_first
        |apply Hmin_rest; apply in_map; exact Hin
        |apply Hmax_rest; apply in_map; exact Hin].
    - intro Hordered. cbn in Hordered. destruct Hordered as [Hfirst _].
      assert (Hspan : timestamp first <= timestamp (last rest first)).
      { destruct Hnewest as [Heq|Hin]; [rewrite <- Heq; lia|apply Hfirst; exact Hin]. }
      apply Qle_shift_div_l; [reflexivity|].
      rewrite Qmult_0_l. change 0%Q with (inject_Z 0). apply total_seconds_ge. lia. }
  intro self. destruct (Hstats self) as (Hnone & Hsome).
  split; [exact Hnone|]. split; [exact Hsome|].
  intros cfg now temp.
  destruct (Hstats (fst (add_reading cfg now temp self))) as (Hnone' & Hsome').
  destruct (get_statistics (fst (add_reading cfg now temp self))) as [stats|] eqn:Hget.
  - exists stats. split; [reflexivity|].
    destruct (Hsome' stats eq_refl) as (Hcount & _ & _ & Hcurrent & _).
    rewrite add_reading_readings in Hcount, Hcurrent.
    rewrite deque_append_last in Hcurrent by lia.
    rewrite deque_append_length in Hcount.
    split; [|exact Hcount].
    cbn in Hcurrent. injection Hcurrent as Hcurrent. symmetry. exact Hcurrent.
  - exfalso. destruct Hnone' as [Hempty _]. specialize (Hempty eq_refl).
    apply (f_equal (@length _)) in Hempty.
    rewrite add_reading_readings, deque_append_length in Hempty. cbn in Hempty. lia.
Qed.

(** With the door open after a stable history: 21 readings, the newest of
    them of 4 degrees. *)
Lemma statistics_with_the_door_open :
  exists stats,
    get_statistics door_open = Some stats
    /\ stat_count stats = 21%nat
    /\ option_map temperature (py.from_end 1 (readings door_open))
       = Some (stat_current stats).
Proof.
  destruct (get_statistics door_open) as [stats|] eqn:Hstats;
    [|vm_compute in Hstats; discriminate].
  exists stats. split; [reflexivity|].
  destruct (statistics_follow_the_buffer door_open) as (_ & Hconsistent & _).
  destruct (Hconsistent stats Hstats) as (Hcount & _ & _ & Hcurrent & _).
  split; [rewrite Hcount; reflexivity|exact Hcurrent].
Defined.

(** ** heartbeat_monitor: sequences of heartbeats and checks *)

Lemma alternates_app (online : bool) (out1 out2 : list heartbeat_monitor.Signal) :
  alternates online (out1 ++ out2)
  = alternates online out1 && alternates (online_after online out1) out2.
Proof.
  revert online. induction out1 as [|signal out1 IH]; intro online; [reflexivity|].
  destruct signal; cbn [app alternates online_after fold_left];
    fold (online_after true out1); fold (online_after false out1);
    rewrite IH, andb_assoc; reflexivity.
Qed.

Lemma online_after_app (online : bool) (out1 out2 : list heartbeat_monitor.Signal) :
  online_after online (out1 ++ out2) = online_after (online_after online out1) out2.
Proof. apply fold_left_app. Qed.

(** One event emits at most one signal, a connection from offline or a
    disconnection from online, and leaves the monitor in the state the signal
    tells. *)
Lemma step_signal (event : heartbeat_monitor.Event) (self : HeartbeatMonitor) :
  alternates (is_online self) (snd (heartbeat_monitor.step event self)) = true
  /\ is_online (fst (heartbeat_monitor.step event self))
     = online_after (is_online self) (snd (heartbeat_monitor.step event self))
  /\ timeout_seconds (fst (heartbeat_monitor.step event self)) = timeout_seconds self
  /\ ((is_online self = true -> last_heartbeat_time self <> None) ->
      is_online (fst (heartbeat_monitor.step event self)) = true ->
      last_heartbeat_time (fst (heartbeat_monitor.step event self)) <> None).
Proof.
  destruct event as [now|now]; cbn [heartbeat_monitor.step].
  - unfold register_heartbeat. destruct (is_online self); cbn; repeat split; discriminate.
  - unfold _check_timeout.
    destruct (last_heartbeat_time self) as [last|] eqn:Hlast.
    + destruct (py.ltb (inject_Z (timeout_seconds self)) (total_seconds (now - last)));
        destruct (is_online self) eqn:Honline; cbn; rewrite ?Honline, ?Hlast;
        repeat split; try reflexivity; try discriminate.
    + cbn. rewrite Hlast. repeat split; try reflexivity; try (destruct (is_online self); reflexivity).
      intros H Honline. exact (H Honline).
Qed.

(** X11.  Connections and disconnections alternate.  Over any sequence of
    heartbeats and checks, on any monitor, the signals emitted alternate
    between [device_connected] and [device_disconnected], the first being a
    connection if the monitor was offline and a disconnection if it was
    online; and the monitor ends online exactly if the last signal, when
    there is one, is a connection. *)
Theorem connections_and_disconnections_alternate :
  forall (events : list heartbeat_monitor.Event) (self : HeartbeatMonitor),
    alternates (is_online self) (snd (heartbeat_monitor.run events self)) = true
    /\ is_online (fst (heartbeat_monitor.run events self))
       = online_after (is_online self) (snd (heartbeat_monitor.run events self)).
Proof.
  intros events. induction events as [|event later IH]; intro self.
  - split; reflexivity.
  - cbn [heartbeat_monitor.run].
    destruct (step_signal event self) as (Halt & Honline & _).
    destruct (heartbeat_monitor.step event self) as [self1 out1].
    cbn [fst snd] in Halt, Honline.
    destruct (IH self1) as (Halt2 & Honline2).
    destruct (heartbeat_monitor.run later self1) as [self2 out2].
    cbn [fst snd] in *.
    rewrite alternates_app, online_after_app, Halt, <- Honline, Halt2.
    split; [reflexivity|exact Honline2].
Qed.

(** X12.  A monitor stays online while heartbeats arrive in time.  On an online
    monitor, if every check of a sequence of events comes no later than the
    timeout after the heartbeat before it, the sequence emits no signal at
    all and the monitor is online at its end. *)
Theorem online_while_heartbeats_arrive_in_time :
  forall (events : list heartbeat_monitor.Event) (self : HeartbeatMonitor)
         (last : datetime),
    last_heartbeat_time self = Some last ->
    is_online self = true ->
    checks_in_time (timeout_seconds self) last events ->
    snd (heartbeat_monitor.run events self) = []
    /\ is_online (fst (heartbeat_monitor.run events self)) = true.
Proof.
  intros events. induction events as [|event later IH];
    intros self last Hlast Honline Hintime.
  - split; [reflexivity|exact Honline].
  - cbn [heartbeat_monitor.run]. destruct event as [now|now]; cbn [heartbeat_monitor.step].
    + cbn in Hintime. unfold register_heartbeat. rewrite Honline. cbn [negb].
      specialize (IH {| last_heartbeat_time := Some now;
                        is_online := true;
                        timeout_seconds := timeout_seconds self |} now
                     eq_refl eq_refl Hintime).
      destruct (heartbeat_monitor.run later _) as [self2 out2].
      cbn [fst snd] in IH |- *. exact IH.
    + cbn in Hintime. destruct Hintime as [Hnow Hlater].
      assert (Hkept : _check_timeout now self = (self, [])).
      { unfold _check_timeout. rewrite Hlast.
        fold (timed_out (timeout_seconds self) last now).
        destruct (timed_out (timeout_seconds self) last now) eqn:Hout; [|reflexivity].
        apply timed_out_spec in Hout. lia. }
      rewrite Hkept.
      specialize (IH self last Hlast Honline Hlater).
      destruct (heartbeat_monitor.run later self) as [self2 out2].
      cbn [fst snd] in IH |- *. exact IH.
Qed.

(** A heartbeat at the origin of the clock and a timeout of 6 seconds:
    checks 3 and 6 seconds later, a heartbeat after 7 seconds and a check 6
    seconds after it emit nothing. *)
Lemma no_signal_while_heartbeats_arrive :
  snd (heartbeat_monitor.run
         [Check (seconds 3); Check (seconds 6); Heartbeat (seconds 7); Check (seconds 13)]
         (fst (register_heartbeat 0 (heartbeat_monitor.init config.defaults))))
  = [].
Proof.
  apply (online_while_heartbeats_arrive_in_time
           [Check (seconds 3); Check (seconds 6); Heartbeat (seconds 7); Check (seconds 13)]
           (fst (register_heartbeat 0 (heartbeat_monitor.init config.defaults)))
           0).
  - reflexivity.
  - reflexivity.
  - cbn. unfold seconds. lia.
Defined.

Lemma run_keeps_the_monitor_sound
  (events : list heartbeat_monitor.Event) (self : HeartbeatMonitor) :
  (is_online self = true -> last_heartbeat_time self <> None) ->
  (is_online (fst (heartbeat_monitor.run events self)) = true ->
   last_heartbeat_time (fst (heartbeat_monitor.run events self)) <> None)
  /\ timeout_seconds (fst (heartbeat_monitor.run events self)) = timeout_seconds self.
Proof.
  revert self. induction events as [|event later IH]; intros self Hsound.
  - split; [exact Hsound|reflexivity].
  - cbn [heartbeat_monitor.run].
    destruct (step_signal event self) as (_ & _ & Htimeout & Hkept).
    specialize (Hkept Hsound).
    destruct (heartbeat_monitor.step event self) as [self1 out1].
    cbn [fst snd] in Htimeout, Hkept.
    destruct (IH self1 Hkept) as (Hsound2 & Htimeout2).
    destruct (heartbeat_monitor.run later self1) as [self2 out2].
    cbn [fst snd] in *. split; [exact Hsound2|congruence].
Qed.

(** X13.  The status of a running monitor.  After any sequence of heartbeats and
    checks on a new monitor, [get_status] reports the attributes as they
    are: its [is_online] is the attribute (the branch that answers offline
    for a monitor without heartbeat never contradicts it, because an online
    monitor has a last heartbeat), its elapsed time is the one of
    [get_time_since_last_heartbeat], and the timeout is still the configured
    one. *)
Theorem status_reports_the_monitor :
  forall (cfg : config.Config) (events : list heartbeat_monitor.Event) (now : datetime),
    let self := fst (heartbeat_monitor.run events (heartbeat_monitor.init cfg)) in
    status_is_online (get_status now self) = is_online self
    /\ status_last_heartbeat (get_status now self) = last_heartbeat_time self
    /\ status_seconds_since_heartbeat (get_status now self)
       = get_time_since_last_heartbeat now self
    /\ (status_is_online (get_status now self) = true ->
        exists last,
          last_heartbeat_time self = Some last
          /\ status_seconds_since_heartbeat (get_status now self)
             = Some (total_seconds (now - last)))
    /\ timeout_seconds self = config.HEARTBEAT_TIMEOUT cfg.
Proof.
  intros cfg events now. cbv zeta.
  destruct (run_keeps_the_monitor_sound events (heartbeat_monitor.init cfg))
    as (Hsound & Htimeout); [discriminate|].
  set (self := fst (heartbeat_monitor.run events (heartbeat_monitor.init cfg))) in *.
  unfold get_status, get_time_since_last_heartbeat.
  destruct (last_heartbeat_time self) as [last|] eqn:Hlast; cbn.
  - repeat split; try reflexivity; try exact Htimeout.
    intros _. exists last. split; reflexivity.
  - destruct (is_online self) eqn:Honline.
    + exfalso. apply Hsound; reflexivity.
    + repeat split; try reflexivity; try exact Htimeout. discriminate.
Qed.

(** ** data_manager: sequences of events *)

Lemma count_new_data_app (out1 out2 : list data_manager.Signal) :
  count_new_data (out1 ++ out2) = count_new_data out1 + count_new_data out2.
Proof.
  unfold count_new_data. rewrite filter_app, length_app. lia.
Qed.

Lemma count_saved_app (out1 out2 : list data_manager.Signal) :
  count_saved (out1 ++ out2) = count_saved out1 + count_saved out2.
Proof.
  unfold count_saved. rewrite filter_app, length_app. lia.
Qed.

(** Whether the storage of an event, when it returns a row, returns it as
    [db_manager] does. *)
Definition rows_detached (event : data_manager.Event) : Prop :=
  match event with
  | Timer _ _ _ (Saved reading) | Forced _ (Saved reading) => reading = detached_row
  | _ => True
  end.

Lemma save_signals (now : datetime) (save : SaveOutcome) (self : DataManager) :
  let out := _save_to_database now save self in
  count_new_data (snd out) = 0
  /\ total_readings_received (fst out) = total_readings_received self
  /\ 0 <= count_saved (snd out)
  /\ count_saved (snd out) <= total_readings_saved (fst out) - total_readings_saved self
  /\ total_readings_saved (fst out) - total_readings_saved self <= 1
  /\ (total_readings_saved (fst out) = total_readings_saved self ->
      last_save_time (fst out) = last_save_time self)
  /\ ((forall reading, save = Saved reading -> reading = detached_row) ->
      count_saved (snd out) = 0).
Proof.
  cbv zeta. destruct save as [reading| |]; cbn [_save_to_database fst snd
    total_readings_received total_readings_saved last_save_time].
  - destruct reading as [[temp|] [recorded_at|]]; cbn;
      (repeat split; try lia; try reflexivity);
      intro H; try lia; specialize (H _ eq_refl); discriminate.
  - cbn. repeat split; try lia; reflexivity.
  - cbn. repeat split; try lia; reflexivity.
Qed.

(** One event: a message emits one [new_data_available] and counts one
    reading; a tick or a forced save counts at most one saved reading and
    emits at most as many [data_saved_to_db] as it counts. *)
Lemma step_counts cfg (event : data_manager.Event) (self : DataManager) :
  let out := data_manager.step cfg event self in
  total_readings_received (fst out)
  = total_readings_received self + count_new_data (snd out)
  /\ count_new_data (snd out) = match event with Message _ _ => 1 | _ => 0 end
  /\ 0 <= count_saved (snd out)
  /\ count_saved (snd out) <= total_readings_saved (fst out) - total_readings_saved self
  /\ total_readings_saved (fst out) - total_readings_saved self
     <= match event with Message _ _ => 0 | _ => 1 end
  /\ (total_readings_saved (fst out) = total_readings_saved self ->
      last_save_time (fst out) = last_save_time self)
  /\ (rows_detached event -> count_saved (snd out) = 0).
Proof.
  cbv zeta. destruct event as [now data|now0 now1 now2 save|now save];
    cbn [data_manager.step rows_detached].
  - unfold process_sensor_data.
    destruct (add_reading cfg now (data_temperature data) (temp_analyzer self))
      as [analyzer analysis].
    cbn [fst snd total_readings_received total_readings_saved last_save_time].
    rewrite count_new_data_app, count_saved_app.
    destruct (negb (alert_eqb (alert_type analysis) NONE)); cbn; repeat split; auto; lia.
  - assert (Hstep : _check_save_to_db now0 now1 now2 save self = (self, [])
                    \/ _check_save_to_db now0 now1 now2 save self
                       = _save_to_database now2 save self).
    { unfold _check_save_to_db.
      destruct (cur_temperature (current_data self)); [|left; reflexivity].
      destruct (should_save_reading (last_save_time self) now0 now1);
        [right|left]; reflexivity. }
    destruct Hstep as [-> | ->].
    + cbn. repeat split; auto; lia.
    + pose proof (save_signals now2 save self) as Hsave. cbv zeta in Hsave.
      destruct Hsave as (Hnew & Hreceived & Hzero & Hle & Hone & Hlast & Hdetached).
      repeat split; try assumption; try lia.
      intro Hrows. apply Hdetached. intros reading ->. exact Hrows.
  - unfold force_save.
    pose proof (save_signals now save self) as Hsave. cbv zeta in Hsave.
    destruct Hsave as (Hnew & Hreceived & Hzero & Hle & Hone & Hlast & Hdetached).
    repeat split; try assumption; try lia.
    intro Hrows. apply Hdetached. intros reading ->. exact Hrows.
Qed.

(** X14.  The counters and the signals.  Over any sequence of messages,
    timer ticks and forced saves, on any manager, [total_readings_received]
    grows by the number of [new_data_available] signals emitted, which is the
    number of messages.  [total_readings_saved] grows by at most the number
    of ticks and forced saves and by at least the number of
    [data_saved_to_db] signals emitted; if it has not grown,
    [last_save_time] is what it was.  When the storage returns its rows as
    [db_manager] does, with attributes that cannot be read any more, no
    [data_saved_to_db] is emitted at all, whatever is saved. *)
Theorem counters_and_signals :
  forall (cfg : config.Config) (events : list data_manager.Event) (self : DataManager),
    let out := data_manager.run cfg events self in
    let messages :=
      Z.of_nat (length (filter (fun e => match e with Message _ _ => true | _ => false end)
                          events)) in
    total_readings_received (fst out)
    = total_readings_received self + count_new_data (snd out)
    /\ count_new_data (snd out) = messages
    /\ 0 <= count_saved (snd out)
    /\ count_saved (snd out) <= total_readings_saved (fst out) - total_readings_saved self
    /\ total_readings_saved (fst out) - total_readings_saved self
       <= Z.of_nat (length events) - messages
    /\ (total_readings_saved (fst out) = total_readings_saved self ->
        last_save_time (fst out) = last_save_time self)
    /\ (Forall rows_detached events -> count_saved (snd out) = 0).
Proof.
  intros cfg events. induction events as [|event later IH]; intro self; cbv zeta.
  - cbn. repeat split; auto; lia.
  - cbn [data_manager.run].
    pose proof (step_counts cfg event self) as Hstep. cbv zeta in Hstep.
    destruct Hstep as (Hreceived & Hnew & Hzero & Hle & Hone & Hlast & Hdetached).
    destruct (data_manager.step cfg event self) as [self1 out1].
    cbn [fst snd] in Hreceived, Hnew, Hzero, Hle, Hone, Hlast, Hdetached.
    specialize (IH self1). cbv zeta in IH.
    destruct IH as (Hreceived2 & Hnew2 & Hzero2 & Hle2 & Hone2 & Hlast2 & Hdetached2).
    destruct (data_manager.run cfg later self1) as [self2 out2].
    cbn [fst snd] in *.
    rewrite count_new_data_app, count_saved_app.
    cbn [filter length].
    assert (Hmessages :
              Z.of_nat
                (length
                   (if match event with Message _ _ => true | _ => false end
                    then event :: filter (fun e => match e with
                                                   | Message _ _ => true
                                                   | _ => false
                                                   end) later
                    else filter (fun e => match e with
                                          | Message _ _ => true
                                          | _ => false
                                          end) later))
              = match event with Message _ _ => 1 | _ => 0 end
                + Z.of_nat (length (filter (fun e => match e with
                                                     | Message _ _ => true
                                                     | _ => false
                                                     end) later))).
    { destruct event; cbn [length]; lia. }
    rewrite Hmessages.
    split; [lia|]. split; [destruct event; lia|]. split; [lia|]. split; [lia|].
    split; [destruct event; lia|]. split.
    + intro Hsame.
      assert (Hsame1 : total_readings_saved self1 = total_readings_saved self) by lia.
      assert (Hsame2 : total_readings_saved self2 = total_readings_saved self1) by lia.
      rewrite (Hlast2 Hsame2). exact (Hlast Hsame1).
    + intro Hrows. inversion Hrows as [|event' later' Hevent Hlater]; subst.
      rewrite (Hdetached Hevent), (Hdetached2 Hlater). reflexivity.
Qed.

(** A reading, then a forced save with a storage that works: the reading is
    counted as saved and no [data_saved_to_db] is emitted. *)
Lemma saved_without_a_signal :
  total_readings_saved
    (fst (data_manager.run config.defaults
            [Message (at_hms 9 59 0) (message 4); Forced (at_hms 9 59 30) (Saved detached_row)]
            (data_manager.init "esp32-fridge-001")))
  = 1
  /\ count_saved
       (snd (data_manager.run config.defaults
               [Message (at_hms 9 59 0) (message 4);
                Forced (at_hms 9 59 30) (Saved detached_row)]
               (data_manager.init "esp32-fridge-001")))
     = 0.
Proof.
  pose proof (counters_and_signals config.defaults
                [Message (at_hms 9 59 0) (message 4);
                 Forced (at_hms 9 59 30) (Saved detached_row)]
                (data_manager.init "esp32-fridge-001")) as H.
  cbv zeta in H. destruct H as (_ & _ & _ & _ & _ & _ & Hnone).
  split; [reflexivity|]. apply Hnone.
  constructor; [exact I|]. constructor; [reflexivity|]. constructor.
Defined.

(** ** data_manager: the hourly save *)

Lemma should_save_reading_spec (last_save_time : option datetime) (now0 now : datetime) :
  should_save_reading last_save_time now0 now = true
  <-> (minute now0 = 0 /\ second now0 < 5)
      /\ forall last, last_save_time = Some last -> 3540 * 1000000 <= now - last.
Proof.
  unfold should_save_reading, is_on_the_hour.
  destruct (minute now0 =? 0) eqn:Hminute; cbn [andb negb].
  - apply Z.eqb_eq in Hminute.
    destruct (second now0 <? 5) eqn:Hsecond; cbn [negb].
    + apply Z.ltb_lt in Hsecond.
      destruct last_save_time as [last|].
      * rewrite Qle_bool_iff. change 3540%Q with (inject_Z 3540).
        rewrite total_seconds_ge. split.
        -- intro H. split; [tauto|]. intros last' Heq. injection Heq as <-. exact H.
        -- intros [_ H]. apply H. reflexivity.
      * split; [|reflexivity]. intros _. split; [tauto|]. discriminate.
    + apply Z.ltb_ge in Hsecond. split; [discriminate|]. intros [[_ H] _]. lia.
  - apply Z.eqb_neq in Hminute. split; [discriminate|]. intros [[H _] _]. contradiction.
Qed.

(** X15.  When the timer saves.  A tick of the one-minute timer saves
    exactly when a reading has been received, the first clock read is in the
    first five seconds of an hour, the second clock read is at least 3540
    seconds after the last save (if there was one), and the storage returns a
    row: the last save is then the third clock read and one more reading is
    counted as saved; [data_saved_to_db] is emitted with it exactly when the
    two attributes of the row can be read, so never with a row as
    [db_manager] returns it.  In every other case the tick changes nothing
    and emits nothing.  A tick that saves is followed by no other save for
    3540 seconds. *)
Theorem timer_saves_on_the_hour_once :
  forall (now0 now1 now2 : datetime) (save : SaveOutcome) (self : DataManager),
    let out := _check_save_to_db now0 now1 now2 save self in
    let due :=
      cur_temperature (current_data self) <> None
      /\ (minute now0 = 0 /\ second now0 < 5)
      /\ (forall last, last_save_time self = Some last -> 3540 * 1000000 <= now1 - last)
      /\ exists reading, save = Saved reading in
    (due ->
     last_save_time (fst out) = Some now2
     /\ total_readings_saved (fst out) = total_readings_saved self + 1
     /\ (forall reading, save = Saved reading ->
           (count_saved (snd out) = 1
            <-> stored_temperature reading <> None /\ stored_recorded_at reading <> None)
           /\ (reading = detached_row -> snd out = [])))
    /\ (~ due -> out = (self, []))
    /\ (due ->
        forall later0 later1 later2 save',
          later1 - now2 < 3540 * 1000000 ->
          _check_save_to_db later0 later1 later2 save' (fst out) = (fst out, [])).
Proof.
  intros now0 now1 now2 save self. cbv zeta.
  assert (Hsaves :
            cur_temperature (current_data self) <> None
            /\ (minute now0 = 0 /\ second now0 < 5)
            /\ (forall last, last_save_time self = Some last -> 3540 * 1000000 <= now1 - last)
            /\ (exists reading, save = Saved reading) ->
            exists reading,
              save = Saved reading
              /\ _check_save_to_db now0 now1 now2 save self
                 = _save_to_database now2 (Saved reading) self).
  { intros (Hdata & Hhour & Helapsed & reading & ->). exists reading.
    split; [reflexivity|].
    unfold _check_save_to_db.
    destruct (cur_temperature (current_data self)); [|congruence].
    assert (Hdue : should_save_reading (last_save_time self) now0 now1 = true)
      by (apply should_save_reading_spec; split; assumption).
    rewrite Hdue. reflexivity. }
  split; [|split].
  - intro Hdue. destruct (Hsaves Hdue) as (reading & -> & ->).
    split; [reflexivity|]. split; [reflexivity|].
    intros reading' Heq. injection Heq as <-.
    cbn [_save_to_database snd].
    destruct reading as [[temp|] [recorded_at|]]; cbn; split;
      try (split; [intros _; split; discriminate|intros _; reflexivity]);
      try (split; [intro H; discriminate|intros [H1 H2]; congruence]);
      try discriminate; try (intros _; reflexivity).
  - intro Hnot. unfold _check_save_to_db.
    destruct (cur_temperature (current_data self)) as [temp|] eqn:Hdata; [|reflexivity].
    destruct (should_save_reading (last_save_time self) now0 now1) eqn:Hdue; [|reflexivity].
    apply should_save_reading_spec in Hdue. destruct Hdue as [Hhour Helapsed].
    destruct save as [reading| |]; [|reflexivity|reflexivity].
    exfalso. apply Hnot. split; [discriminate|]. split; [exact Hhour|].
    split; [exact Helapsed|]. exists reading. reflexivity.
  - intros Hdue later0 later1 later2 save' Hsoon.
    destruct (Hsaves Hdue) as (reading & -> & ->). cbn [_save_to_database fst].
    unfold _check_save_to_db. cbn [current_data last_save_time].
    destruct (cur_temperature (current_data self)); [|reflexivity].
    destruct (should_save_reading (Some now2) later0 later1) eqn:Hagain; [|reflexivity].
    apply should_save_reading_spec in Hagain. destruct Hagain as [_ Helapsed].
    specialize (Helapsed now2 eq_refl). lia.
Qed.

(** A reading at 09:59:00, then a tick at 10:00:01 with a storage that works
    as [db_manager] does: the save is counted and dated, and no signal is
    emitted. *)
Lemma tick_on_the_hour_with_a_detached_row :
  last_save_time
    (fst (_check_save_to_db (at_hms 10 0 1) (at_hms 10 0 1) (at_hms 10 0 1)
            (Saved detached_row)
            (fst (process_sensor_data config.defaults (at_hms 9 59 0) (message 4)
                    (data_manager.init "esp32-fridge-001")))))
  = Some (at_hms 10 0 1)
  /\ total_readings_saved
       (fst (_check_save_to_db (at_hms 10 0 1) (at_hms 10 0 1) (at_hms 10 0 1)
               (Saved detached_row)
               (fst (process_sensor_data config.defaults (at_hms 9 59 0) (message 4)
                       (data_manager.init "esp32-fridge-001")))))
     = 1
  /\ snd (_check_save_to_db (at_hms 10 0 1) (at_hms 10 0 1) (at_hms 10 0 1)
            (Saved detached_row)
            (fst (process_sensor_data config.defaults (at_hms 9 59 0) (message 4)
                    (data_manager.init "esp32-fridge-001"))))
     = [].
Proof.
  destruct (timer_saves_on_the_hour_once
              (at_hms 10 0 1) (at_hms 10 0 1) (at_hms 10 0 1) (Saved detached_row)
              (fst (process_sensor_data config.defaults (at_hms 9 59 0) (message 4)
                      (data_manager.init "esp32-fridge-001"))))
    as (Hdue & _ & _).
  destruct Hdue as (Hlast & Hsaved & Hrow).
  - split; [vm_compute; discriminate|].
    split; [split; [reflexivity|vm_compute; reflexivity]|].
    split; [intros last Hnone; vm_compute in Hnone; discriminate|].
    exists detached_row. reflexivity.
  - split; [exact Hlast|]. split; [exact Hsaved|].
    destruct (Hrow detached_row eq_refl) as (_ & Hnone). apply Hnone. reflexivity.
Defined.

(** X16.  A timer out of step never saves.  If no tick of a sequence of messages
    and ticks reads the clock within the first five seconds of an hour,
    nothing is saved, whatever arrives and whatever the storage would do:
    the number of saved readings and the last save are what they were, and
    no [data_saved_to_db] is emitted. *)
Theorem timer_out_of_step_never_saves :
  forall (cfg : config.Config) (events : list data_manager.Event) (self : DataManager),
    Forall (fun event =>
              match event with
              | Message _ _ => True
              | Timer now0 _ _ _ => minute now0 <> 0 \/ 5 <= second now0
              | Forced _ _ => False
              end) events ->
    count_saved (snd (data_manager.run cfg events self)) = 0
    /\ total_readings_saved (fst (data_manager.run cfg events self))
       = total_readings_saved self
    /\ last_save_time (fst (data_manager.run cfg events self)) = last_save_time self.
Proof.
  intros cfg events. induction events as [|event later IH]; intros self Hstep.
  - repeat split; reflexivity.
  - inversion Hstep as [|event' later' Hevent Hlater]; subst.
    cbn [data_manager.run].
    assert (Hnone : count_saved (snd (data_manager.step cfg event self)) = 0
                    /\ total_readings_saved (fst (data_manager.step cfg event self))
                       = total_readings_saved self
                    /\ last_save_time (fst (data_manager.step cfg event self))
                       = last_save_time self).
    { destruct event as [now data|now0 now1 now2 save|now save];
        cbn [data_manager.step]; [| |contradiction].
      - unfold process_sensor_data.
        destruct (add_reading cfg now (data_temperature data) (temp_analyzer self))
          as [analyzer analysis].
        cbn [fst snd]. rewrite count_saved_app.
        destruct (negb (alert_eqb (alert_type analysis) NONE)); repeat split; reflexivity.
      - unfold _check_save_to_db.
        destruct (cur_temperature (current_data self)); [|repeat split; reflexivity].
        destruct (should_save_reading (last_save_time self) now0 now1) eqn:Hdue;
          [|repeat split; reflexivity].
        apply should_save_reading_spec in Hdue. destruct Hdue as [[Hminute Hsecond] _].
        destruct Hevent; [contradiction|lia]. }
    destruct (data_manager.step cfg event self) as [self1 out1].
    cbn [fst snd] in Hnone. destruct Hnone as (Hsaved & Htotal & Hlast).
    destruct (IH self1 Hlater) as (Hsaved2 & Htotal2 & Hlast2).
    destruct (data_manager.run cfg later self1) as [self2 out2].
    cbn [fst snd] in *. rewrite count_saved_app.
    repeat split; [lia|congruence|congruence].
Qed.

(** A timer that fires at the thirtieth second of every minute of an hour,
    with a storage that works: nothing is saved. *)
Lemma timer_at_half_minutes_never_saves :
  count_saved
    (snd (data_manager.run config.defaults
            [Message (at_hms 9 59 0) (message 4);
             Timer (at_hms 9 59 30) (at_hms 9 59 30) (at_hms 9 59 30)
               (Saved {| stored_temperature := Some 4%Q; stored_recorded_at := Some (at_hms 9 59 30) |});
             Timer (at_hms 10 0 30) (at_hms 10 0 30) (at_hms 10 0 30)
               (Saved {| stored_temperature := Some 4%Q; stored_recorded_at := Some (at_hms 10 0 30) |})]
            (data_manager.init "esp32-fridge-001")))
  = 0.
Proof.
  apply (timer_out_of_step_never_saves config.defaults
           [Message (at_hms 9 59 0) (message 4);
            Timer (at_hms 9 59 30) (at_hms 9 59 30) (at_hms 9 59 30)
              (Saved {| stored_temperature := Some 4%Q; stored_recorded_at := Some (at_hms 9 59 30) |});
            Timer (at_hms 10 0 30) (at_hms 10 0 30) (at_hms 10 0 30)
              (Saved {| stored_temperature := Some 4%Q; stored_recorded_at := Some (at_hms 10 0 30) |})]
           (data_manager.init "esp32-fridge-001")).
  constructor; [exact I|].
  constructor; [left; vm_compute; discriminate|].
  constructor; [right; vm_compute; discriminate|].
  constructor.
Defined.

(** ** time_utils: elapsed time in words *)

Lemma int_total_seconds (d : timedelta) : py.int (total_seconds d) = Z.quot d 1000000.
Proof.
  unfold py.int, total_seconds, Qdiv, Qmult, Qinv, inject_Z. cbn [Qnum Qden].
  rewrite Z.mul_1_r. reflexivity.
Qed.

(** X18.  [format_time_ago] by the elapsed time.  Without a datetime the answer is
    "Nunca".  Otherwise, with [d] the microseconds from the datetime to the
    clock read: the answer is "En el futuro" exactly when [d] is at most
    minus one second (a datetime less than a second ahead counts as 0 seconds
    ago); below a minute it counts whole seconds, below an hour whole
    minutes, below a day whole hours, and from a day up to ten thousand
    million seconds (some 316 years) whole days, each rounded down, with the
    plural for every count but 1. *)
Theorem format_time_ago_by_elapsed_time :
  forall (dt now : datetime),
    let d := now - dt in
    let plural (n : Z) := if negb (n =? 1) then "s"%string else ""%string in
    format_time_ago None now = "Nunca"%string
    /\ (format_time_ago (Some dt) now = "En el futuro"%string <-> d <= - 1000000)
    /\ (- 1000000 < d < 60 * 1000000 ->
        format_time_ago (Some dt) now
        = ("hace " ++ py.str (Z.quot d 1000000) ++ " segundo"
           ++ plural (Z.quot d 1000000))%string)
    /\ (60 * 1000000 <= d < 3600 * 1000000 ->
        format_time_ago (Some dt) now
        = ("hace " ++ py.str (d / 60000000) ++ " minuto" ++ plural (d / 60000000))%string)
    /\ (3600 * 1000000 <= d < 86400 * 1000000 ->
        format_time_ago (Some dt) now
        = ("hace " ++ py.str (d / 3600000000) ++ " hora" ++ plural (d / 3600000000))%string)
    /\ (86400 * 1000000 <= d <= 10000000000 * 1000000 ->
        format_time_ago (Some dt) now
        = ("hace " ++ py.str (d / 86400000000) ++ " día" ++ plural (d / 86400000000))%string).
Proof.
  intros dt now. cbv zeta.
  split; [reflexivity|].
  unfold format_time_ago. cbv zeta. rewrite int_total_seconds.
  set (d := now - dt). set (s := Z.quot d 1000000).
  assert (Hneg : s < 0 <-> d <= - 1000000).
  { subst s. split; intro H.
    - destruct (Z.le_gt_cases d (- 1000000)) as [Hle|Hgt]; [exact Hle|exfalso].
      destruct (Z.le_gt_cases 0 d) as [Hpos|Hlt].
      + pose proof (Z.quot_pos d 1000000 Hpos). lia.
      + assert (Hzero : Z.quot d 1000000 = 0).
        { rewrite <- (Z.opp_involutive d), Z.quot_opp_l by lia.
          rewrite Z.quot_small by lia. reflexivity. }
        lia.
    - rewrite <- (Z.opp_involutive d), Z.quot_opp_l by lia.
      assert (1 <= Z.quot (- d) 1000000).
      { rewrite Z.quot_div_nonneg by lia. apply Z.div_le_lower_bound; lia. }
      lia. }
  assert (Hpos : 0 <= d -> s = d / 1000000)
    by (intro H; subst s; apply Z.quot_div_nonneg; lia).
  assert (Hdiv : forall k, 0 < k -> 0 <= d -> s / k = d / (1000000 * k)).
  { intros k Hk Hd. rewrite (Hpos Hd). apply Z.div_div; lia. }
  split.
  { destruct (s <? 0) eqn:Hs.
    - apply Z.ltb_lt in Hs. split; [intros _; apply Hneg; exact Hs|reflexivity].
    - apply Z.ltb_ge in Hs. split; [|intro H; apply Hneg in H; lia].
      destruct (s <? 60); [|destruct (s <? 3600); [|destruct (s <? 86400)]];
        cbn; intro H; discriminate. }
  split.
  { intros [Hlow Hhigh].
    assert (Hs : 0 <= s < 60).
    { split; [destruct (Z.lt_ge_cases s 0) as [H|H]; [apply Hneg in H; lia|exact H]|].
      destruct (Z.le_gt_cases 0 d) as [Hd|Hd].
      - rewrite (Hpos Hd). apply Z.div_lt_upper_bound; lia.
      - assert (Hzero : s = 0).
        { subst s. rewrite <- (Z.opp_involutive d), Z.quot_opp_l by lia.
          rewrite Z.quot_small by lia. reflexivity. }
        lia. }
    replace (s <? 0) with false by (symmetry; apply Z.ltb_ge; lia).
    replace (s <? 60) with true by (symmetry; apply Z.ltb_lt; lia).
    reflexivity. }
  split.
  { intros [Hlow Hhigh].
    assert (Hd : 0 <= d) by lia.
    assert (Hs : 60 <= s < 3600).
    { rewrite (Hpos Hd). split;
        [apply Z.div_le_lower_bound; lia|apply Z.div_lt_upper_bound; lia]. }
    replace (s <? 0) with false by (symmetry; apply Z.ltb_ge; lia).
    replace (s <? 60) with false by (symmetry; apply Z.ltb_ge; lia).
    replace (s <? 3600) with true by (symmetry; apply Z.ltb_lt; lia).
    rewrite (Hdiv 60) by lia. reflexivity. }
  split.
  { intros [Hlow Hhigh].
    assert (Hd : 0 <= d) by lia.
    assert (Hs : 3600 <= s < 86400).
    { rewrite (Hpos Hd). split;
        [apply Z.div_le_lower_bound; lia|apply Z.div_lt_upper_bound; lia]. }
    replace (s <? 0) with false by (symmetry; apply Z.ltb_ge; lia).
    replace (s <? 60) with false by (symmetry; apply Z.ltb_ge; lia).
    replace (s <? 3600) with false by (symmetry; apply Z.ltb_ge; lia).
    replace (s <? 86400) with true by (symmetry; apply Z.ltb_lt; lia).
    rewrite (Hdiv 3600) by lia. reflexivity. }
  intros [Hlow _].
  assert (Hd : 0 <= d) by lia.
  assert (Hs : 86400 <= s).
  { rewrite (Hpos Hd). apply Z.div_le_lower_bound; lia. }
  replace (s <? 0) with false by (symmetry; apply Z.ltb_ge; lia).
  replace (s <? 60) with false by (symmetry; apply Z.ltb_ge; lia).
  replace (s <? 3600) with false by (symmetry; apply Z.ltb_ge; lia).
  replace (s <? 86400) with false by (symmetry; apply Z.ltb_ge; lia).
  rewrite (Hdiv 86400) by lia. reflexivity.
Qed.

(** A datetime half a second ahead of the clock is 0 seconds ago, one 119
    seconds back is 1 minute ago, and one two days and a second back is 2
    days ago. *)
Lemma format_time_ago_examples :
  format_time_ago (Some (seconds 10 + 500000)) (seconds 10) = "hace 0 segundos"%string
  /\ format_time_ago (Some (seconds 1)) (seconds 120) = "hace 1 minuto"%string
  /\ format_time_ago (Some (seconds 0)) (seconds 172801) = "hace 2 días"%string.
Proof.
  destruct (format_time_ago_by_elapsed_time (seconds 10 + 500000) (seconds 10))
    as (_ & _ & Hseconds & _).
  destruct (format_time_ago_by_elapsed_time (seconds 1) (seconds 120))
    as (_ & _ & _ & Hminutes & _).
  destruct (format_time_ago_by_elapsed_time (seconds 0) (seconds 172801))
    as (_ & _ & _ & _ & _ & Hdays).
  split; [|split].
  - etransitivity; [apply Hseconds; unfold seconds; lia|reflexivity].
  - etransitivity; [apply Hminutes; unfold seconds; lia|reflexivity].
  - etransitivity; [apply Hdays; unfold seconds; lia|reflexivity].
Defined.

(** ** time_utils: the hours of a day *)

Lemma hour_range_nth (date : datetime) (k : nat) :
  (k < 24)%nat ->
  nth k (get_hour_ranges_for_day date) (0, 0)
  = (start_of_day date + timedelta_hours (Z.of_nat k),
     start_of_day date + timedelta_hours (Z.of_nat k) + timedelta_hours 1 - 1).
Proof.
  intro Hk. unfold get_hour_ranges_for_day. cbv zeta.
  rewrite map_map.
  set (range := fun hour : nat =>
                  (start_of_day date + timedelta_hours (Z.of_nat hour),
                   start_of_day date + timedelta_hours (Z.of_nat hour)
                   + timedelta_hours 1 - 1)).
  change (nth k (map range (seq 0 24)) (0, 0) = range k).
  rewrite (nth_indep _ (0, 0) (range 0%nat)) by (rewrite length_map, length_seq; exact Hk).
  rewrite map_nth, seq_nth by exact Hk. reflexivity.
Qed.

(** X19.  The hour ranges cut the day into 24 pieces.  [get_hour_ranges_for_day]
    returns 24 ranges; the first starts at the midnight before [date], where
    [get_bolivia_today_start] puts the start of that day, and the last ends
    at 23:59:59.999999, where [get_bolivia_today_end] puts its end; each
    range ends a microsecond before the next one starts; [date] lies in its
    own day; and every instant of that day lies in one range and no other:
    the one numbered by its hour. *)
Theorem hour_ranges_cut_the_day :
  forall (date : datetime),
    let ranges := get_hour_ranges_for_day date in
    let day_start := get_bolivia_today_start date in
    length ranges = 24%nat
    /\ fst (nth 0 ranges (0, 0)) = day_start
    /\ snd (nth 23 ranges (0, 0)) = get_bolivia_today_end date
    /\ (forall k, (k < 23)%nat ->
          snd (nth k ranges (0, 0)) + 1 = fst (nth (S k) ranges (0, 0)))
    /\ day_start <= date <= get_bolivia_today_end date
    /\ forall (t : datetime) (k : nat),
         day_start <= t <= get_bolivia_today_end date ->
         (k < 24)%nat ->
         (fst (nth k ranges (0, 0)) <= t <= snd (nth k ranges (0, 0))
          <-> Z.of_nat k = (t - day_start) / 3600000000).
Proof.
  intro date. cbv zeta.
  unfold get_bolivia_today_start, get_bolivia_today_end.
  assert (Hday : 0 <= date mod 86400000000 < 86400000000)
    by (apply Z.mod_pos_bound; lia).
  split; [unfold get_hour_ranges_for_day; rewrite !length_map, length_seq; reflexivity|].
  split; [rewrite hour_range_nth by lia; cbn [fst]; unfold timedelta_hours; cbn; lia|].
  split; [rewrite hour_range_nth by lia; cbn [snd];
          unfold timedelta_hours, at_hms; cbn; lia|].
  split.
  { intros k Hk. rewrite !hour_range_nth by lia. cbn [fst snd].
    unfold timedelta_hours. lia. }
  split; [unfold start_of_day, at_hms; lia|].
  intros t k Ht Hk. rewrite hour_range_nth by exact Hk. cbn [fst snd].
  unfold timedelta_hours, at_hms in *.
  set (s := start_of_day date) in *.
  split.
  - intro Hin. apply Z.div_unique with (t - s - 3600000000 * Z.of_nat k); [left|]; lia.
  - intro Hhour.
    pose proof (Z.div_mod (t - s) 3600000000) as Hdiv.
    pose proof (Z.mod_pos_bound (t - s) 3600000000) as Hmod.
    rewrite <- Hhour in Hdiv. lia.
Qed.

(** ** temperature_analyzer: what a result reports *)

Lemma create_result_reported alert message recovering self :
  reported_by (fst (_create_result alert message recovering self))
    (snd (_create_result alert message recovering self)).
Proof. reflexivity. Qed.

Lemma check_rapid_change_reported cfg current now self self' result :
  _check_rapid_change cfg current now self = (self', Some result) ->
  reported_by self' result /\ is_recovering result = false.
Proof.
  unfold _check_rapid_change. cbv zeta. intro H.
  branches_in H; try discriminate; injection H as <- <-; split; reflexivity.
Qed.

Lemma check_gradual_change_reported cfg current change now self self' result :
  _check_gradual_change cfg current change now self = (self', Some result) ->
  reported_by self' result /\ is_recovering result = false.
Proof.
  unfold _check_gradual_change. cbv zeta.
  set (tracked := if (2 <=? length (readings self))%nat then _ else self).
  clearbody tracked. intro H.
  branches_in H; try discriminate; injection H as <- <-; split; reflexivity.
Qed.

Lemma check_recovery_reported current change self self' result :
  _check_recovery current change self = (self', Some result) ->
  reported_by self' result
  /\ alert_start_time self' = None
  /\ ((last_alert self = Some DOOR_OPENING /\ (Qabs change < 1 # 2)%Q)
      \/ ((last_alert self = Some CRITICAL_INCREASE \/ last_alert self = Some CRITICAL_DECREASE)
          /\ (Qabs change < 1)%Q)).
Proof.
  intro H.
  pose proof (check_recovery_rule current change self) as Hrule. cbv zeta in Hrule.
  destruct Hrule as (Hwhen & _).
  assert (Hcase : exists result', snd (_check_recovery current change self) = Some result')
    by (rewrite H; exists result; reflexivity).
  apply Hwhen in Hcase.
  split; [|split; [|exact Hcase]]; revert H; unfold _check_recovery; cbv zeta; intro H;
    branches_in H; try discriminate; injection H as <- <-; reflexivity.
Qed.

(** A call either makes its result on the object it returns, outside the
    recovery rule, or reports a recovery by that rule. *)
Lemma analyze_pattern_reported cfg current now self :
  let out := _analyze_pattern cfg current now self in
  reported_by (fst out) (snd out)
  /\ (is_recovering (snd out) = true ->
      alert_type (snd out) = NONE
      /\ consecutive_increases (fst out) = 0
      /\ alert_start_time (fst out) = None
      /\ exists baseline,
           baseline_temp self = Some baseline
           /\ ((last_alert self = Some DOOR_OPENING
                /\ (Qabs (current - baseline) < 1 # 2)%Q)
               \/ ((last_alert self = Some CRITICAL_INCREASE
                    \/ last_alert self = Some CRITICAL_DECREASE)
                   /\ (Qabs (current - baseline) < 1)%Q))).
Proof.
  cbv zeta. unfold _analyze_pattern. cbv zeta.
  destruct (baseline_temp self) as [baseline|] eqn:Hbaseline.
  2: { split; [reflexivity|cbn; discriminate]. }
  destruct (py.ltb current (config.TEMP_NORMAL_RANGE_MIN cfg)).
  { split; [reflexivity|cbn; discriminate]. }
  destruct (py.ltb (config.TEMP_NORMAL_RANGE_MAX cfg) current).
  { split; [reflexivity|cbn; discriminate]. }
  destruct (_check_rapid_change cfg current now self) as [self1 rapid] eqn:Hrapid.
  destruct rapid as [result|].
  { apply check_rapid_change_reported in Hrapid. destruct Hrapid as [Hmade Hnot].
    cbn [fst snd]. split; [exact Hmade|congruence]. }
  apply check_rapid_change_inv in Hrapid. destruct Hrapid as (_ & _ & _ & _ & ->).
  destruct (_check_gradual_change cfg current (current - baseline) now self)
    as [self2 gradual] eqn:Hgradual.
  destruct gradual as [result|].
  { apply check_gradual_change_reported in Hgradual. destruct Hgradual as [Hmade Hnot].
    cbn [fst snd]. split; [exact Hmade|congruence]. }
  apply check_gradual_change_inv in Hgradual. cbv zeta in Hgradual.
  destruct Hgradual as (_ & _ & _ & _ & Halert).
  destruct (if alert_active (last_alert self2)
            then _check_recovery current (current - baseline) self2
            else (self2, None)) as [self3 recovery] eqn:Hrecovery.
  destruct recovery as [result|].
  - destruct (alert_active (last_alert self2)); [|discriminate].
    pose proof (check_recovery_inv _ _ _ _ _ Hrecovery) as (_ & _ & Hkind & _ & _ & Hcleared).
    apply check_recovery_reported in Hrecovery.
    destruct Hrecovery as (Hmade & Hstart & Hwhen).
    cbn [fst snd]. split; [exact Hmade|]. intros _.
    split; [exact Hkind|]. split; [exact Hcleared|]. split; [exact Hstart|].
    exists baseline. split; [reflexivity|]. rewrite <- Halert. exact Hwhen.
  - split; [reflexivity|cbn; discriminate].
Qed.

Lemma round_half_even_sign (y : Q) :
  ((0 <= y)%Q -> 0 <= py.round_half_even y)
  /\ ((y <= 0)%Q -> py.round_half_even y <= 0).
Proof.
  unfold py.round_half_even. cbv zeta.
  pose proof (Qfloor_le y) as Hlow. pose proof (Qlt_floor y) as Hhigh.
  split; intro Hsign.
  - assert (Hfloor : 0 <= Qfloor y).
    { assert (H : (inject_Z 0 < inject_Z (Qfloor y + 1))%Q).
      { apply Qle_lt_trans with y; [exact Hsign|exact Hhigh]. }
      rewrite <- Zlt_Qlt in H. lia. }
    destruct (Qcompare (y - inject_Z (Qfloor y)) (1 # 2));
      [destruct (Z.even (Qfloor y))| |]; lia.
  - assert (Hfloor : Qfloor y <= 0).
    { assert (H : (inject_Z (Qfloor y) <= inject_Z 0)%Q).
      { apply Qle_trans with y; [exact Hlow|exact Hsign]. }
      rewrite <- Zle_Qle in H. exact H. }
    destruct (Z.eq_dec (Qfloor y) 0) as [Hzero|Hneg].
    + rewrite Hzero in *.
      assert (Hy : (y == 0)%Q).
      { apply Qle_antisym; [exact Hsign|exact Hlow]. }
      assert (Hcmp : Qcompare (y - inject_Z 0) (1 # 2) = Lt).
      { rewrite <- Qlt_alt. rewrite Hy. reflexivity. }
      rewrite Hcmp. lia.
    + destruct (Qcompare (y - inject_Z (Qfloor y)) (1 # 2));
        [destruct (Z.even (Qfloor y))| |]; lia.
Qed.

Lemma round2_sign (x : Q) :
  ((0 <= x)%Q -> (0 <= py.round2 x)%Q) /\ ((x <= 0)%Q -> (py.round2 x <= 0)%Q).
Proof.
  unfold py.round2.
  destruct (round_half_even_sign (x * 100)) as [Hpos Hneg].
  split; intro Hsign; rewrite Qred_correct.
  - assert (H : 0 <= py.round_half_even (x * 100)) by (apply Hpos; lra).
    apply Qle_shift_div_l; [reflexivity|]. rewrite Qmult_0_l.
    change 0%Q with (inject_Z 0). rewrite <- Zle_Qle. exact H.
  - assert (H : py.round_half_even (x * 100) <= 0) by (apply Hneg; lra).
    apply Qle_shift_div_r; [reflexivity|]. rewrite Qmult_0_l.
    change 0%Q with (inject_Z 0). rewrite <- Zle_Qle. exact H.
Qed.

(** X9.  The result is a picture of the analyzer after the call.  Every result
    of [add_reading] reports the temperature it was given, rounded to two
    decimals, and the counters as the call leaves them.  Against the baseline
    the call leaves: when that baseline is a number other than zero the
    result reports it rounded to two decimals; when it is zero or missing the
    result reports no baseline and a change of zero; and the change reported
    is never negative for a temperature at or above the baseline, and never
    positive for a temperature at or below it. *)
Theorem result_reports_the_analyzer :
  forall (cfg : config.Config) (now : datetime) (temp : Q) (self : TemperatureAnalyzer),
    let out := add_reading cfg now temp self in
    current_temp (snd out) = py.round2 temp
    /\ reported_increases (snd out) = consecutive_increases (fst out)
    /\ reported_decreases (snd out) = consecutive_decreases (fst out)
    /\ match baseline_temp (fst out) with
       | Some baseline =>
           (~ (baseline == 0)%Q ->
            reported_baseline (snd out) = Some (py.round2 baseline))
           /\ ((baseline == 0)%Q ->
               reported_baseline (snd out) = None /\ temp_change (snd out) = 0%Q)
           /\ ((baseline <= temp)%Q -> (0 <= temp_change (snd out))%Q)
           /\ ((temp <= baseline)%Q -> (temp_change (snd out) <= 0)%Q)
       | None => reported_baseline (snd out) = None /\ temp_change (snd out) = 0%Q
       end.
Proof.
  intros cfg now temp self. cbv zeta.
  assert (Hmade : reported_by (fst (add_reading cfg now temp self))
                    (snd (add_reading cfg now temp self))).
  { rewrite add_reading_unfold. cbv zeta.
    match goal with |- context [if ?b then _ else _] => destruct b end.
    - apply create_result_reported.
    - apply analyze_pattern_reported. }
  pose proof (deque_append_last 120 (readings self)
                {| temperature := temp; timestamp := now |}) as Hlast.
  rewrite <- add_reading_readings with (cfg := cfg) in Hlast.
  specialize (Hlast ltac:(lia)).
  destruct (add_reading cfg now temp self) as [self' result].
  cbn [fst snd] in *. unfold reported_by, _create_result in Hmade.
  cbn [readings set_last_alert baseline_temp consecutive_increases consecutive_decreases]
    in Hmade.
  rewrite Hlast in Hmade. cbn [temperature] in Hmade.
  injection Hmade as _ Hresult.
  rewrite <- Hresult.
  cbn [current_temp reported_increases reported_decreases reported_baseline temp_change].
  split; [reflexivity|]. split; [reflexivity|]. split; [reflexivity|].
  destruct (baseline_temp self') as [baseline|]; [|split; reflexivity].
  unfold py.float_truthy.
  destruct (round2_sign (temp - baseline)) as [Hup Hdown].
  destruct (Qeq_bool baseline 0) eqn:Hzero; cbn.
  - apply Qeq_bool_iff in Hzero.
    split; [intro H; contradiction|]. split; [intros _; split; reflexivity|].
    split; intros _; apply Qle_refl.
  - split; [intros _; reflexivity|]. split.
    + intro H. apply Qeq_bool_iff in H. congruence.
    + split; intro Hsign; [apply Hup|apply Hdown]; lra.
Qed.

(** X10.  A recovery is reported only after a door or a critical alert.  When a
    call reports [is_recovering], the kind reported is [NONE], the alert before the call was [DOOR_OPENING]
    with the temperature within half a degree of the baseline the call
    leaves, or a critical alert with the temperature within one degree of
    it; the increases are cleared and so is the start of the alert.  After
    [OUT_OF_RANGE] no recovery is ever reported. *)
Theorem recovery_only_after_door_or_critical :
  forall (cfg : config.Config) (now : datetime) (temp : Q) (self : TemperatureAnalyzer),
    let out := add_reading cfg now temp self in
    is_recovering (snd out) = true ->
    alert_type (snd out) = NONE
    /\ consecutive_increases (fst out) = 0
    /\ alert_start_time (fst out) = None
    /\ exists baseline,
         baseline_temp (fst out) = Some baseline
         /\ ((last_alert self = Some DOOR_OPENING /\ (Qabs (temp - baseline) < 1 # 2)%Q)
             \/ ((last_alert self = Some CRITICAL_INCREASE
                  \/ last_alert self = Some CRITICAL_DECREASE)
                 /\ (Qabs (temp - baseline) < 1)%Q)).
Proof.
  intros cfg now temp self. cbv zeta.
  rewrite add_reading_unfold. cbv zeta.
  set (buffered := set_readings _ self).
  destruct (length (readings buffered) <? 5)%nat; [cbn; discriminate|].
  intro Hrecovering.
  pose proof (analyze_pattern_reported cfg temp now (_update_baseline buffered)) as Hmade.
  cbv zeta in Hmade. destruct Hmade as (_ & Hmade).
  destruct (Hmade Hrecovering) as (Hkind & Hcleared & Hstart & baseline & Hbaseline & Hwhen).
  pose proof (analyze_pattern_inv cfg temp now (_update_baseline buffered)) as Hinv.
  cbv zeta in Hinv. destruct Hinv as (_ & Hkept & _).
  destruct (update_baseline_frame buffered) as (_ & Halert & _).
  split; [exact Hkind|]. split; [exact Hcleared|]. split; [exact Hstart|].
  exists baseline. split; [congruence|].
  rewrite Halert in Hwhen. exact Hwhen.
Qed.

(** With the door open after a stable history (baseline 0.2), a reading of
    0.2 degrees is reported as a recovery from the door alert. *)
Lemma recovery_from_the_open_door :
  alert_type (snd (add_reading config.defaults (seconds 315) (1 # 5) door_open)) = NONE
  /\ alert_start_time (fst (add_reading config.defaults (seconds 315) (1 # 5) door_open))
     = None.
Proof.
  destruct (recovery_only_after_door_or_critical
              config.defaults (seconds 315) (1 # 5) door_open)
    as (Hkind & _ & Hstart & _).
  - vm_compute. reflexivity.
  - split; [exact Hkind|exact Hstart].
Defined.

(** ** data_manager: the manager and its analyzer *)

Lemma add_reading_last_alert cfg now temp self :
  last_alert (fst (add_reading cfg now temp self))
  = Some (alert_type (snd (add_reading cfg now temp self))).
Proof.
  rewrite add_reading_unfold. cbv zeta.
  match goal with |- context [if ?b then _ else _] => destruct b end.
  - reflexivity.
  - apply analyze_pattern_inv.
Qed.

Lemma save_keeps_consistent (now : datetime) (save : SaveOutcome) (self : DataManager) :
  consistent self -> consistent (fst (_save_to_database now save self)).
Proof.
  intro Hself. destruct save as [reading| |]; [|exact Hself|exact Hself].
  destruct Hself as (Hreceived & Hsaved & Htemp & Hanalysis & Hlast & Hnewest & Halert).
  unfold consistent.
  cbn [_save_to_database fst total_readings_received total_readings_saved current_data
         last_save_time temp_analyzer].
  split; [exact Hreceived|]. split; [lia|]. split; [exact Htemp|].
  split; [exact Hanalysis|]. split; [split; [discriminate|lia]|].
  split; [exact Hnewest|exact Halert].
Qed.

Lemma step_keeps_consistent cfg (event : data_manager.Event) (self : DataManager) :
  consistent self -> consistent (fst (data_manager.step cfg event self)).
Proof.
  intro Hself.
  destruct event as [now data|now0 now1 now2 save|now save]; cbn [data_manager.step].
  - destruct Hself as (Hreceived & Hsaved & Htemp & Hanalysis & Hlast & Hnewest & Halert).
    unfold process_sensor_data.
    pose proof (add_reading_last_alert cfg now (data_temperature data) (temp_analyzer self))
      as Hkind.
    pose proof (add_reading_readings cfg now (data_temperature data) (temp_analyzer self))
      as Hbuffer.
    destruct (add_reading cfg now (data_temperature data) (temp_analyzer self))
      as [analyzer analysis].
    cbn [fst snd] in Hkind, Hbuffer |- *. unfold consistent.
    cbn [total_readings_received total_readings_saved current_data cur_temperature
           cur_analysis last_save_time temp_analyzer].
    split; [lia|]. split; [exact Hsaved|].
    split; [split; [discriminate|lia]|]. split; [split; [discriminate|lia]|].
    split; [exact Hlast|]. split.
    + intros temp Heq. injection Heq as <-.
      rewrite Hbuffer, deque_append_last by lia. reflexivity.
    + intros analysis' Heq. injection Heq as <-. exact Hkind.
  - assert (Hstep : fst (_check_save_to_db now0 now1 now2 save self) = self
                    \/ fst (_check_save_to_db now0 now1 now2 save self)
                       = fst (_save_to_database now2 save self)).
    { unfold _check_save_to_db.
      destruct (cur_temperature (current_data self)); [|left; reflexivity].
      destruct (should_save_reading (last_save_time self) now0 now1);
        [right|left]; reflexivity. }
    destruct Hstep as [-> | ->]; [exact Hself|apply save_keeps_consistent; exact Hself].
  - unfold force_save. apply save_keeps_consistent. exact Hself.
Qed.

(** X17.  The manager stays consistent.  After any sequence of messages, timer
    ticks and forced saves on a new manager: the temperature and the analysis
    shown are missing exactly when no message was received; the temperature
    shown is that of the newest reading in the analyzer's buffer and the
    analysis shown names the alert the analyzer holds; and [last_save_time]
    is missing exactly when nothing was saved. *)
Theorem manager_stays_consistent :
  forall (cfg : config.Config) (events : list data_manager.Event) (device_id : string),
    consistent (fst (data_manager.run cfg events (data_manager.init device_id))).
Proof.
  intros cfg events device_id.
  assert (Hany : forall self, consistent self ->
                   consistent (fst (data_manager.run cfg events self))).
  { induction events as [|event later IH]; intros self Hself; [exact Hself|].
    cbn [data_manager.run].
    pose proof (step_keeps_consistent cfg event self Hself) as Hstep.
    destruct (data_manager.step cfg event self) as [self1 out1]. cbn [fst] in Hstep.
    specialize (IH self1 Hstep).
    destruct (data_manager.run cfg later self1) as [self2 out2]. exact IH. }
  apply Hany. unfold consistent. cbn.
  repeat split; try lia; try reflexivity; try discriminate.
Qed.

(** ** message_handler: heartbeats *)

(** X20.  A heartbeat needs a dict with a device.  [parse_heartbeat] returns data
    exactly when the payload loads as a dict with the key ['device_id'];
    the data then hold the value of that key, the value of ['status'] or
    "alive" when the key is missing, and the clock read.  A payload that
    loads as anything else is refused, also a list with the item
    "device_id" and a string that contains it, which pass the test for the
    required field. *)
Theorem heartbeat_needs_a_dict_with_a_device :
  forall (loaded : option message_handler.JSON) (now : datetime)
         (parsed : message_handler.HeartbeatData),
    message_handler.parse_heartbeat loaded now = Some parsed
    <-> exists members device_id,
          loaded = Some (message_handler.JDict members)
          /\ message_handler.lookup "device_id" members = Some device_id
          /\ parsed
             = {| message_handler.heartbeat_device_id := device_id;
                  message_handler.heartbeat_status :=
                    match message_handler.lookup "status" members with
                    | Some status => status
                    | None => message_handler.JString "alive"
                    end;
                  message_handler.heartbeat_timestamp := now |}.
Proof.
  intros loaded now parsed. unfold message_handler.parse_heartbeat. split.
  - destruct loaded as [data|]; [|discriminate].
    destruct data as [ |b|n|x|s|items|members]; cbn; try discriminate.
    + destruct (index 0 "device_id" s); discriminate.
    + destruct (existsb _ items); discriminate.
    + destruct (message_handler.lookup "device_id" members) as [device_id|] eqn:Hdevice;
        [|discriminate].
      intro H. injection H as <-. exists members, device_id.
      split; [reflexivity|]. split; [exact Hdevice|reflexivity].
  - intros (members & device_id & -> & Hdevice & ->). cbn. rewrite Hdevice. reflexivity.
Qed.

(** A heartbeat without status is "alive"; a list and a string that mention
    the device are refused. *)
Lemma heartbeat_examples :
  option_map message_handler.heartbeat_status
    (message_handler.parse_heartbeat
       (Some (message_handler.JDict
                [("device_id"%string, message_handler.JString "esp32-fridge-001")]))
       0)
  = Some (message_handler.JString "alive")
  /\ message_handler.parse_heartbeat
       (Some (message_handler.JList [message_handler.JString "device_id"])) 0
     = None
  /\ message_handler.parse_heartbeat
       (Some (message_handler.JString "my device_id")) 0
     = None.
Proof.
  split; [|split; reflexivity].
  destruct (heartbeat_needs_a_dict_with_a_device
              (Some (message_handler.JDict
                       [("device_id"%string, message_handler.JString "esp32-fridge-001")]))
              0
              {| message_handler.heartbeat_device_id :=
                   message_handler.JString "esp32-fridge-001";
                 message_handler.heartbeat_status := message_handler.JString "alive";
                 message_handler.heartbeat_timestamp := 0 |})
    as [_ Hparsed].
  rewrite Hparsed; [reflexivity|].
  eexists. eexists. split; [reflexivity|]. split; reflexivity.
Defined.
